(** * Matrix agent runtime: a shallow embedding of the memory-operation tool,
      the Ollama tool-calling service and the conversation session.

    Sources embedded here:
    - [src/core/brain/tools/definitions/memory/memory_operation.ts]
    - [src/core/brain/llm/services/ollama.ts]
    - [src/core/session/coversation-session.ts]

    Conventions.  JavaScript numbers are modelled by exact rationals ([Q]) when
    they carry scores and confidences and by integers ([Z]) when they carry
    identifiers, counters and clock readings; numeric literals denote their
    decimal value.  A sum or quotient computed in floating point is kept as
    a function of the rounding ([Float]).  A string is a sequence of
    characters with codes below 256.  A value that may be [undefined] is an [option].  Calls
    into collaborators whose code is outside the embedded files (embedder,
    vector store, LLM provider, tools) are answered by oracles: records or
    functions that list what each call returns or throws. *)

From Stdlib Require Import ZArith QArith Qround String Ascii List Lia Bool.
From stdpp Require Import gmap strings list.

Set Default Proof Using "Type".

(* ===================================================================== *)
(** * JavaScript values                                                   *)
(* ===================================================================== *)

Module Js.

(** What a [catch] clause can receive: an [Error] instance or any other
    thrown value. *)
Inductive Thrown : Type :=
| ErrorObj (message : string)
| NonError (value : string).

(** [error instanceof Error] *)
Definition instanceofError (t : Thrown) : bool :=
  match t with ErrorObj _ => true | NonError _ => false end.

(** [error instanceof Error ? error.message : String(error)] *)
Definition errorMessage (t : Thrown) : string :=
  match t with ErrorObj m => m | NonError v => v end.

(** Outcome of a call that either returns or throws. *)
Inductive result (A : Type) : Type :=
| Ok (a : A)
| Throw (e : Thrown).
Arguments Ok {A} a.
Arguments Throw {A} e.

Definition is_ok {A} (r : result A) : bool :=
  match r with Ok _ => true | Throw _ => false end.

(** Comparisons on numbers. *)
Definition ltb (a b : Q) : bool := negb (Qle_bool b a).
Definition gtb (a b : Q) : bool := ltb b a.
Definition leb (a b : Q) : bool := Qle_bool a b.
Definition geb (a b : Q) : bool := Qle_bool b a.

(** A number that comes out of floating-point arithmetic.  IEEE 754
    rounds the exact result of every operation to a double; such a number
    is kept as a function of that rounding, so that nothing is said of it
    that depends on how a particular sum or quotient rounds. *)
Definition Float : Type := (Q -> Q) -> Q.

Definition exactly (q : Q) : Float := fun _ => q.

(** [x + y] and [x / y] in floating point. *)
Definition fadd (x : Float) (y : Q) : Float := fun round => round (x round + y)%Q.
Definition fdiv (x : Float) (y : Q) : Float := fun round => round (x round / y)%Q.

(** [Math.min], [Math.max] *)
Definition min (a b : Q) : Q := if Qle_bool a b then a else b.
Definition max (a b : Q) : Q := if Qle_bool a b then b else a.

(** Truthiness, and the [x || d] idiom on possibly-undefined values. *)
Definition truthy_num (q : Q) : bool := negb (Qeq_bool q 0).
Definition truthy_int (z : Z) : bool := negb (z =? 0)%Z.
Definition truthy_str (s : string) : bool := negb (String.eqb s EmptyString).

Definition or_num (x : option Q) (d : Q) : Q :=
  match x with
  | Some q => if truthy_num q then q else d
  | None => d
  end.

Definition or_int (x : option Z) (d : Z) : Z :=
  match x with
  | Some z => if truthy_int z then z else d
  | None => d
  end.

(** [a || b] on possibly-undefined strings, result possibly undefined. *)
Definition or_str (x y : option string) : option string :=
  match x with
  | Some s => if truthy_str s then Some s else y
  | None => y
  end.

(** [x && { field: x }] spread into an object literal: the field is
    present exactly when [x] is a non-empty string. *)
Definition field_if_truthy (x : option string) : option string :=
  match x with
  | Some s => if truthy_str s then Some s else None
  | None => None
  end.

(** [s.toLowerCase()].  A string is a sequence of characters with codes
    below 256; the capital letters among them are A to Z (65 to 90) and
    the accented capitals 192 to 222 without the multiplication sign
    (215), each 32 below its small letter. *)
Definition lower_ascii (c : ascii) : ascii :=
  let n := nat_of_ascii c in
  if ((Nat.leb 65 n && Nat.leb n 90)
      || (Nat.leb 192 n && Nat.leb n 222 && negb (Nat.eqb n 215)))%bool
  then ascii_of_nat (n + 32) else c.

Fixpoint toLowerCase (s : string) : string :=
  match s with
  | EmptyString => EmptyString
  | String c s' => String (lower_ascii c) (toLowerCase s')
  end.

(** [s.includes(p)] *)
Fixpoint includes (s p : string) : bool :=
  if String.prefix p s then true
  else match s with
       | EmptyString => false
       | String _ s' => includes s' p
       end.

(** [s.trim()].  Of the characters below 256 the white space and line
    terminators are 9 to 13, the space (32) and the no-break space (160). *)
Definition is_space (c : ascii) : bool :=
  let n := nat_of_ascii c in
  (Nat.eqb n 32 || (Nat.leb 9 n && Nat.leb n 13) || Nat.eqb n 160)%bool.

Fixpoint trim_start (s : string) : string :=
  match s with
  | EmptyString => EmptyString
  | String c s' => if is_space c then trim_start s' else s
  end.

Fixpoint trim_end (s : string) : string :=
  match s with
  | EmptyString => EmptyString
  | String c s' =>
      match trim_end s' with
      | EmptyString => if is_space c then EmptyString else String c EmptyString
      | t => String c t
      end
  end.

Definition trim (s : string) : string := trim_end (trim_start s).

(** [Array.from(new Set(xs))]: first occurrences, in insertion order. *)
Fixpoint set_of (seen xs : list string) : list string :=
  match xs with
  | [] => []
  | x :: xs' =>
      if existsb (String.eqb x) seen then set_of seen xs'
      else x :: set_of (x :: seen) xs'
  end.

Definition array_from_set (xs : list string) : list string := set_of [] xs.

End Js.

Import Js.

(* ===================================================================== *)
(** * memory_operation.ts                                                 *)
(* ===================================================================== *)

Module MemoryOperation.

(** [MemoryAction.event] *)
Inductive Event : Type := ADD | UPDATE | DELETE | NONE.

Definition Event_eqb (a b : Event) : bool :=
  match a, b with
  | ADD, ADD | UPDATE, UPDATE | DELETE, DELETE | NONE, NONE => true
  | _, _ => false
  end.

(** [interface MemoryAction] *)
Record MemoryAction : Type := mkAction {
  id : Z;
  text : string;
  event : Event;
  tags : list string;
  old_memory : option string;
  code_pattern : option string;
  confidence : Q
}.

(** A vector-store search hit (typed [any] in the source); only the
    fields the tool reads. *)
Record SearchResult : Type := mkHit {
  hit_id : option Z;
  hit_score : option Q;
  hit_payload_id : option Z;
  hit_payload_data : option string;
  hit_text : option string
}.

(** [mem.payload?.data || mem.text || ''] *)
Definition memoryText (h : SearchResult) : string :=
  match or_str (hit_payload_data h) (hit_text h) with
  | Some s => s
  | None => EmptyString
  end.

(** The clock reading and the two random draws one call of
    [generateMemoryId] may consume. *)
Record Entropy : Type := mkEntropy {
  now : Z;          (* Date.now() *)
  random1 : Q;      (* first  Math.random() *)
  random2 : Q       (* second Math.random(), drawn only in the repair branch *)
}.

Definition valid_random (r : Q) : Prop := (0 <= r)%Q /\ (r < 1)%Q.
Definition valid_entropy (e : Entropy) : Prop :=
  valid_random (random1 e) /\ valid_random (random2 e).

(** [function generateMemoryId(index)]; [%] is the truncating remainder. *)
Definition generateMemoryId (e : Entropy) (index : Z) : Z :=
  let randomSuffix := Qfloor (random1 e * 1000) in
  let vectorId :=
    (1 + Z.rem (Z.rem (now e) 300000 * 1000 + randomSuffix + index) 333333)%Z in
  if (vectorId <=? 0)%Z then (Qfloor (random2 e * 333333) + 1)%Z else vectorId.

(** [async function determineMemoryOperation(...)] *)
Definition determineMemoryOperation
    (e : Entropy) (fact : string) (similarMemories : list SearchResult)
    (threshold : Q) (index : Z) (codePattern : option string)
    (tags : list string) : MemoryAction :=
  let factId := generateMemoryId e index in
  match similarMemories with
  | [] =>
      mkAction factId fact ADD tags None (field_if_truthy codePattern) 0.8
  | mostSimilar :: _ =>
      let similarity := or_num (hit_score mostSimilar) 0 in
      if gtb similarity 0.9 then
        mkAction factId fact NONE tags None (field_if_truthy codePattern) 0.9
      else if (gtb similarity threshold && leb similarity 0.9)%bool then
        mkAction factId fact UPDATE tags (Some (memoryText mostSimilar))
                 (field_if_truthy codePattern) 0.75
      else
        mkAction factId fact ADD tags None (field_if_truthy codePattern) 0.7
  end.

(** [function extractTechnicalTags(fact)] *)
Definition languages : list string :=
  ["javascript"; "typescript"; "python"; "java"; "rust"; "go"; "php";
   "ruby"; "swift"; "kotlin"].
Definition frameworks : list string :=
  ["react"; "vue"; "angular"; "svelte"; "nextjs"; "express"; "fastify";
   "django"; "flask"].
Definition tools : list string :=
  ["docker"; "kubernetes"; "git"; "npm"; "yarn"; "webpack"; "vite";
   "eslint"; "prettier"].

(** [xs.forEach(x => { if (fact.toLowerCase().includes(x)) tags.push(x) })] *)
Definition keyword_tags (fact : string) (xs : list string) : list string :=
  List.filter (fun x => includes (toLowerCase fact) x) xs.

(** One content-type test: push [tag] when the fact includes one of the
    [needles] (case-sensitively). *)
Definition content_tag (fact : string) (needles : list string) (tag : string)
  : list string :=
  if existsb (includes fact) needles then [tag] else [].

Definition backslash : string := String (ascii_of_nat 92) EmptyString.

Definition pushed_tags (fact : string) : list string :=
  keyword_tags fact languages ++
  keyword_tags fact frameworks ++
  keyword_tags fact tools ++
  content_tag fact ["```"] "code-block" ++
  content_tag fact ["function"; "class"; "const"; "let"; "var"] "programming" ++
  content_tag fact ["/"; backslash; ".js"; ".ts"; ".py"] "file-path" ++
  content_tag fact ["error"; "exception"; "failed"; "bug"] "error-handling" ++
  content_tag fact ["config"; "setting"; "option"] "configuration" ++
  content_tag fact ["api"; "endpoint"; "request"; "response"] "api".

Definition extractTechnicalTags (fact : string) : list string :=
  let tags := pushed_tags fact in
  let tags := match tags with [] => ["general-knowledge"] | _ => tags end in
  List.map toLowerCase (array_from_set tags).


(** ** LLM-assisted decision *)

(** [function isValidOperation(operation)], together with the cast of the
    accepted string to the event type. *)
Definition event_of_string (operation : string) : option Event :=
  if String.eqb operation "ADD" then Some ADD
  else if String.eqb operation "UPDATE" then Some UPDATE
  else if String.eqb operation "DELETE" then Some DELETE
  else if String.eqb operation "NONE" then Some NONE
  else None.

Definition isValidOperation (operation : string) : bool :=
  match event_of_string operation with Some _ => true | None => false end.

(** The object [parseLLMDecision] returns (its [reasoning] field is never
    read afterwards). *)
Record Decision : Type := mkDecision {
  operation : string;
  d_confidence : Q;
  targetMemoryId : option Z
}.

(** The object [JSON.parse] yields on the first [{...}] of the reply; ids
    are the integers [parseInt(String(id), 10)] reads. *)
Record JsonDecision : Type := mkJson {
  j_operation : option string;
  j_confidence : option Q;
  j_targetMemoryId : option Z;
  j_target_id : option Z;
  j_id : option Z
}.

(** [safeConvertId] *)
Definition safeConvertId (i : option Z) : option Z :=
  match i with
  | None => None
  | Some numId => if (numId >? 0)%Z then Some numId else None
  end.

(** [a || b] on possibly-undefined integers. *)
Definition or_opt_int (x y : option Z) : option Z :=
  match x with
  | Some z => if truthy_int z then Some z else y
  | None => y
  end.

(** The normalisation applied when the parsed object has a truthy
    [operation] and a numeric [confidence]. *)
Definition decisionOfJson (o : JsonDecision) : option Decision :=
  match j_operation o, j_confidence o with
  | Some op, Some c =>
      if truthy_str op then
        Some (mkDecision op (max 0 (min 1 c))
                (safeConvertId
                   (or_opt_int (or_opt_int (j_targetMemoryId o) (j_target_id o))
                               (j_id o))))
      else None
  | _, _ => None
  end.

(** A reply of the decision LLM, seen through [parseLLMDecision]: the
    object its first [{...}] parses to (if any), and what the text-level
    fallbacks (substring scan, regex, keywords) make of the reply.  The
    regular expressions themselves are not embedded. *)
Record LLMReply : Type := mkReply {
  reply_json : option JsonDecision;
  reply_fallbacks : option Decision
}.

(** [function parseLLMDecision(response)] *)
Definition parseLLMDecision (r : LLMReply) : option Decision :=
  match reply_json r with
  | Some o =>
      match decisionOfJson o with
      | Some d => Some d
      | None => reply_fallbacks r
      end
  | None => reply_fallbacks r
  end.

(** [similarMemories.find(mem => mem.id === t || mem.payload?.id === t)] *)
Definition is_target (t : Z) (mem : SearchResult) : bool :=
  (match hit_id mem with Some i => (i =? t)%Z | None => false end
   || match hit_payload_id mem with Some i => (i =? t)%Z | None => false end)%bool.

(** [async function llmDetermineMemoryOperation(...)].  [reply] is what
    [llmService.directGenerate(prompt)] returned or threw; the prompt text
    only reaches the LLM and is not embedded. *)
Definition llmDetermineMemoryOperation
    (e : Entropy) (fact : string) (similarMemories : list SearchResult)
    (reply : result LLMReply) (index : Z) (codePattern : option string)
    (tags : list string) : result MemoryAction :=
  let factId := generateMemoryId e index in
  match reply with
  | Throw err => Throw err
  | Ok response =>
      match parseLLMDecision response with
      | None => Throw (ErrorObj "Invalid LLM decision: null")
      | Some decision =>
          match event_of_string (operation decision) with
          | None => Throw (ErrorObj "Invalid LLM decision")
          | Some ev =>
              let id0 := or_int (targetMemoryId decision) factId in
              let conf := max 0 (min 1 (or_num (Some (d_confidence decision)) 0.7)) in
              let old :=
                match ev, targetMemoryId decision with
                | UPDATE, Some t =>
                    if truthy_int t then
                      match List.find (is_target t) similarMemories with
                      | Some targetMemory => Some (memoryText targetMemory)
                      | None => None
                      end
                    else None
                | _, _ => None
                end in
              let id1 := if (id0 <=? 0)%Z then factId else id0 in
              Ok (mkAction id1 fact ev tags old (field_if_truthy codePattern) conf)
          end
      end
  end.


(** ** Arguments, options and validation *)

(** [MemoryOperationArgs.options] as the interface types it: finite
    numbers and booleans under the keys that are present; [None] is an
    absent key.  What validation and the merge do with other values
    ([undefined], [NaN], values of another type) is embedded in
    [RawArguments]. *)
Record OptionsArg : Type := mkOptionsArg {
  a_similarityThreshold : option Q;
  a_maxSimilarResults : option Q;
  a_enableBatchProcessing : option bool;
  a_useLLMDecisions : option bool;
  a_confidenceThreshold : option Q;
  a_enableDeleteOperations : option bool
}.

Record Options : Type := mkOptions {
  similarityThreshold : Q;
  maxSimilarResults : Q;
  enableBatchProcessing : bool;
  useLLMDecisions : bool;
  confidenceThreshold : Q;
  enableDeleteOperations : bool
}.

Definition DEFAULT_OPTIONS : Options := mkOptions 0.7 5 true true 0.4 true.

(** [{ ...DEFAULT_OPTIONS, ...args.options }] *)
Definition mergeOptions (a : option OptionsArg) : Options :=
  match a with
  | None => DEFAULT_OPTIONS
  | Some o =>
      mkOptions
        (default (similarityThreshold DEFAULT_OPTIONS) (a_similarityThreshold o))
        (default (maxSimilarResults DEFAULT_OPTIONS) (a_maxSimilarResults o))
        (default (enableBatchProcessing DEFAULT_OPTIONS) (a_enableBatchProcessing o))
        (default (useLLMDecisions DEFAULT_OPTIONS) (a_useLLMDecisions o))
        (default (confidenceThreshold DEFAULT_OPTIONS) (a_confidenceThreshold o))
        (default (enableDeleteOperations DEFAULT_OPTIONS) (a_enableDeleteOperations o))
  end.

Record ExistingMemory : Type := mkExisting {
  em_id : string;
  em_text : string
}.

(** [interface MemoryOperationArgs].  The [context] argument only feeds
    the LLM prompt and validation checks that its typed string fields are
    strings, so it is left out. *)
Record MemoryOperationArgs : Type := mkArgs {
  extractedFacts : option (list string);
  existingMemories : option (list ExistingMemory);
  options : option OptionsArg
}.

Inductive ValidationError : Type :=
| ExtractedFactsRequired
| ExtractedFactsEmpty
| ExistingMemoryIdEmpty (index : nat)
| ExistingMemoryTextEmpty (index : nat)
| SimilarityThresholdOutOfRange
| MaxSimilarResultsOutOfRange
| ConfidenceThresholdOutOfRange
| SimilarityThresholdNotNumber
| MaxSimilarResultsNotNumber
| ConfidenceThresholdNotNumber
| EnableBatchProcessingNotBoolean
| UseLLMDecisionsNotBoolean
| EnableDeleteOperationsNotBoolean.

Definition out_of_range (lo hi : Q) (x : option Q) : bool :=
  match x with
  | Some q => (ltb q lo || gtb q hi)%bool
  | None => false
  end.

Fixpoint validateExisting (index : nat) (ms : list ExistingMemory)
  : list ValidationError :=
  match ms with
  | [] => []
  | m :: ms' =>
      (if truthy_str (em_id m) then [] else [ExistingMemoryIdEmpty index]) ++
      (if truthy_str (em_text m) then [] else [ExistingMemoryTextEmpty index]) ++
      validateExisting (S index) ms'
  end.

(** [function validateMemoryOperationArgs(args)]: the list [errors], on
    arguments of the declared types. *)
Definition validateMemoryOperationArgs (args : MemoryOperationArgs)
  : list ValidationError :=
  (match extractedFacts args with
   | None => [ExtractedFactsRequired]
   | Some [] => [ExtractedFactsEmpty]
   | Some _ => []
   end) ++
  (match existingMemories args with
   | Some ms => validateExisting 0 ms
   | None => []
   end) ++
  (match options args with
   | Some o =>
       (if out_of_range 0 1 (a_similarityThreshold o)
        then [SimilarityThresholdOutOfRange] else []) ++
       (if out_of_range 1 20 (a_maxSimilarResults o)
        then [MaxSimilarResultsOutOfRange] else []) ++
       (if out_of_range 0 1 (a_confidenceThreshold o)
        then [ConfidenceThresholdOutOfRange] else [])
   | None => []
   end).

(** ** Collaborators *)

(** [context?.services]: which services are present and what the two
    accessors return ([Ok true]: an object, [Ok false]: null). *)
Record ServiceContext : Type := mkServices {
  hasEmbeddingManager : bool;
  hasVectorStoreManager : bool;
  hasLlmService : bool;
  getEmbedder : result bool;
  getStore : result bool
}.

(** What the collaborators answer while fact number [i] is processed. *)
Record FactOracle : Type := mkFactOracle {
  embed_fact : result unit;                 (* embedder.embed(fact) *)
  search_fact : result (list SearchResult); (* vectorStore.search(...) *)
  llm_reply : result LLMReply;              (* llmService.directGenerate(...) *)
  entropy_llm : Entropy;    (* generateMemoryId in llmDetermineMemoryOperation *)
  entropy_sim : Entropy;    (* generateMemoryId in determineMemoryOperation *)
  entropy_handler : Entropy (* generateMemoryId called by the handler itself *)
}.

(** The process-wide embedding state and the events emitted so far. *)
Record EmbeddingSystem : Type := mkSystem {
  embeddingsDisabled : bool;
  emitted : list string
}.

(** Modelled from the spec: [EmbeddingManager.handleRuntimeFailure], whose
    code is not among the sources.  Per the spec an embedding failure
    disables embeddings globally and emits [memory:operationFailed]. *)
Definition handleRuntimeFailure (sys : EmbeddingSystem) : EmbeddingSystem :=
  mkSystem true (emitted sys ++ ["memory:operationFailed"]).

(** ** Persistence *)

Inductive QualitySource : Type := similarity | llm | heuristic.

Record KnowledgePayload : Type := mkPayload {
  p_id : Z;
  p_text : string;
  p_tags : list string;
  p_confidence : Q;
  p_event : Event;
  p_qualitySource : QualitySource;
  p_codePattern : option string;
  p_oldMemory : option string
}.

(** Modelled from the spec: [createKnowledgePayload] of [payloads.ts],
    which is not among the sources.  The spec gives the vector-store
    payload as [{id, text, tags, confidence, event, qualitySource,
    codePattern?, oldMemory?}]; the last three come from the call's
    options object. *)
Definition createKnowledgePayload
    (i : Z) (t : string) (tg : list string) (c : Q) (ev : Event)
    (qualitySource : QualitySource) (codePattern oldMemory : option string)
  : KnowledgePayload :=
  mkPayload i t tg c ev qualitySource codePattern oldMemory.

(** Calls made on the vector store. *)
Inductive StoreCall : Type :=
| Insert (i : Z) (payload : KnowledgePayload)
| Update (i : Z) (payload : KnowledgePayload).

Definition payload_of (c : StoreCall) : KnowledgePayload :=
  match c with Insert _ p => p | Update _ p => p end.

Definition needs_persistence (a : MemoryAction) : bool :=
  match event a with ADD | UPDATE => true | _ => false end.

(** The [for (const action of actionsToProcess)] loop of
    [persistMemoryActions]; [embed k] answers the embedding request of the
    [k]-th processed action.  A store call that throws is caught and the
    loop goes on, so the calls made do not depend on their outcome. *)
Fixpoint persistLoop (embed : nat -> result unit) (k : nat)
    (actionsToProcess : list MemoryAction) : list StoreCall :=
  match actionsToProcess with
  | [] => []
  | action :: rest =>
      match embed k with
      | Throw _ => (* continue *) persistLoop embed (S k) rest
      | Ok _ =>
          let qualitySource := heuristic in
          let payload :=
            createKnowledgePayload (id action) (text action) (tags action)
              (confidence action) (event action) qualitySource
              (field_if_truthy (code_pattern action))
              (field_if_truthy (old_memory action)) in
          match event action with
          | ADD => Insert (id action) payload :: persistLoop embed (S k) rest
          | UPDATE => Update (id action) payload :: persistLoop embed (S k) rest
          | _ => persistLoop embed (S k) rest
          end
      end
  end.

(** [async function persistMemoryActions(memoryActions, vectorStore, embedder)] *)
Definition persistMemoryActions (embed : nat -> result unit)
    (memoryActions : list MemoryAction) : list StoreCall :=
  let actionsToProcess := List.filter needs_persistence memoryActions in
  match actionsToProcess with
  | [] => []
  | _ => persistLoop embed 0 actionsToProcess
  end.


(** ** The tool handler *)

(** The mutable locals of the handler's loop, with the process-wide
    embedding state the loop may touch. *)
Record LoopState : Type := mkLoop {
  st_memoryActions : list MemoryAction;
  st_totalSimilarMemories : nat;
  st_confidenceSum : Float;
  st_llmDecisionsUsed : nat;
  st_fallbackDecisionsUsed : nat;
  st_system : EmbeddingSystem
}.

Record Statistics : Type := mkStatistics {
  addOperations : nat;
  updateOperations : nat;
  deleteOperations : nat;
  noneOperations : nat;
  totalSimilarMemories : nat;
  averageConfidence : Float;
  llmDecisionsUsed : nat;
  fallbackDecisionsUsed : nat
}.

Inductive HandlerError : Type :=
| InvalidArguments (errors : list ValidationError)
| NoValidFacts.

(** [interface MemoryOperationResult], without the wall-clock fields. *)
Record MemoryOperationResult : Type := mkResult {
  success : bool;
  totalFacts : nat;
  processedFacts : nat;
  skippedFacts : nat;
  memory : list MemoryAction;
  statistics : Statistics;
  error : option HandlerError
}.

Definition count_event (ev : Event) (actions : list MemoryAction) : nat :=
  List.length (List.filter (fun a => Event_eqb (event a) ev) actions).

Definition set_event (ev : Event) (a : MemoryAction) : MemoryAction :=
  mkAction (id a) (text a) ev (tags a) (old_memory a) (code_pattern a)
           (confidence a).

(** "Apply confidence threshold" *)
Definition applyConfidenceThreshold (opts : Options)
    (memoryAction : MemoryAction) : MemoryAction :=
  if (ltb (confidence memoryAction) (confidenceThreshold opts)
      && negb (Event_eqb (event memoryAction) NONE))%bool
  then set_event NONE memoryAction
  else memoryAction.

(** The tail of the loop body: the confidence gate, then
    [memoryActions.push(memoryAction)] and
    [confidenceSum += memoryAction.confidence]. *)
Definition pushAction (opts : Options) (st : LoopState)
    (memoryAction : MemoryAction) : LoopState :=
  let memoryAction := applyConfidenceThreshold opts memoryAction in
  mkLoop (st_memoryActions st ++ [memoryAction])
         (st_totalSimilarMemories st)
         (fadd (st_confidenceSum st) (confidence memoryAction))
         (st_llmDecisionsUsed st)
         (st_fallbackDecisionsUsed st)
         (st_system st).

Definition add_similar (n : nat) (st : LoopState) : LoopState :=
  mkLoop (st_memoryActions st) (st_totalSimilarMemories st + n)
         (st_confidenceSum st) (st_llmDecisionsUsed st)
         (st_fallbackDecisionsUsed st) (st_system st).

Definition incr_llm (st : LoopState) : LoopState :=
  mkLoop (st_memoryActions st) (st_totalSimilarMemories st)
         (st_confidenceSum st) (S (st_llmDecisionsUsed st))
         (st_fallbackDecisionsUsed st) (st_system st).

Definition incr_fallback (st : LoopState) : LoopState :=
  mkLoop (st_memoryActions st) (st_totalSimilarMemories st)
         (st_confidenceSum st) (st_llmDecisionsUsed st)
         (S (st_fallbackDecisionsUsed st)) (st_system st).

Definition set_system (sys : EmbeddingSystem) (st : LoopState) : LoopState :=
  mkLoop (st_memoryActions st) (st_totalSimilarMemories st)
         (st_confidenceSum st) (st_llmDecisionsUsed st)
         (st_fallbackDecisionsUsed st) sys.

Section Handler.

(** [extractCodePattern] and [calculateTextSimilarity] are built on
    regular expressions; the handler is embedded over any behaviour of
    the two. *)
Variable extractCodePattern : string -> option string.
Variable calculateTextSimilarity : string -> string -> Q.

(** One iteration of [for (let i = 0; i < validFacts.length; i++)]. *)
Definition processFact
    (args : MemoryOperationArgs) (opts : Options)
    (embedder vectorStore llmService : bool)
    (o : FactOracle) (st : LoopState) (i : nat) (fact : string)
  : LoopState :=
  let codePattern := extractCodePattern fact in
  let tags := extractTechnicalTags fact in
  if (embedder && vectorStore)%bool then
    match embed_fact o with
    | Throw embedError =>
        (* "Immediately disable embeddings globally on first failure" *)
        let st :=
          if instanceofError embedError
          then set_system (handleRuntimeFailure (st_system st)) st
          else st in
        (* "Fallback to ADD operation since embeddings are now disabled" *)
        let memoryAction :=
          mkAction (generateMemoryId (entropy_handler o) (Z.of_nat i)) fact
                   ADD tags None (field_if_truthy codePattern) 0.6 in
        let st := incr_fallback st in
        (* continue *)
        st
    | Ok _ =>
        match search_fact o with
        | Throw _ =>
            (* catch: "Error during similarity analysis, falling back to ADD" *)
            let memoryAction :=
              mkAction (generateMemoryId (entropy_handler o) (Z.of_nat i)) fact
                       ADD tags None (field_if_truthy codePattern) 0.6 in
            pushAction opts (incr_fallback st) memoryAction
        | Ok searchResults =>
            let similarMemories :=
              List.filter
                (fun r => geb (or_num (hit_score r) 0) (similarityThreshold opts))
                searchResults in
            let st := add_similar (List.length similarMemories) st in
            if (useLLMDecisions opts && llmService)%bool then
              match llmDetermineMemoryOperation (entropy_llm o) fact
                      similarMemories (llm_reply o) (Z.of_nat i) codePattern tags
              with
              | Ok memoryAction => pushAction opts (incr_llm st) memoryAction
              | Throw _ =>
                  (* "Fallback to similarity-based decision" *)
                  pushAction opts (incr_fallback st)
                    (determineMemoryOperation (entropy_sim o) fact similarMemories
                       (similarityThreshold opts) (Z.of_nat i) codePattern tags)
              end
            else
              pushAction opts (incr_fallback st)
                (determineMemoryOperation (entropy_sim o) fact similarMemories
                   (similarityThreshold opts) (Z.of_nat i) codePattern tags)
        end
    end
  else
    (* "No embedding/vector storage available - basic analysis" *)
    let isNew :=
      negb (match existingMemories args with
            | Some ms =>
                existsb (fun mem =>
                           gtb (calculateTextSimilarity fact (em_text mem))
                               (similarityThreshold opts)) ms
            | None => false
            end) in
    let memoryAction :=
      mkAction (generateMemoryId (entropy_handler o) (Z.of_nat i)) fact
               (if isNew then ADD else NONE) tags None
               (field_if_truthy codePattern)
               (if isNew then 0.7 else 0.5) in
    pushAction opts (incr_fallback st) memoryAction.

Fixpoint processFacts
    (args : MemoryOperationArgs) (opts : Options)
    (embedder vectorStore llmService : bool)
    (oracle : nat -> FactOracle) (i : nat) (validFacts : list string)
    (st : LoopState) : LoopState :=
  match validFacts with
  | [] => st
  | fact :: rest =>
      processFacts args opts embedder vectorStore llmService oracle (S i) rest
        (processFact args opts embedder vectorStore llmService (oracle i) st i fact)
  end.

(** The result returned from the outer [catch]. *)
Definition failureResult (args : MemoryOperationArgs) (err : HandlerError)
  : MemoryOperationResult :=
  let n := match extractedFacts args with Some fs => List.length fs | None => 0 end in
  mkResult false n 0 n [] (mkStatistics 0 0 0 0 0 (exactly 0) 0 0) (Some err).

(** [embedder] and [vectorStore] after "Initialize embedding and vector
    services". *)
Definition resolveEmbedder (ctx : option ServiceContext) : bool :=
  match ctx with
  | Some c =>
      if (hasEmbeddingManager c && hasVectorStoreManager c)%bool then
        match getEmbedder c with Ok b => b | Throw _ => false end
      else false
  | None => false
  end.

Definition resolveVectorStore (ctx : option ServiceContext) : bool :=
  match ctx with
  | Some c =>
      if (hasEmbeddingManager c && hasVectorStoreManager c)%bool then
        match getEmbedder c with
        | Ok _ => match getStore c with Ok b => b | Throw _ => false end
        | Throw _ => false
        end
      else false
  | None => false
  end.

(** [memoryOperationTool.handler(args, context)].  Returns the tool
    result, the embedding state afterwards and the calls made on the
    vector store. *)
Definition handler
    (args : MemoryOperationArgs) (ctx : option ServiceContext)
    (oracle : nat -> FactOracle) (persist_embed : nat -> result unit)
    (sys : EmbeddingSystem)
  : MemoryOperationResult * EmbeddingSystem * list StoreCall :=
  match validateMemoryOperationArgs args with
  | (_ :: _) as errors => (failureResult args (InvalidArguments errors), sys, [])
  | [] =>
      let opts := mergeOptions (options args) in
      let facts := default [] (extractedFacts args) in
      let validFacts :=
        List.map trim (List.filter (fun fact => truthy_str (trim fact)) facts) in
      match validFacts with
      | [] => (failureResult args NoValidFacts, sys, [])
      | _ =>
          let embedder := resolveEmbedder ctx in
          let vectorStore := resolveVectorStore ctx in
          let llmService :=
            match ctx with Some c => hasLlmService c | None => false end in
          let st :=
            processFacts args opts embedder vectorStore llmService oracle 0
              validFacts (mkLoop [] 0 (exactly 0) 0 0 sys) in
          let memoryActions := st_memoryActions st in
          let averageConfidence :=
            if Nat.ltb 0 (List.length memoryActions)
            then fdiv (st_confidenceSum st)
                   (inject_Z (Z.of_nat (List.length memoryActions)))
            else exactly 0 in
          let res :=
            mkResult true (List.length facts) (List.length validFacts)
              (List.length facts - List.length validFacts)
              memoryActions
              (mkStatistics
                 (count_event ADD memoryActions)
                 (count_event UPDATE memoryActions)
                 (count_event DELETE memoryActions)
                 (count_event NONE memoryActions)
                 (st_totalSimilarMemories st)
                 averageConfidence
                 (st_llmDecisionsUsed st)
                 (st_fallbackDecisionsUsed st))
              None in
          let calls :=
            if (vectorStore && embedder)%bool
            then persistMemoryActions persist_embed memoryActions
            else [] in
          (res, st_system st, calls)
      end
  end.

End Handler.

End MemoryOperation.

Import MemoryOperation.


(* ===================================================================== *)
(** * Messages and the context manager                                    *)
(* ===================================================================== *)

Module Messages.

Inductive Role : Type := user | assistant | tool | system.

(** [ToolCall]: [{id, function: {name, arguments}}] *)
Record ToolCall : Type := mkToolCall {
  tc_id : string;
  tc_name : string;
  tc_arguments : string
}.

(** What a message carries: text, nothing (an assistant turn that only
    calls tools), a tool's result, or an [{error: ...}] object. *)
Inductive Content : Type :=
| Text (s : string)
| NoContent
| ToolOutput (r : string)
| ErrorPayload (error : string).

Record Message : Type := mkMessage {
  role : Role;
  content : Content;
  toolCalls : list ToolCall;
  toolCallId : option string;
  name : option string
}.

(** A database of the deployment; a storage manager is identified by the
    database it is configured for. *)
Definition StoreId : Type := nat.

(** [IConversationHistoryProvider]: the providers a session builds, by
    [createDatabaseHistoryProvider(storageManager)] and by
    [createMultiBackendHistoryProvider(primary, backup, wal, flushIntervalMs)]. *)
Inductive HistoryProvider : Type :=
| DatabaseProvider (storage : StoreId)
| MultiBackendProvider (primary backup : StoreId).

(** Modelled from the spec: the context manager ([messages/manager.ts] is
    not among the sources).  It holds the ordered transcript of one session
    and a reference to the history provider it mediates with. *)
Record ContextManager : Type := mkContextManager {
  cm_messages : list Message;
  cm_historyProvider : option HistoryProvider;
  cm_sessionId : string
}.

Definition append_message (cm : ContextManager) (m : Message) : ContextManager :=
  mkContextManager (cm_messages cm ++ [m]) (cm_historyProvider cm) (cm_sessionId cm).

(** [addUserMessage(text)] *)
Definition addUserMessage (cm : ContextManager) (input : string) : ContextManager :=
  append_message cm (mkMessage user (Text input) [] None None).

(** [addAssistantMessage(text, toolCalls?)] *)
Definition addAssistantMessage (cm : ContextManager) (c : Content)
    (calls : list ToolCall) : ContextManager :=
  append_message cm (mkMessage assistant c calls None None).

(** [addToolResult(callId, name, payload)] *)
Definition toolResultMessage (callId toolName : string) (payload : Content) : Message :=
  mkMessage tool payload [] (Some callId) (Some toolName).

Definition addToolResult (cm : ContextManager) (callId toolName : string)
    (payload : Content) : ContextManager :=
  append_message cm (toolResultMessage callId toolName payload).

(** [getRawMessages()], [clearMessages()], [setMessages(list)] *)
Definition getRawMessages (cm : ContextManager) : list Message := cm_messages cm.

Definition clearMessages (cm : ContextManager) : ContextManager :=
  mkContextManager [] (cm_historyProvider cm) (cm_sessionId cm).

Definition setMessages (cm : ContextManager) (ms : list Message) : ContextManager :=
  mkContextManager ms (cm_historyProvider cm) (cm_sessionId cm).

Definition setHistoryProvider (cm : ContextManager) (p : HistoryProvider)
  : ContextManager :=
  mkContextManager (cm_messages cm) (Some p) (cm_sessionId cm).

End Messages.

Import Messages.

(* ===================================================================== *)
(** * ollama.ts                                                           *)
(* ===================================================================== *)

Module Ollama.

(** [String(e)] of a caught value. *)
Definition stringOf (e : Thrown) : string :=
  match e with
  | ErrorObj m => "Error: " ++ m
  | NonError v => v
  end.

(** [tool_choice]: ['auto'] or ['none'] *)
Inductive ToolChoice : Type := choice_auto | choice_none.

(** A tool formatted for the provider. *)
Record Tool : Type := mkTool {
  tool_name : string;
  tool_description : string
}.

(** [response.choices[0].message] *)
Record ProviderMessage : Type := mkProviderMessage {
  m_content : option string;
  m_tool_calls : option (list ToolCall)
}.

(** What one pass through the [try] block of [getAIResponseWithRetries]
    runs into. *)
Inductive AttemptOutcome : Type :=
| FormatThrows (e : Thrown)    (* contextManager.getFormattedMessage throws *)
| CreateThrows (e : Thrown)    (* openai.chat.completions.create throws *)
| NoMessage                    (* response.choices[0]?.message is missing *)
| Replies (m : ProviderMessage).

(** What the helper does that can be observed from outside. *)
Inductive Action : Type :=
| ProviderCall (attempt : nat) (tools : list Tool) (tool_choice : ToolChoice)
| AttemptFailed (attempt : nat) (e : Thrown)  (* the catch block is entered *)
| Sleep (ms : nat).                           (* setTimeout(resolve, ms) *)

Definition MAX_ATTEMPTS : nat := 3.

(** The request of attempt number [attempts]. *)
Definition request (attempts : nat) (tools : list Tool) : Action :=
  ProviderCall attempts
    (if Nat.eqb attempts 1 then tools else [])
    (if Nat.eqb attempts 1 then choice_auto else choice_none).

(** The [while (attempts < MAX_ATTEMPTS)] loop; [fuel] bounds the number of
    iterations and [None] means it ran out. *)
Fixpoint retryLoop (fuel : nat) (attempts : nat) (tools : list Tool)
    (oracle : nat -> AttemptOutcome) : option (list Action * result ProviderMessage) :=
  match fuel with
  | O => None
  | S fuel' =>
      if Nat.ltb attempts MAX_ATTEMPTS then
        let attempts := S attempts in
        let failed (done : list Action) (error : Thrown) :=
          if Nat.leb MAX_ATTEMPTS attempts then
            Some (done ++ [AttemptFailed attempts error], Throw error)
          else
            match retryLoop fuel' attempts tools oracle with
            | Some (later, r) =>
                Some (done ++ [AttemptFailed attempts error; Sleep (500 * attempts)]
                           ++ later, r)
            | None => None
            end in
        match oracle attempts with
        | FormatThrows e => failed [] e
        | CreateThrows e => failed [request attempts tools] e
        | NoMessage =>
            failed [request attempts tools]
                   (ErrorObj "Received empty message from Ollama API")
        | Replies message => Some ([request attempts tools], Ok message)
        end
      else
        Some ([], Throw (ErrorObj "Failed to get response after maximum retry attempts"))
  end.

(** [private async getAIResponseWithRetries(tools, userInput)] *)
Definition getAIResponseWithRetries (tools : list Tool)
    (oracle : nat -> AttemptOutcome) : option (list Action * result ProviderMessage) :=
  retryLoop (S MAX_ATTEMPTS) 0 tools oracle.

(** The error attempt [k] ends with, if it fails. *)
Definition attempt_error (o : AttemptOutcome) : option Thrown :=
  match o with
  | FormatThrows e | CreateThrows e => Some e
  | NoMessage => Some (ErrorObj "Received empty message from Ollama API")
  | Replies _ => None
  end.

(** ** The tool-calling loop of [generate] *)

Inductive SessionEvent : Type :=
| LLM_RESPONSE_STARTED
| LLM_THINKING
| LLM_RESPONSE_COMPLETED (response : string).

(** The state [generate] works on: the context manager, the tools executed
    so far (name and parsed arguments) and the events emitted. *)
Record ServiceState : Type := mkServiceState {
  contextManager : ContextManager;
  executions : list (string * string);
  events : list SessionEvent
}.

Definition with_context (cm : ContextManager) (st : ServiceState) : ServiceState :=
  mkServiceState cm (executions st) (events st).

Definition record_execution (toolName args : string) (st : ServiceState) : ServiceState :=
  mkServiceState (contextManager st) (executions st ++ [(toolName, args)]) (events st).

Definition emit (canEmit : bool) (ev : SessionEvent) (st : ServiceState) : ServiceState :=
  if canEmit then mkServiceState (contextManager st) (executions st) (events st ++ [ev])
  else st.

Section Generate.

(** [JSON.parse] on an arguments string: the parsed value (kept as text) or
    the [SyntaxError] thrown. *)
Variable JSON_parse : string -> result string.

(** [executeTool(toolName, args, sessionId)]; the first argument is the
    number of tools executed before this one in the run. *)
Variable executeTool : nat -> string -> string -> result string.

(** [for (const toolCall of message.tool_calls)] *)
Fixpoint handleToolCalls (calls : list ToolCall) (st : ServiceState) : ServiceState :=
  match calls with
  | [] => st
  | toolCall :: rest =>
      let toolName := tc_name toolCall in
      match JSON_parse (tc_arguments toolCall) with
      | Throw e =>
          let st :=
            with_context
              (addToolResult (contextManager st) (tc_id toolCall) toolName
                 (ErrorPayload ("Failed to parse arguments: " ++ stringOf e)))
              st in
          (* continue *)
          handleToolCalls rest st
      | Ok args =>
          let outcome := executeTool (List.length (executions st)) toolName args in
          let st := record_execution toolName args st in
          match outcome with
          | Ok r =>
              handleToolCalls rest
                (with_context
                   (addToolResult (contextManager st) (tc_id toolCall) toolName
                      (ToolOutput r)) st)
          | Throw error =>
              handleToolCalls rest
                (with_context
                   (addToolResult (contextManager st) (tc_id toolCall) toolName
                      (ErrorPayload (errorMessage error))) st)
          end
      end
  end.

(** The [while (iterationCount < this.maxIterations)] loop, by recursion on
    the iterations left; [provider i] answers the attempts of iteration
    [i]. *)
Fixpoint iterate (remaining : nat) (iterationCount : nat) (canEmit : bool)
    (formattedTools : list Tool) (provider : nat -> nat -> AttemptOutcome)
    (st : ServiceState) : option (ServiceState * result string) :=
  match remaining with
  | O => Some (st, Throw (ErrorObj "Maximum iterations exceeded"))
  | S remaining' =>
      let iterationCount := S iterationCount in
      match getAIResponseWithRetries formattedTools (provider iterationCount) with
      | None => None
      | Some (_, Throw e) => Some (st, Throw e)
      | Some (_, Ok message) =>
          match m_tool_calls message with
          | None | Some [] =>
              let responseText := default EmptyString (field_if_truthy (m_content message)) in
              let st :=
                with_context
                  (addAssistantMessage (contextManager st) (Text responseText) []) st in
              let st := emit canEmit (LLM_RESPONSE_COMPLETED responseText) st in
              Some (st, Ok responseText)
          | Some tool_calls =>
              let thinking :=
                match m_content message with
                | Some c => truthy_str (trim c)
                | None => false
                end in
              let st := if thinking then emit canEmit LLM_THINKING st else st in
              let st :=
                with_context
                  (addAssistantMessage (contextManager st)
                     (match m_content message with
                      | Some c => Text c
                      | None => NoContent
                      end)
                     tool_calls) st in
              iterate remaining' iterationCount canEmit formattedTools provider
                (handleToolCalls tool_calls st)
          end
      end
  end.

(** [async generate(userInput, imageData?)] *)
Definition generate (maxIterations : nat) (canEmit : bool)
    (formattedTools : list Tool) (provider : nat -> nat -> AttemptOutcome)
    (cm : ContextManager) (userInput : string)
  : option (ServiceState * result string) :=
  let st := mkServiceState (addUserMessage cm userInput) [] [] in
  let st := emit canEmit LLM_RESPONSE_STARTED st in
  iterate maxIterations 0 canEmit formattedTools provider st.

End Generate.

End Ollama.

Import Ollama.

(* ===================================================================== *)
(** * coversation-session.ts: persistence                                 *)
(* ===================================================================== *)

Module Session.

(** [historyBackend]: ['database'] or ['memory'] *)
Inductive HistoryBackend : Type := backend_database | backend_memory.

Inductive Formatter : Type :=
| OpenAIMessageFormatter
| AzureMessageFormatter
| AnthropicMessageFormatter.

(** [private getFormatterForProvider(provider)] *)
Definition getFormatterForProvider (provider : string) : result Formatter :=
  let normalizedProvider := toLowerCase provider in
  if existsb (String.eqb normalizedProvider)
       ["openai"; "openrouter"; "ollama"; "lmstudio"; "qwen"; "gemini"]
  then Ok OpenAIMessageFormatter
  else if String.eqb normalizedProvider "azure" then Ok AzureMessageFormatter
  else if existsb (String.eqb normalizedProvider) ["anthropic"; "aws"]
  then Ok AnthropicMessageFormatter
  else Throw (ErrorObj ("Unsupported provider: " ++ provider)).

(** The databases of the deployment: the transcript stored under each
    (database, session id). *)
Abbreviation Stores := (gmap (StoreId * string) (list Message)).

(** Modelled from the spec: the database history provider
    ([messages/history], not among the sources) "saves messages to a table
    keyed by (sessionId, seq)"; reads return them in order.  Its
    operations are taken to succeed, also over a storage manager whose
    [connect()] was rejected. *)
Definition getHistory (w : Stores) (p : StoreId) (sessionId : string) : list Message :=
  default [] (w !! (p, sessionId)).

Definition saveMessage (w : Stores) (p : StoreId) (sessionId : string)
    (m : Message) : Stores :=
  <[(p, sessionId) := getHistory w p sessionId ++ [m]]> w.

Definition clearHistory (w : Stores) (p : StoreId) (sessionId : string) : Stores :=
  delete (p, sessionId) w.

(** Modelled from the spec: the multi-backend provider "owns a primary, a
    backup, and a WAL.  Writes go to the WAL synchronously and are fanned
    out to primary and backup on the flush tick.  Reads prefer primary".
    The WAL is the provider's own memory, flushed on a timer
    ([flushIntervalMs], 5000 ms unless configured): a write through the
    multi-backend provider leaves the databases as they are until the next
    tick, and a read gives what the primary holds. *)
Definition provider_getHistory (w : Stores) (p : HistoryProvider)
    (sessionId : string) : list Message :=
  match p with
  | DatabaseProvider storage => getHistory w storage sessionId
  | MultiBackendProvider primary _ => getHistory w primary sessionId
  end.

Definition provider_saveMessage (w : Stores) (p : HistoryProvider)
    (sessionId : string) (m : Message) : Stores :=
  match p with
  | DatabaseProvider storage => saveMessage w storage sessionId m
  | MultiBackendProvider _ _ => w
  end.

Definition provider_clearHistory (w : Stores) (p : HistoryProvider)
    (sessionId : string) : Stores :=
  match p with
  | DatabaseProvider storage => clearHistory w storage sessionId
  | MultiBackendProvider _ _ => w
  end.

(** Modelled from the spec: [ContextManager.restoreHistory()] loads the
    provider's history of the session into the context manager. *)
Definition restoreHistory (cm : ContextManager) (w : Stores) : ContextManager :=
  match cm_historyProvider cm with
  | Some p => setMessages cm (provider_getHistory w p (cm_sessionId cm))
  | None => cm
  end.

(** The part of the process environment the session reads for storage,
    and what [StorageManager.connect()] does for each database: [true]
    when the promise resolves, [false] when it is rejected. *)
Record Env : Type := mkEnv {
  CIPHER_MULTI_BACKEND : bool;
  env_store : StoreId;    (* the database CIPHER_PG_URL / STORAGE_DATABASE_* name *)
  env_primary : StoreId;  (* Postgres at CIPHER_PG_URL *)
  env_backup : StoreId;   (* SQLite at ./cipher-backup.db *)
  connects : StoreId -> bool
}.

(** The dependencies handed to a session; of the state manager only the
    provider of the session's LLM configuration is read here. *)
Record Services : Type := mkSessionServices {
  llmProvider : string
}.

Definition Metadata : Type := list (string * string).

(** The constructor's [options], without the function-valued ones. *)
Record SessionOptions : Type := mkSessionOptions {
  o_sessionMemoryMetadata : option Metadata;
  o_hasMetadataSchema : bool;
  o_historyEnabled : option bool;
  o_historyBackend : option HistoryBackend;
  o_sharedStorageManager : option StoreId
}.

(** [class ConversationSession]: the fields persistence touches. *)
Record ConversationSession : Type := mkSession {
  s_id : string;
  s_contextManager : option ContextManager;
  _historyProvider : option HistoryProvider;
  _storageManager : option StoreId;
  historyEnabled : bool;
  historyBackend : HistoryBackend;
  sessionMemoryMetadata : option Metadata;
  hasMetadataSchema : bool;
  _servicesInitialized : bool;
  _llmServiceInitialized : bool;
  _storageInitialized : bool
}.

(** [constructor(services, id, options)] *)
Definition construct (sid : string) (options : option SessionOptions)
  : ConversationSession :=
  mkSession sid None None
    (options ≫= o_sharedStorageManager)
    (default true (options ≫= o_historyEnabled))
    (default backend_database (options ≫= o_historyBackend))
    (options ≫= o_sessionMemoryMetadata)
    (match options with Some o => o_hasMetadataSchema o | None => false end)
    false false
    (match options ≫= o_sharedStorageManager with Some _ => true | None => false end).

Definition set_contextManager (cm : ContextManager) (s : ConversationSession)
  : ConversationSession :=
  mkSession (s_id s) (Some cm) (_historyProvider s) (_storageManager s)
    (historyEnabled s) (historyBackend s) (sessionMemoryMetadata s)
    (hasMetadataSchema s) (_servicesInitialized s) (_llmServiceInitialized s)
    (_storageInitialized s).

Definition set_historyProvider (p : HistoryProvider) (s : ConversationSession)
  : ConversationSession :=
  mkSession (s_id s) (s_contextManager s) (Some p) (_storageManager s)
    (historyEnabled s) (historyBackend s) (sessionMemoryMetadata s)
    (hasMetadataSchema s) (_servicesInitialized s) (_llmServiceInitialized s)
    (_storageInitialized s).

Definition set_storageManager (p : StoreId) (s : ConversationSession)
  : ConversationSession :=
  mkSession (s_id s) (s_contextManager s) (_historyProvider s) (Some p)
    (historyEnabled s) (historyBackend s) (sessionMemoryMetadata s)
    (hasMetadataSchema s) (_servicesInitialized s) (_llmServiceInitialized s)
    (_storageInitialized s).

Definition set_servicesInitialized (s : ConversationSession) : ConversationSession :=
  mkSession (s_id s) (s_contextManager s) (_historyProvider s) (_storageManager s)
    (historyEnabled s) (historyBackend s) (sessionMemoryMetadata s)
    (hasMetadataSchema s) true (_llmServiceInitialized s) (_storageInitialized s).

Definition set_storageInitialized (s : ConversationSession) : ConversationSession :=
  mkSession (s_id s) (s_contextManager s) (_historyProvider s) (_storageManager s)
    (historyEnabled s) (historyBackend s) (sessionMemoryMetadata s)
    (hasMetadataSchema s) (_servicesInitialized s) (_llmServiceInitialized s) true.

(** [public async init()], that is [initializeServices()]. *)
Definition init (services : Services) (s : ConversationSession)
  : result ConversationSession :=
  match getFormatterForProvider (llmProvider services) with
  | Throw e => Throw e
  | Ok formatter =>
      let s := set_contextManager (mkContextManager [] None (s_id s)) s in
      let s :=
        match _storageManager s with
        | Some sm =>
            if historyEnabled s then
              let s := set_historyProvider (DatabaseProvider sm) s in
              match s_contextManager s with
              | Some cm =>
                  set_contextManager (setHistoryProvider cm (DatabaseProvider sm)) s
              | None => s
              end
            else s
        | None => s
        end in
      Ok (set_servicesInitialized s)
  end.

(** [private async getStorageManagerLazy()].  A rejected [connect()]
    lands in the [catch], which only warns: the mark
    [_storageInitialized] is not set and, on the ['database'] path, the
    storage manager assigned just before stays in its field. *)
Definition getStorageManagerLazy (env : Env) (s : ConversationSession)
  : ConversationSession :=
  if _storageInitialized s then s
  else if historyEnabled s then
    if CIPHER_MULTI_BACKEND env then
      if (connects env (env_primary env) && connects env (env_backup env))%bool then
        set_storageInitialized
          (set_historyProvider
             (MultiBackendProvider (env_primary env) (env_backup env)) s)
      else s
    else
      match historyBackend s with
      | backend_database =>
          match _storageManager s with
          | Some sm =>
              set_storageInitialized (set_historyProvider (DatabaseProvider sm) s)
          | None =>
              (* a 25 ms pause precedes the creation of a storage manager *)
              let s := set_storageManager (env_store env) s in
              if connects env (env_store env) then
                set_storageInitialized
                  (set_historyProvider (DatabaseProvider (env_store env)) s)
              else s
          end
      | backend_memory => set_storageInitialized s
      end
  else set_storageInitialized s.

(** [private async getHistoryProviderLazy()] *)
Definition getHistoryProviderLazy (env : Env) (s : ConversationSession)
  : ConversationSession :=
  let s := if _storageInitialized s then s else getStorageManagerLazy env s in
  match _historyProvider s, historyEnabled s, _storageManager s with
  | None, true, Some sm => set_historyProvider (DatabaseProvider sm) s
  | _, _, _ => s
  end.

(** [public async refreshConversationHistory()].  In this model
    [restoreHistory] exists and succeeds, so the later restoration methods
    ([setMessages], the append loop) are guarded off by [historyRestored]. *)
Definition refreshConversationHistory (env : Env) (w : Stores)
    (s : ConversationSession) : ConversationSession :=
  match historyEnabled s, s_contextManager s with
  | true, Some cm =>
      let s := set_contextManager (clearMessages cm) s in
      let s := getHistoryProviderLazy env s in
      match _historyProvider s, s_contextManager s with
      | Some historyProvider, Some cm =>
          let cm := setHistoryProvider cm historyProvider in
          let history := provider_getHistory w historyProvider (s_id s) in
          let cm := restoreHistory cm w in
          let historyRestored := true in
          let cm := if negb historyRestored then setMessages cm history else cm in
          set_contextManager cm s
      | _, _ => s
      end
  | _, _ => s
  end.

(** [private async restoreHistoryLazy()] *)
Definition restoreHistoryLazy (env : Env) (w : Stores) (s : ConversationSession)
  : ConversationSession :=
  if historyEnabled s then
    let s := getHistoryProviderLazy env s in
    match _historyProvider s, s_contextManager s with
    | Some historyProvider, Some cm =>
        set_contextManager
          (restoreHistory (setHistoryProvider cm historyProvider) w) s
    | _, _ => s
    end
  else s.

(** [SerializedSession] *)
Record SerializedMetadata : Type := mkSerializedMetadata {
  createdAt : Z;
  lastActivity : Z;
  m_sessionMemoryMetadata : option Metadata;
  m_historyEnabled : bool;
  m_historyBackend : HistoryBackend
}.

Record SerializedSession : Type := mkSerialized {
  d_id : string;
  d_metadata : SerializedMetadata;
  conversationHistory : list Message;
  hadMetadataSchema : bool;
  version : string;
  serializedAt : Z
}.

Section Persistence.

(** [SESSION_PERSISTENCE_CONSTANTS.CURRENT_VERSION], declared in
    [persistence-types.ts], which is not among the sources. *)
Variable CURRENT_VERSION : string.

(** [public async serialize()]; [clock] is [Date.now()]. *)
Definition serialize (clock : Z) (w : Stores) (s : ConversationSession)
  : SerializedSession :=
  let conversationHistory :=
    match _historyProvider s with
    | Some p => if historyEnabled s then provider_getHistory w p (s_id s) else []
    | None => []
    end in
  let conversationHistory :=
    match conversationHistory, s_contextManager s with
    | [], Some cm =>
        match getRawMessages cm with
        | [] => conversationHistory
        | contextHistory => contextHistory
        end
    | _, _ => conversationHistory
    end in
  mkSerialized (s_id s)
    (mkSerializedMetadata clock clock (sessionMemoryMetadata s)
       (historyEnabled s) (historyBackend s))
    conversationHistory
    (hasMetadataSchema s)
    CURRENT_VERSION
    clock.

(** [public static async deserialize(data, services)].  An exception of
    [init] leaves as a [SessionPersistenceError] wrapping it. *)
Definition deserialize (env : Env) (services : Services) (w : Stores)
    (data : SerializedSession) : result (ConversationSession * Stores) :=
  let options :=
    mkSessionOptions (m_sessionMemoryMetadata (d_metadata data)) false
      (Some (m_historyEnabled (d_metadata data)))
      (Some (m_historyBackend (d_metadata data)))
      None in
  let session := construct (d_id data) (Some options) in
  match init services session with
  | Throw e =>
      Throw (ErrorObj ("Failed to deserialize session " ++ d_id data))
  | Ok session =>
      match conversationHistory data with
      | [] => Ok (session, w)
      | _ =>
          let session := getHistoryProviderLazy env session in
          let w :=
            match _historyProvider session with
            | Some historyProvider =>
                let w := provider_clearHistory w historyProvider (d_id data) in
                List.fold_left
                  (fun w message =>
                     provider_saveMessage w historyProvider (d_id data) message)
                  (conversationHistory data) w
            | None => w
            end in
          Ok (refreshConversationHistory env w session, w)
      end
  end.

End Persistence.

End Session.

Import Session.

(* ===================================================================== *)
(** * coversation-session.ts: running a turn                              *)
(* ===================================================================== *)

Module Turn.

Inductive LogEntry : Type :=
| LogDebug (message : string)
| LogWarn (message : string)
| LogError (message : string).

(** A computation that writes to the log and then returns or throws. *)
Definition M (A : Type) : Type := list LogEntry -> list LogEntry * result A.

Definition ret {A} (a : A) : M A := fun l => (l, Ok a).

Definition throw {A} (e : Thrown) : M A := fun l => (l, Throw e).

Definition bind {A B} (m : M A) (k : A -> M B) : M B :=
  fun l =>
    match m l with
    | (l', Ok a) => k a l'
    | (l', Throw e) => (l', Throw e)
    end.

(** [try { body } catch (e) { handler(e) }] *)
Definition try_catch {A} (body : M A) (handler : Thrown -> M A) : M A :=
  fun l =>
    match body l with
    | (l', Ok a) => (l', Ok a)
    | (l', Throw e) => handler e l'
    end.

(** [await] of a collaborator's answer. *)
Definition await {A} (answer : result A) : M A := fun l => (l, answer).

Definition log (e : LogEntry) : M unit := fun l => (l ++ [e], Ok tt).

Declare Scope turn_scope.
Delimit Scope turn_scope with turn.
Notation "x <- c1 ;; c2" := (bind c1 (fun x => c2))
  (at level 100, c1 at next level, right associativity) : turn_scope.
Notation "c1 ;; c2" := (bind c1 (fun _ => c2))
  (at level 100, right associativity) : turn_scope.
Local Open Scope turn_scope.

(** The environment flags the turn reads. *)
Record Flags : Type := mkFlags {
  DISABLE_EMBEDDINGS : bool;
  EMBEDDING_DISABLED : bool;
  USE_WORKSPACE_MEMORY : bool;
  DISABLE_DEFAULT_MEMORY : bool;
  DISABLE_REFLECTION_MEMORY : bool
}.

Definition typeError : Thrown :=
  ErrorObj "Cannot read properties of undefined".

(** [this.services.embeddingManager] ([embedding/manager.ts] is not among
    the sources), given by what its calls answer; each of them may return
    or throw.  [systemDisabled] is
    [EmbeddingSystemState.getInstance().isDisabled()];
    [getEmbeddingStatus()] answers a falsy value ([None]) or an object
    whose values are listed: [Some d] for an entry whose [status] is
    (or is not) ['DISABLED'], [None] for an entry that is [null] or
    [undefined]. *)
Record EmbeddingManager : Type := mkEmbeddingManager {
  systemDisabled : result bool;
  hasAvailableEmbeddings : result bool;
  getEmbeddingStatus : result (option (list (option bool)))
}.

(** [Object.values(embeddingStatus).filter(status => status.status ===
    'DISABLED').length]; reading [status] of a null entry throws. *)
Fixpoint disabledCount (statuses : list (option bool)) : result nat :=
  match statuses with
  | [] => Ok 0
  | None :: _ => Throw typeError
  | Some d :: rest =>
      match disabledCount rest with
      | Ok n => Ok ((if d then 1 else 0) + n)
      | Throw e => Throw e
      end
  end.

(** The computation of [embeddingManagerDisabled], written twice in the
    source: in the background callback of [run] and in
    [enforceMemoryExtraction].  Only the read of the global embedding
    state sits in a [try] of its own. *)
Definition embeddingManagerDisabled (em : option EmbeddingManager) : result bool :=
  match em with
  | None => Ok false
  | Some m =>
      let disabled := match systemDisabled m with Ok true => true | _ => false end in
      match hasAvailableEmbeddings m with
      | Throw e => Throw e
      | Ok available =>
          let disabled := (disabled || negb available)%bool in
          match getEmbeddingStatus m with
          | Throw e => Throw e
          | Ok None => Ok disabled
          | Ok (Some statuses) =>
              match disabledCount statuses with
              | Throw e => Throw e
              | Ok n => Ok (disabled || Nat.ltb 0 n)%bool
              end
          end
      end
  end.

(** What a memory tool hands back: [None] for [undefined], else its
    [success] flag and the number of actions it lists. *)
Record ToolReport : Type := mkToolReport {
  report_success : bool;
  report_actions : nat
}.

(** The reflection pipeline's collaborators. *)
Record ReflectionOracle : Type := mkReflectionOracle {
  detectorAvailable : bool;                 (* this.reasoningDetector after init *)
  detectReasoningContent : result bool;     (* .containsReasoning *)
  extractReasoningSteps : result (option (bool * nat)); (* success, step count *)
  createEvalService : result unit;          (* createContextManager + createLLMService *)
  evaluateReasoning : result (option bool); (* .result?.evaluation?.shouldStore *)
  storeReasoningMemory : result (option bool)
}.

(** The knowledge pipeline's collaborators. *)
Record MemoryOracle : Type := mkMemoryOracle {
  hasUnifiedToolManager : bool;
  interactionData : result (list string);   (* extractComprehensiveInteractionData *)
  sessionMetadata : result unit;            (* getSessionMetadata *)
  workspaceStore : result (option ToolReport);
  extractAndOperateMemory : result (option ToolReport);
  getAllTools : result (list string);       (* names of the registered tools *)
  reflection : ReflectionOracle
}.

(** [private async enforceReflectionMemoryProcessing(...)] *)
Definition enforceReflectionMemoryProcessing (flags : Flags) (hasToolManager : bool)
    (allTools : list string) (o : ReflectionOracle) : M unit :=
  try_catch
    (log (LogDebug "Enforcing reflection memory processing") ;;
     let embeddingsDisabled :=
       (DISABLE_EMBEDDINGS flags || EMBEDDING_DISABLED flags)%bool in
     if negb hasToolManager then
       log (LogDebug "UnifiedToolManager not available, skipping reflection memory processing")
     else
       let reflectionToolsAvailable :=
         (existsb (String.eqb "cipher_extract_reasoning_steps") allTools
          && existsb (String.eqb "cipher_store_reasoning_memory") allTools)%bool in
       if (embeddingsDisabled || negb reflectionToolsAvailable)%bool then
         log (LogDebug "Reflection memory processing skipped")
       else if DISABLE_REFLECTION_MEMORY flags then
         log (LogDebug "Reflection memory force disabled")
       else if negb (detectorAvailable o) then
         log (LogDebug "Reasoning detector not available, skipping reflection processing")
       else
         containsReasoning <- await (detectReasoningContent o) ;;
         if negb containsReasoning then
           log (LogDebug "No reasoning content detected in user input")
         else
           log (LogDebug "Reasoning content detected") ;;
           (* Step 1: extract *)
           extraction <-
             try_catch
               (r <- await (extractReasoningSteps o) ;;
                match r with
                | None => throw typeError
                | Some x => log (LogDebug "Reasoning extraction completed") ;; ret (Some x)
                end)
               (fun _ => log (LogDebug "Reasoning extraction failed") ;; ret None) ;;
           match extraction with
           | None => ret tt
           | Some (extractionSuccess, steps) =>
               if (negb extractionSuccess || Nat.eqb steps 0)%bool then ret tt
               else
                 (* Step 2: evaluate *)
                 evaluation <-
                   try_catch
                     (await (createEvalService o) ;;
                      r <- await (evaluateReasoning o) ;;
                      log (LogDebug "Reasoning evaluation completed") ;;
                      ret (Some r))
                     (fun _ => log (LogDebug "Reasoning evaluation failed") ;; ret None) ;;
                 match evaluation with
                 | None => ret tt
                 | Some shouldStore =>
                     if negb (default false shouldStore) then
                       log (LogDebug "Evaluation indicates should not store, skipping storage")
                     else
                       (* Step 3: store *)
                       try_catch
                         (r <- await (storeReasoningMemory o) ;;
                          match r with
                          | None => throw typeError
                          | Some _ => log (LogDebug "Reflection memory storage completed")
                          end)
                         (fun _ => log (LogDebug "Reflection memory storage failed"))
                 end
           end)
    (fun _ => log (LogDebug "Reflection memory processing failed")).

(** One memory tool of [enforceMemoryExtraction]: its result is pushed to
    [memoryResults] unless the call throws. *)
Definition runMemoryTool (toolName : string) (answer : result (option ToolReport))
  : M (list (string * option ToolReport)) :=
  try_catch
    (r <- await answer ;;
     log (LogDebug (toolName ++ " executed successfully")) ;;
     ret [(toolName, r)])
    (fun _ => log (LogDebug (toolName ++ " execution failed")) ;; ret []).

(** The aggregation loop reads [result.success] of every pushed result. *)
Fixpoint aggregate (memoryResults : list (string * option ToolReport)) : M nat :=
  match memoryResults with
  | [] => ret 0
  | (_, None) :: _ => throw typeError
  | (_, Some r) :: rest =>
      n <- aggregate rest ;;
      ret ((if report_success r then report_actions r else 0) + n)
  end.

(** [private async enforceMemoryExtraction(userInput, aiResponse, options)] *)
Definition enforceMemoryExtraction (flags : Flags) (em : option EmbeddingManager)
    (o : MemoryOracle) : M unit :=
  log (LogDebug "ConversationSession.enforceMemoryExtraction called") ;;
  try_catch
    (log (LogDebug "Enforcing memory extraction for interaction") ;;
     let embeddingsDisabled :=
       (DISABLE_EMBEDDINGS flags || EMBEDDING_DISABLED flags)%bool in
     managerDisabled <- await (embeddingManagerDisabled em) ;;
     if (embeddingsDisabled || managerDisabled)%bool then
       log (LogDebug "Embeddings disabled, skipping memory extraction")
     else if negb (hasUnifiedToolManager o) then
       log (LogDebug "UnifiedToolManager not available, skipping memory extraction")
     else
       let workspaceMemoryEnabled := USE_WORKSPACE_MEMORY flags in
       let shouldDisableDefaultMemory :=
         (workspaceMemoryEnabled && DISABLE_DEFAULT_MEMORY flags)%bool in
       let shouldRunWorkspace := workspaceMemoryEnabled in
       let shouldRunDefault := negb shouldDisableDefaultMemory in
       if embeddingsDisabled then
         log (LogDebug "Memory extraction skipped - embeddings disabled")
       else
         log (LogDebug "Memory tools to execute") ;;
         await (interactionData o) ;;
         await (sessionMetadata o) ;;
         workspaceResults <-
           (if shouldRunWorkspace
            then runMemoryTool "cipher_workspace_store" (workspaceStore o)
            else ret []) ;;
         defaultResults <-
           (if shouldRunDefault
            then runMemoryTool "cipher_extract_and_operate_memory"
                   (extractAndOperateMemory o)
            else ret []) ;;
         match workspaceResults ++ defaultResults with
         | [] => log (LogDebug "No memory tools executed successfully")
         | memoryResults =>
             aggregate memoryResults ;;
             log (LogDebug "Memory extraction completed") ;;
             allTools <- await (getAllTools o) ;;
             enforceReflectionMemoryProcessing flags (hasUnifiedToolManager o)
               allTools (reflection o)
         end)
    (fun error =>
       log (LogError ("Memory extraction failed: " ++ errorMessage error))).

(** How a promise ends up. *)
Inductive Settlement : Type :=
| Resolved
| Rejected (e : Thrown)
| Pending.

(** The callback handed to [setImmediate] inside
    [new Promise<void>(resolve => ...)]: it returns [true] once it has
    called [resolve()].  The embedding manager is asked outside any
    [try]: when it throws, the callback ends there. *)
Definition backgroundCallback (flags : Flags) (em : option EmbeddingManager)
    (o : MemoryOracle) : M bool :=
  let embeddingsDisabled :=
    (DISABLE_EMBEDDINGS flags || EMBEDDING_DISABLED flags)%bool in
  managerDisabled <- await (embeddingManagerDisabled em) ;;
  if (embeddingsDisabled || managerDisabled)%bool then
    log (LogDebug "Skipping all background memory operations - embeddings disabled") ;;
    (* resolve(); return *)
    ret true
  else
    log (LogDebug "Starting background memory operations") ;;
    try_catch
      (enforceMemoryExtraction flags em o ;;
       log (LogDebug "Background memory operations completed successfully"))
      (fun error =>
         log (LogDebug ("Background memory extraction failed: " ++ errorMessage error))) ;;
    (* resolve() *)
    ret true.

(** The promise [backgroundOperations]: only [resolve] can settle it, so a
    callback that throws before calling it leaves the promise pending. *)
Definition backgroundOperations (flags : Flags) (em : option EmbeddingManager)
    (o : MemoryOracle) (l : list LogEntry) : list LogEntry * Settlement :=
  match backgroundCallback flags em o l with
  | (l', Ok true) => (l', Resolved)
  | (l', _) => (l', Pending)
  end.

Record ImageData : Type := mkImageData {
  image : string;
  mimeType : string
}.

(** The foreground collaborators of [run]. *)
Record RunOracle : Type := mkRunOracle {
  getLLMServiceLazy : result unit;
  llm_generate : result string   (* llmService.generate(input, imageData, stream) *)
}.

(** [public async run(input, imageDataInput?, stream?, options?)].  The
    returned pair holds the response and the background promise, given by
    the way it settles once the event loop runs its callback.  The steps of
    [run] that guard themselves and cannot throw (reasoning services,
    lazy history restoration, the [llm:thinking] emission) are left out. *)
Definition run (initialized : bool) (flags : Flags) (em : option EmbeddingManager)
    (fg : RunOracle) (bg : MemoryOracle)
    (input : string) (imageDataInput : option ImageData)
  : M (string * (list LogEntry -> list LogEntry * Settlement)) :=
  if negb (truthy_str (trim input)) then
    log (LogError "input must be a non-empty string") ;;
    throw (ErrorObj "Input must be a non-empty string")
  else if negb initialized then
    log (LogError "Session not initialized. Call init() before run().") ;;
    throw (ErrorObj "ConversationSession is not initialized. Call init() before run().")
  else if match imageDataInput with
          | Some d => negb (truthy_str (image d) && truthy_str (mimeType d))
          | None => false
          end then
    log (LogError "imageDataInput must have image and mimeType as non-empty strings") ;;
    throw (ErrorObj "imageDataInput must have image and mimeType as non-empty strings")
  else
    log (LogDebug "ConversationSession.run called") ;;
    await (getLLMServiceLazy fg) ;;
    response <- await (llm_generate fg) ;;
    ret (response, backgroundOperations flags em bg).

End Turn.

Import Turn.

(* ===================================================================== *)
(** * Vocabulary of the properties                                        *)
(* ===================================================================== *)

Module MemoryOperationSpec.

Definition is_lowercase (t : string) : Prop := toLowerCase t = t.

Definition candidate_tags : list string :=
  languages ++ frameworks ++ tools ++
  ["code-block"; "programming"; "file-path"; "error-handling";
   "configuration"; "api"; "general-knowledge"].

(** The tags before the final [Set]/[map] step: the pushed ones, or the
    single general tag. *)
Definition collected_tags (fact : string) : list string :=
  match pushed_tags fact with
  | [] => ["general-knowledge"]
  | _ => pushed_tags fact
  end.

Section Decided.

Variable extractCodePattern : string -> option string.

(** The actions one loop iteration can hand to the confidence gate. *)
Inductive decided (opts : Options) (o : FactOracle) (i : nat) (fact : string)
  : MemoryAction -> Prop :=
| decided_llm sims a :
    llmDetermineMemoryOperation (entropy_llm o) fact sims (llm_reply o)
      (Z.of_nat i) (extractCodePattern fact) (extractTechnicalTags fact) = Ok a ->
    decided opts o i fact a
| decided_similarity sims :
    decided opts o i fact
      (determineMemoryOperation (entropy_sim o) fact sims
         (similarityThreshold opts) (Z.of_nat i) (extractCodePattern fact)
         (extractTechnicalTags fact))
| decided_constant ev c :
    In c [0.5%Q; 0.6%Q; 0.7%Q] ->
    decided opts o i fact
      (mkAction (generateMemoryId (entropy_handler o) (Z.of_nat i)) fact ev
         (extractTechnicalTags fact) None
         (field_if_truthy (extractCodePattern fact)) c).

End Decided.


(** All clock readings and random draws of an oracle are legitimate. *)
Definition oracle_entropy_valid (o : FactOracle) : Prop :=
  valid_entropy (entropy_llm o) /\ valid_entropy (entropy_sim o) /\
  valid_entropy (entropy_handler o).

(** The decision LLM, asked about some fact, named memory [i] as target. *)
Definition llm_named_target (oracle : nat -> FactOracle) (i : Z) : Prop :=
  exists (n : nat) (r : LLMReply) (d : Decision),
    llm_reply (oracle n) = Ok r /\ parseLLMDecision r = Some d /\
    targetMemoryId d = Some i.

End MemoryOperationSpec.

Import MemoryOperationSpec.

Module OllamaSpec.

(** The observable actions of attempt number [k], as the specification
    describes an attempt: the request goes out unless formatting the
    messages already failed, and a failed attempt is reported. *)
Definition attemptActions (k : nat) (tools : list Tool) (o : AttemptOutcome)
  : list Action :=
  match o with
  | FormatThrows e => [AttemptFailed k e]
  | CreateThrows e => [request k tools; AttemptFailed k e]
  | NoMessage =>
      [request k tools;
       AttemptFailed k (ErrorObj "Received empty message from Ollama API")]
  | Replies _ => [request k tools]
  end.

(** The retry schedule in the specification's words: up to three attempts,
    a pause of 500 ms times the attempt number after the first and after
    the second failure, no pause after the third. *)
Definition schedule (tools : list Tool) (oracle : nat -> AttemptOutcome)
  : list Action :=
  attemptActions 1 tools (oracle 1) ++
  match attempt_error (oracle 1) with
  | None => []
  | Some _ =>
      Sleep (500 * 1) :: attemptActions 2 tools (oracle 2) ++
      match attempt_error (oracle 2) with
      | None => []
      | Some _ => Sleep (500 * 2) :: attemptActions 3 tools (oracle 3)
      end
  end.

Definition is_provider_call (a : Action) : bool :=
  match a with ProviderCall _ _ _ => true | _ => false end.

Definition provider_calls (trace : list Action) : nat :=
  List.length (List.filter is_provider_call trace).

End OllamaSpec.

Import OllamaSpec.

Module SessionSpec.

(** The transcript a session presents: the messages of its context
    manager. *)
Definition transcript (s : ConversationSession) : list Message :=
  match s_contextManager s with
  | Some cm => getRawMessages cm
  | None => []
  end.

(** The transcript the session's history provider holds for it. *)
Definition stored_transcript (w : Stores) (s : ConversationSession) : list Message :=
  match _historyProvider s with
  | Some p => provider_getHistory w p (s_id s)
  | None => []
  end.

End SessionSpec.

Import SessionSpec.

Module TurnSpec.

(** The computation only appends to the log, whatever it returns. *)
Definition appends_only {A} (m : M A) : Prop :=
  forall l, exists entries r, m l = (l ++ entries, r).

(** The computation returns normally (it never throws) and only appends
    to the log. *)
Definition never_throws {A} (m : M A) : Prop :=
  forall l, exists entries a, m l = (l ++ entries, Ok a).

End TurnSpec.

Import TurnSpec.

(* ===================================================================== *)
(** * Concrete runs                                                       *)
(* ===================================================================== *)

Module Scenarios.

Definition noCodePattern (fact : string) : option string := None.
Definition noTextSimilarity (a b : string) : Q := 0%Q.

Definition entropy0 : Entropy := mkEntropy 1700000000123 0.5 0.25.

Definition allServices : ServiceContext :=
  mkServices true true true (Ok true) (Ok true).

Definition system0 : EmbeddingSystem := mkSystem false [].

Definition oneFact (fact : string) : MemoryOperationArgs :=
  mkArgs (Some [fact]) None None.

Definition embedOk (k : nat) : result unit := Ok tt.

(** A stored memory with id 999999, found with score 0.82. *)
Definition seeded082 : SearchResult :=
  mkHit (Some 999999%Z) (Some 0.82%Q) (Some 999999%Z)
        (Some "def defines functions in Python") None.

(** The decision LLM answers
    [{"operation":"UPDATE","confidence":0.9,"targetMemoryId":999999}]. *)
Definition replyFarTarget : LLMReply :=
  mkReply (Some (mkJson (Some "UPDATE") (Some 0.9%Q) (Some 999999%Z) None None)) None.

Definition oracleFarTarget (i : nat) : FactOracle :=
  mkFactOracle (Ok tt) (Ok [seeded082]) (Ok replyFarTarget)
               entropy0 entropy0 entropy0.

(** The decision LLM answers [{"operation":"ADD","confidence":0.3}]. *)
Definition replyLowConfidence : LLMReply :=
  mkReply (Some (mkJson (Some "ADD") (Some 0.3%Q) None None None)) None.

Definition oracleLowConfidence (i : nat) : FactOracle :=
  mkFactOracle (Ok tt) (Ok []) (Ok replyLowConfidence) entropy0 entropy0 entropy0.

(** The decision LLM answers [{"operation":"ADD","confidence":0.95}]. *)
Definition replyAdd : LLMReply :=
  mkReply (Some (mkJson (Some "ADD") (Some 0.95%Q) None None None)) None.

Definition oracleAdd (i : nat) : FactOracle :=
  mkFactOracle (Ok tt) (Ok []) (Ok replyAdd) entropy0 entropy0 entropy0.

(** The embedder throws an [Error] on every call. *)
Definition oracleEmbedFails (i : nat) : FactOracle :=
  mkFactOracle (Throw (ErrorObj "embedding backend unreachable")) (Ok [])
               (Ok replyAdd) entropy0 entropy0 entropy0.

Definition pythonFact : string := "In Python, def defines a function.".


(** A provider that fails twice with a transport error and then answers. *)
Definition econnreset : Thrown := ErrorObj "read ECONNRESET".

Definition finalAnswer : ProviderMessage :=
  mkProviderMessage (Some "done") None.

Definition flakyProvider (attempt : nat) : AttemptOutcome :=
  match attempt with
  | 1 | 2 => CreateThrows econnreset
  | _ => Replies finalAnswer
  end.

Definition deadProvider (attempt : nat) : AttemptOutcome :=
  CreateThrows (ErrorObj ("attempt " ++ String (ascii_of_nat (48 + attempt)) EmptyString)%string).

Definition searchTool : Tool := mkTool "memory_search" "search the memory".

(** [JSON.parse] that rejects the truncated object and accepts the rest. *)
Definition parseArgs (s : string) : result string :=
  if String.eqb s "{" then Throw (ErrorObj "Unexpected end of JSON input")
  else Ok s.

Definition runTool (n : nat) (toolName args : string) : result string :=
  Ok ("result of " ++ toolName)%string.

Definition brokenCall : ToolCall := mkToolCall "call_1" "memory_search" "{".
Definition goodCall : ToolCall := mkToolCall "call_2" "read_file" "{}".

Definition emptyContext : ContextManager := mkContextManager [] None "s1".
Definition emptyService : ServiceState := mkServiceState emptyContext [] [].


(** One turn with a tool call, stored under session [s1] in database 7. *)
Definition turn : list Message :=
  [mkMessage user (Text "list the files") [] None None;
   mkMessage assistant NoContent [goodCall] None None;
   toolResultMessage "call_2" "read_file" (ToolOutput "a.txt");
   mkMessage assistant (Text "there is one file") [] None None].

Definition stores0 : gmap (StoreId * string) (list Message) :=
  {[ (7, "s1"%string) := turn ]}.

(** A deployment with one database provider whose storage connects; a
    multi-backend deployment; the same with the primary out of reach; and
    a single-database deployment whose storage does not connect. *)
Definition env0 : Env := mkEnv false 0 3 4 (fun _ => true).



Definition offlineEnv : Env := mkEnv false 0 3 4 (fun _ => false).

Definition services0 : Services := mkSessionServices "ollama".

(** A session built with [{historyBackend: 'memory', sharedStorageManager}]
    over database 7, initialised, its history restored. *)
Definition memoryBackendOptions : SessionOptions :=
  mkSessionOptions None false None (Some backend_memory) (Some 7).




(** A turn whose background work fails at every step it can: the
    interaction data cannot be collected. *)
Definition flags0 : Flags := mkFlags false false false false false.

Definition healthyEmbeddings : EmbeddingManager :=
  mkEmbeddingManager (Ok false) (Ok true) (Ok (Some [Some false])).

(** An embedding manager whose registry of embedders cannot be read. *)
Definition brokenStatusReport : EmbeddingManager :=
  mkEmbeddingManager (Ok false) (Throw (ErrorObj "embedder registry unavailable"))
    (Ok None).

Definition silentReflection : ReflectionOracle :=
  mkReflectionOracle true (Throw (ErrorObj "detector crashed")) (Ok None) (Ok tt)
    (Ok None) (Ok None).

Definition failingMemory : MemoryOracle :=
  mkMemoryOracle true (Throw (ErrorObj "history unavailable")) (Ok tt)
    (Ok None) (Ok None) (Ok []) silentReflection.

Definition answering : RunOracle := mkRunOracle (Ok tt) (Ok "hello").

End Scenarios.

Import Scenarios.

(* ===================================================================== *)
(** * memory_operation.ts: text similarity and query rewriting            *)
(* ===================================================================== *)

Module MemoryOperationText.

(** [s.split(/\s+/)]: the pieces between maximal runs of white space;
    [current] is the piece being read and [inGap] tells
    that the previous character was white space. *)
Fixpoint splitWhitespace (s current : string) (inGap : bool) : list string :=
  match s with
  | EmptyString => [current]
  | String c s' =>
      if is_space c then
        if inGap then splitWhitespace s' current true
        else current :: splitWhitespace s' EmptyString true
      else splitWhitespace s' (current ++ String c EmptyString)%string false
  end.

(** [new Set(text.toLowerCase().split(/\s+/))], in insertion order. *)
Definition wordSet (text : string) : list string :=
  array_from_set (splitWhitespace (toLowerCase text) EmptyString false).

Definition ratio (n d : nat) : Q :=
  (inject_Z (Z.of_nat n) / inject_Z (Z.of_nat d))%Q.

(** [function calculateTextSimilarity(text1, text2)] *)
Definition calculateTextSimilarity (text1 text2 : string) : Q :=
  let words1 := wordSet text1 in
  let words2 := wordSet text2 in
  let intersection :=
    array_from_set
      (List.filter (fun word => existsb (String.eqb word) words2) words1) in
  let union := array_from_set (words1 ++ words2) in
  ratio (List.length intersection) (List.length union).

(** [s.split('\n')] *)
Fixpoint splitLines (s current : string) : list string :=
  match s with
  | EmptyString => [current]
  | String c s' =>
      if Nat.eqb (nat_of_ascii c) 10 then current :: splitLines s' EmptyString
      else splitLines s' (current ++ String c EmptyString)%string
  end.

(** [.filter(query => query !== null && query.length >= 3)] *)
Fixpoint keepQueries (matches : list (option string)) : list string :=
  match matches with
  | [] => []
  | Some query :: rest =>
      if Nat.leb 3 (String.length query) then query :: keepQueries rest
      else keepQueries rest
  | None :: rest => keepQueries rest
  end.

Section RewriteUserQuery.

(** [line.match(/^Query\s*\d+:\s*(.+)$/i)] followed by
    [match && match[1] ? match[1].trim() : null]; the regular expression is
    not embedded. *)
Variable queryOfLine : string -> option string.

(** The chain of [split], [map] and [filter] calls on the LLM's reply. *)
Definition parsedQueries (rewriteResponse : string) : list string :=
  let lines :=
    List.filter (fun line => Nat.ltb 0 (String.length line))
      (List.map trim (splitLines rewriteResponse EmptyString)) in
  let queries := keepQueries (List.map queryOfLine lines) in
  (* .filter((query, index, array) => array.indexOf(query) === index) *)
  set_of [] queries.

(** [async function rewriteUserQuery(originalInput, llmService)]: the
    [queries] of the object it resolves to; [reply] is what
    [llmService.directGenerate(rewritePrompt)] returned or threw. *)
Definition rewriteUserQuery (originalInput : string) (reply : result string)
  : list string :=
  match reply with
  | Throw _ => [originalInput]
  | Ok rewriteResponse =>
      match parsedQueries rewriteResponse with
      | [] => [originalInput]
      | queries => queries
      end
  end.

End RewriteUserQuery.

End MemoryOperationText.

Import MemoryOperationText.

(* ===================================================================== *)
(** * coversation-session.ts: the interaction of a turn                   *)
(* ===================================================================== *)

Module Interaction.

Section CurrentInteraction.

(** The test [extractComprehensiveInteractionData] applies to find the
    user message of the turn: a user message whose first content block is
    the text [userInput]. *)
Variable isCurrentUserMessage : Message -> bool.

Definition isAssistantOrTool (message : Message) : bool :=
  match role message with
  | assistant | tool => true
  | user | system => false
  end.

(** [for (let i = recentMessages.length - 1; i >= 0; i--)]: [later] holds
    the messages not yet visited, last first. *)
Fixpoint collectBackwards (foundUserMessage : bool) (later : list Message)
    (currentInteractionMessages : list Message) : list Message :=
  match later with
  | [] => currentInteractionMessages
  | message :: earlier =>
      if negb foundUserMessage then
        (* if (...) foundUserMessage = true; continue *)
        collectBackwards (isCurrentUserMessage message) earlier
          currentInteractionMessages
      else if isAssistantOrTool message then
        (* currentInteractionMessages.unshift(message) *)
        collectBackwards true earlier (message :: currentInteractionMessages)
      else
        (* break *)
        currentInteractionMessages
  end.

(** The array [currentInteractionMessages] that
    [extractComprehensiveInteractionData] summarises. *)
Definition currentInteractionMessages (recentMessages : list Message)
  : list Message :=
  collectBackwards false (List.rev recentMessages) [].

End CurrentInteraction.

End Interaction.

Import Interaction.

(* ===================================================================== *)
(** * Further vocabulary: sessions                                        *)
(* ===================================================================== *)

Module SessionVocabulary.

(** The history provider, if there is one, sits on the session's own
    storage manager. *)
Definition provider_on_storage (s : ConversationSession) : Prop :=
  forall p, _historyProvider s = Some (DatabaseProvider p) ->
            _storageManager s = Some p.

(** The database a newly constructed session ends up keeping its history
    in, if any. *)
Definition provider_for (env : Env) (options : option SessionOptions)
  : option HistoryProvider :=
  if default true (options ≫= o_historyEnabled) then
    match options ≫= o_sharedStorageManager with
    | Some shared => Some (DatabaseProvider shared)
    | None =>
        match default backend_database (options ≫= o_historyBackend) with
        | backend_database => Some (DatabaseProvider (env_store env))
        | backend_memory => None
        end
    end
  else None.

(** The longest run of assistant and tool messages that ends a list. *)
Fixpoint trailing_replies (reversed : list Message) (acc : list Message)
  : list Message :=
  match reversed with
  | [] => acc
  | m :: earlier =>
      if isAssistantOrTool m then trailing_replies earlier (m :: acc) else acc
  end.

End SessionVocabulary.

Import SessionVocabulary.
(* ===================================================================== *)
(** * Further vocabulary: memory operations                               *)
(* ===================================================================== *)

Module MemoryOperationVocabulary.

(** The payload [persistMemoryActions] builds for an action. *)
Definition payload_for (a : MemoryAction) : KnowledgePayload :=
  createKnowledgePayload (id a) (text a) (tags a) (confidence a) (event a)
    heuristic (field_if_truthy (code_pattern a)) (field_if_truthy (old_memory a)).

(** The store call an action leads to, if any. *)
Definition call_for (a : MemoryAction) : option StoreCall :=
  match event a with
  | ADD => Some (Insert (id a) (payload_for a))
  | UPDATE => Some (Update (id a) (payload_for a))
  | DELETE | NONE => None
  end.

(** The store calls of a list of actions, in order. *)
Fixpoint calls_of (actions : list MemoryAction) : list StoreCall :=
  match actions with
  | [] => []
  | a :: rest =>
      match call_for a with
      | Some c => c :: calls_of rest
      | None => calls_of rest
      end
  end.

(** The keywords of the three lists scanned case-insensitively. *)
Definition keywords : list string := languages ++ frameworks ++ tools.

(** A fact is blank when trimming leaves nothing. *)
Definition blank (fact : string) : Prop := trim fact = EmptyString.

(** The id [generateMemoryId] computes on its main branch. *)
Definition main_id (e : Entropy) (index : Z) : Z :=
  (1 + (((now e) mod 300000) * 1000 + Qfloor (random1 e * 1000) + index) mod 333333)%Z.

(** The sum of the confidences of a list of actions, in exact
    arithmetic. *)
Definition confidence_total (actions : list MemoryAction) : Q :=
  fold_right (fun a acc => (confidence a + acc)%Q) 0%Q actions.

(** The same sum as the loop computes it: from the left, in floating
    point. *)
Definition confidence_sum (actions : list MemoryAction) : Float :=
  List.fold_left (fun acc a => fadd acc (confidence a)) actions (exactly 0).

(** A rounding that is monotone and exact on the whole numbers up to [n]. *)
Definition rounds_monotonically (round : Q -> Q) : Prop :=
  forall x y : Q, (x <= y)%Q -> (round x <= round y)%Q.

Definition exact_up_to (n : nat) (round : Q -> Q) : Prop :=
  forall k : nat, k <= n ->
    (round (inject_Z (Z.of_nat k)) == inject_Z (Z.of_nat k))%Q.

(** The search hits of a fact that reach the similarity threshold. *)
Definition similar_hits (opts : Options) (o : FactOracle) : list SearchResult :=
  match search_fact o with
  | Ok searchResults =>
      List.filter (fun r => geb (or_num (hit_score r) 0) (similarityThreshold opts))
        searchResults
  | Throw _ => []
  end.

(** The names of the content-type tags. *)
Definition content_tags : list string :=
  ["code-block"; "programming"; "file-path"; "error-handling";
   "configuration"; "api"].

End MemoryOperationVocabulary.

Import MemoryOperationVocabulary.


(* ===================================================================== *)
(** * Further vocabulary: the tool-calling loop                           *)
(* ===================================================================== *)

Module OllamaVocabulary.

(** The tool calls whose arguments parse, as (name, parsed arguments). *)
Fixpoint parsed_calls (JSON_parse : string -> result string)
    (calls : list ToolCall) : list (string * string) :=
  match calls with
  | [] => []
  | toolCall :: rest =>
      match JSON_parse (tc_arguments toolCall) with
      | Ok args => (tc_name toolCall, args) :: parsed_calls JSON_parse rest
      | Throw _ => parsed_calls JSON_parse rest
      end
  end.

(** What a tool-result message can carry. *)
Definition is_tool_payload (c : Content) : Prop :=
  match c with
  | ToolOutput _ | ErrorPayload _ => True
  | Text _ | NoContent => False
  end.

(** One tool-result message per call, in the order of the calls. *)
Definition answers (calls : list ToolCall) (payloads : list Content) : list Message :=
  List.map (fun cp => toolResultMessage (tc_id cp.1) (tc_name cp.1) cp.2)
           (List.combine calls payloads).

(** [n] tool rounds: each an assistant message that calls tools, followed
    by the answers to exactly these calls. *)
Inductive tool_rounds : nat -> list Message -> Prop :=
| rounds_done : tool_rounds 0 []
| rounds_more n c calls payloads rest :
    calls <> [] ->
    List.length payloads = List.length calls ->
    Forall is_tool_payload payloads ->
    tool_rounds n rest ->
    tool_rounds (S n)
      (mkMessage assistant c calls None None :: answers calls payloads ++ rest).

(** A round that is announced by an [llm:thinking] event: an assistant
    message that calls tools and carries text that is not blank. *)
Definition thinks_aloud (m : Message) : bool :=
  match role m, toolCalls m, content m with
  | assistant, _ :: _, Text c => truthy_str (trim c)
  | _, _, _ => false
  end.

Definition thinking_rounds (ms : list Message) : nat :=
  List.length (List.filter thinks_aloud ms).

(** The closing assistant message of a run that returned. *)
Definition final_message (r : result string) : list Message :=
  match r with
  | Ok responseText => [mkMessage assistant (Text responseText) [] None None]
  | Throw _ => []
  end.

(** The closing event of a run that returned. *)
Definition completed_event (r : result string) : list SessionEvent :=
  match r with
  | Ok responseText => [LLM_RESPONSE_COMPLETED responseText]
  | Throw _ => []
  end.

(** The attempts before attempt [k] all failed. *)
Definition failed_before (oracle : nat -> AttemptOutcome) (k : nat) : Prop :=
  forall j, 1 <= j < k -> attempt_error (oracle j) <> None.

End OllamaVocabulary.

Import OllamaVocabulary.

(* ===================================================================== *)
(** * Further vocabulary: the background work of a turn                   *)
(* ===================================================================== *)

Module TurnVocabulary.

(** Everything [enforceReflectionMemoryProcessing] can write to the log. *)
Definition reflection_messages : list LogEntry :=
  List.map LogDebug
    ["Enforcing reflection memory processing";
     "UnifiedToolManager not available, skipping reflection memory processing";
     "Reflection memory processing skipped";
     "Reflection memory force disabled";
     "Reasoning detector not available, skipping reflection processing";
     "No reasoning content detected in user input";
     "Reasoning content detected";
     "Reasoning extraction completed";
     "Reasoning extraction failed";
     "Reasoning evaluation completed";
     "Reasoning evaluation failed";
     "Evaluation indicates should not store, skipping storage";
     "Reflection memory storage completed";
     "Reflection memory storage failed";
     "Reflection memory processing failed"].

(** The log shows that the default memory tool was called: it returned or
    it threw. *)
Definition default_memory_tool_called (l : list LogEntry) : Prop :=
  In (LogDebug "cipher_extract_and_operate_memory executed successfully") l \/
  In (LogDebug "cipher_extract_and_operate_memory execution failed") l.

End TurnVocabulary.

Import TurnVocabulary.

(* ===================================================================== *)
(** * Further scenarios                                                   *)
(* ===================================================================== *)

Module MoreScenarios.

(** The user-message test on text messages: a user message whose text is
    [userInput]. *)
Definition isUserText (userInput : string) (message : Message) : bool :=
  match role message, content message with
  | user, Text t => String.eqb t userInput
  | _, _ => false
  end.

(** A provider that answers every iteration like [flakyProvider]. *)
Definition steadyProvider (iteration attempt : nat) : AttemptOutcome :=
  flakyProvider attempt.

(** A context manager that already holds one turn. *)
Definition secondTurnContext : ContextManager := mkContextManager turn None "s1".

(** All reflection tools registered, every step of the pipeline succeeds. *)
Definition reflectionTools : list string :=
  ["cipher_extract_reasoning_steps"; "cipher_store_reasoning_memory"].

Definition thoroughReflection : ReflectionOracle :=
  mkReflectionOracle true (Ok true) (Ok (Some (true, 3))) (Ok tt)
    (Ok (Some true)) (Ok (Some true)).

Definition workingMemory : MemoryOracle :=
  mkMemoryOracle true (Ok ["User: hi"]) (Ok tt) (Ok None)
    (Ok (Some (mkToolReport true 2))) (Ok reflectionTools) thoroughReflection.

(** One fact that repeats a memory the caller already listed. *)
Definition knownMemory : ExistingMemory := mkExisting "m1" pythonFact.

Definition repeatedFact : MemoryOperationArgs :=
  mkArgs (Some [pythonFact]) (Some [knownMemory]) None.

(** An LLM reply of two lines, and a line reader that takes every line
    as a query. *)
Definition twoLines : string :=
  ("first query" ++ String (ascii_of_nat 10) "second query")%string.

Definition wholeLine (line : string) : option string := Some line.

End MoreScenarios.

Import MoreScenarios.

(* ===================================================================== *)
(** * Further vocabulary: the options as they arrive                      *)
(* ===================================================================== *)

Module RawArguments.

(** A JavaScript number: a finite value, [NaN] or an infinity. *)
Inductive JsNumber : Type :=
| Finite (q : Q)
| NaN
| Infinity (negative : bool).

(** [x < bound] and [x > bound]; every comparison with [NaN] is false. *)
Definition num_lt (x : JsNumber) (bound : Q) : bool :=
  match x with
  | Finite q => ltb q bound
  | NaN => false
  | Infinity negative => negative
  end.

Definition num_gt (x : JsNumber) (bound : Q) : bool :=
  match x with
  | Finite q => gtb q bound
  | NaN => false
  | Infinity negative => negb negative
  end.

(** A value under a key of [args.options], as far as validation tells
    values apart: [undefined], a number, a boolean, or anything else
    ([null], a string, an object). *)
Inductive JsValue : Type :=
| JsUndefined
| JsNum (x : JsNumber)
| JsBool (b : bool)
| JsOther.

(** [args.options] when it is an object; [None] is an absent key, which
    reads as [undefined]. *)
Record RawOptions : Type := mkRawOptions {
  r_similarityThreshold : option JsValue;
  r_maxSimilarResults : option JsValue;
  r_enableBatchProcessing : option JsValue;
  r_useLLMDecisions : option JsValue;
  r_confidenceThreshold : option JsValue;
  r_enableDeleteOperations : option JsValue
}.

Definition read (v : option JsValue) : JsValue := default JsUndefined v.

(** [if (v !== undefined) { if (typeof v !== 'number') ... else if
    (v < lo || v > hi) ... }] *)
Definition checkNumber (lo hi : Q) (notNumber outOfRange : ValidationError)
    (v : option JsValue) : list ValidationError :=
  match read v with
  | JsUndefined => []
  | JsNum x => if (num_lt x lo || num_gt x hi)%bool then [outOfRange] else []
  | _ => [notNumber]
  end.

(** [if (v !== undefined && typeof v !== 'boolean') ...] *)
Definition checkBoolean (notBoolean : ValidationError) (v : option JsValue)
  : list ValidationError :=
  match read v with
  | JsUndefined | JsBool _ => []
  | _ => [notBoolean]
  end.

(** The options block of [validateMemoryOperationArgs], for [args.options]
    an object. *)
Definition validateOptions (o : RawOptions) : list ValidationError :=
  checkNumber 0 1 SimilarityThresholdNotNumber SimilarityThresholdOutOfRange
    (r_similarityThreshold o) ++
  checkNumber 1 20 MaxSimilarResultsNotNumber MaxSimilarResultsOutOfRange
    (r_maxSimilarResults o) ++
  checkBoolean EnableBatchProcessingNotBoolean (r_enableBatchProcessing o) ++
  checkBoolean UseLLMDecisionsNotBoolean (r_useLLMDecisions o) ++
  checkNumber 0 1 ConfidenceThresholdNotNumber ConfidenceThresholdOutOfRange
    (r_confidenceThreshold o) ++
  checkBoolean EnableDeleteOperationsNotBoolean (r_enableDeleteOperations o).

(** The options the handler works with, as values. *)
Record MergedOptions : Type := mkMergedOptions {
  m_similarityThreshold : JsValue;
  m_maxSimilarResults : JsValue;
  m_enableBatchProcessing : JsValue;
  m_useLLMDecisions : JsValue;
  m_confidenceThreshold : JsValue;
  m_enableDeleteOperations : JsValue
}.

(** [{ ...DEFAULT_OPTIONS, ...args.options }]: a key that is present
    overwrites the default, whatever its value. *)
Definition mergeRawOptions (o : RawOptions) : MergedOptions :=
  mkMergedOptions
    (default (JsNum (Finite (similarityThreshold DEFAULT_OPTIONS)))
       (r_similarityThreshold o))
    (default (JsNum (Finite (maxSimilarResults DEFAULT_OPTIONS)))
       (r_maxSimilarResults o))
    (default (JsBool (enableBatchProcessing DEFAULT_OPTIONS))
       (r_enableBatchProcessing o))
    (default (JsBool (useLLMDecisions DEFAULT_OPTIONS)) (r_useLLMDecisions o))
    (default (JsNum (Finite (confidenceThreshold DEFAULT_OPTIONS)))
       (r_confidenceThreshold o))
    (default (JsBool (enableDeleteOperations DEFAULT_OPTIONS))
       (r_enableDeleteOperations o)).

(** The options of the typed embedding, as they arrive: finite numbers and
    booleans under the keys that are present. *)
Definition raw_of (a : OptionsArg) : RawOptions :=
  mkRawOptions
    (fmap (fun q => JsNum (Finite q)) (a_similarityThreshold a))
    (fmap (fun q => JsNum (Finite q)) (a_maxSimilarResults a))
    (fmap JsBool (a_enableBatchProcessing a))
    (fmap JsBool (a_useLLMDecisions a))
    (fmap (fun q => JsNum (Finite q)) (a_confidenceThreshold a))
    (fmap JsBool (a_enableDeleteOperations a)).

Definition values_of (opts : Options) : MergedOptions :=
  mkMergedOptions
    (JsNum (Finite (similarityThreshold opts)))
    (JsNum (Finite (maxSimilarResults opts)))
    (JsBool (enableBatchProcessing opts))
    (JsBool (useLLMDecisions opts))
    (JsNum (Finite (confidenceThreshold opts)))
    (JsBool (enableDeleteOperations opts)).

(** What validation leaves possible for a numeric option: the default
    when the key is absent; otherwise [undefined], [NaN], or a number
    within the bounds. *)
Definition default_or_unchecked_or_within (lo hi dflt : Q)
    (given : option JsValue) (merged : JsValue) : Prop :=
  match given with
  | None => merged = JsNum (Finite dflt)
  | Some v =>
      merged = v /\
      (v = JsUndefined \/ v = JsNum NaN \/
       exists q, v = JsNum (Finite q) /\ (lo <= q)%Q /\ (q <= hi)%Q)
  end.

Definition default_or_undefined_or_boolean (dflt : bool)
    (given : option JsValue) (merged : JsValue) : Prop :=
  match given with
  | None => merged = JsBool dflt
  | Some v => merged = v /\ (v = JsUndefined \/ exists b, v = JsBool b)
  end.

(** Options whose similarity threshold is present and [undefined], and
    options whose threshold is [NaN]. *)
Definition undefinedThreshold : RawOptions :=
  mkRawOptions (Some JsUndefined) None None None None None.

Definition nanThreshold : RawOptions :=
  mkRawOptions (Some (JsNum NaN)) None None None None None.

End RawArguments.

Import RawArguments.

(* ===================================================================== *)
(** * Properties                                                          *)
(* ===================================================================== *)

(** ** Numbers and strings *)

Example generateMemoryId_sample :
  generateMemoryId (mkEntropy 1700000000123 0.5 0.25) 2 = 123703%Z.
Proof. vm_compute. reflexivity. Qed.

Lemma ltb_lt (a b : Q) : ltb a b = true <-> (a < b)%Q.
Proof.
  unfold ltb. rewrite negb_true_iff. split.
  - intros H. apply Qnot_le_lt. intros Hle.
    apply Qle_bool_iff in Hle. congruence.
  - intros H. destruct (Qle_bool b a) eqn:E; [|reflexivity].
    apply Qle_bool_iff in E. exfalso. exact (Qlt_not_le _ _ H E).
Qed.

Lemma gtb_gt (a b : Q) : gtb a b = true <-> (b < a)%Q.
Proof. unfold gtb. apply ltb_lt. Qed.

Lemma leb_le (a b : Q) : leb a b = true <-> (a <= b)%Q.
Proof. unfold leb. apply Qle_bool_iff. Qed.

Lemma clamp_bounds (x : Q) : (0 <= max 0 (min 1 x))%Q /\ (max 0 (min 1 x) <= 1)%Q.
Proof.
  unfold max, min.
  destruct (Qle_bool 1 x) eqn:E1.
  - change (Qle_bool 0 1) with true. cbv iota. split; discriminate.
  - destruct (Qle_bool 0 x) eqn:E0.
    + apply Qle_bool_iff in E0. split; [exact E0|].
      apply Qlt_le_weak, Qnot_le_lt. intros H.
      apply Qle_bool_iff in H. congruence.
    + split; [apply Qle_refl | discriminate].
Qed.

(** ** Identifiers *)

Lemma floor_random_bounds (r : Q) (n : Z) :
  valid_random r -> (0 < n)%Z ->
  (0 <= Qfloor (r * inject_Z n) < n)%Z.
Proof.
  intros [H0 H1] Hn. split.
  - rewrite <- (Qfloor_Z 0). apply Qfloor_resp_le.
    apply Qmult_le_0_compat; [exact H0|].
    change 0%Q with (inject_Z 0). rewrite <- Zle_Qle. lia.
  - rewrite Zlt_Qlt.
    apply Qle_lt_trans with (y := (r * inject_Z n)%Q); [apply Qfloor_le|].
    rewrite <- (Qmult_1_l (inject_Z n)) at 2.
    apply Qmult_lt_compat_r; [|exact H1].
    change 0%Q with (inject_Z 0). rewrite <- Zlt_Qlt. exact Hn.
Qed.

Lemma generateMemoryId_range (e : Entropy) (index : Z) :
  valid_entropy e -> (1 <= generateMemoryId e index <= 333333)%Z.
Proof.
  intros [_ H2]. unfold generateMemoryId. cbv zeta.
  set (x := (Z.rem (now e) 300000 * 1000 + Qfloor (random1 e * 1000) + index)%Z).
  destruct (Z.leb_spec (1 + Z.rem x 333333) 0) as [Hle|Hgt].
  - pose proof (floor_random_bounds (random2 e) 333333 H2 ltac:(lia)) as Hb.
    change (inject_Z 333333) with 333333%Q in Hb. lia.
  - pose proof (Z.rem_bound_abs x 333333 ltac:(lia)). lia.
Qed.

(** ** Tags *)


Lemma candidate_tags_lowercase : Forall is_lowercase candidate_tags.
Proof. unfold is_lowercase. repeat constructor. Qed.

Lemma existsb_eqb_In (x : string) (seen : list string) :
  existsb (String.eqb x) seen = true <-> In x seen.
Proof.
  rewrite existsb_exists. split.
  - intros [y [Hy E]]. apply String.eqb_eq in E. now subst.
  - intros H. exists x. split; [exact H | apply String.eqb_refl].
Qed.

Lemma set_of_spec (xs seen : list string) :
  List.NoDup (set_of seen xs) /\
  (forall x, In x (set_of seen xs) -> In x xs /\ ~ In x seen).
Proof.
  revert seen. induction xs as [|x xs IH]; intros seen; simpl.
  - split; [constructor | intros ? []].
  - destruct (existsb (String.eqb x) seen) eqn:E.
    + destruct (IH seen) as [Hnd Hin]. split; [exact Hnd|].
      intros y Hy. destruct (Hin y Hy). tauto.
    + destruct (IH (x :: seen)) as [Hnd Hin]. split.
      * constructor; [|exact Hnd].
        intros Hx. destruct (Hin x Hx) as [_ Hn]. apply Hn. now left.
      * intros y [<-|Hy].
        -- split; [now left|]. intros Hs.
           apply existsb_eqb_In in Hs. congruence.
        -- destruct (Hin y Hy) as [H1 H2]. split; [now right|].
           intros Hs. apply H2. now right.
Qed.

Lemma array_from_set_nonempty (xs : list string) :
  xs <> [] -> array_from_set xs <> [].
Proof. destruct xs as [|x xs]; [congruence|]. intros _. discriminate. Qed.

Lemma content_tag_In (fact : string) (needles : list string) (tag x : string) :
  In x (content_tag fact needles tag) -> x = tag.
Proof.
  unfold content_tag. destruct (existsb _ _); simpl; [|tauto].
  intros [H|[]]. now symmetry.
Qed.

Lemma pushed_tags_candidates (fact x : string) :
  In x (pushed_tags fact) -> In x candidate_tags.
Proof.
  unfold pushed_tags, keyword_tags, candidate_tags.
  rewrite !in_app_iff, !filter_In.
  intros H.
  repeat match type of H with
         | _ \/ _ => destruct H as [H|H]
         end;
    try (destruct H as [H _]; tauto);
    apply content_tag_In in H; subst x; simpl; tauto.
Qed.

Lemma map_lowercase_id (ts : list string) :
  Forall is_lowercase ts -> List.map toLowerCase ts = ts.
Proof.
  induction 1 as [|t ts Ht _ IH]; simpl; [reflexivity|].
  now rewrite Ht, IH.
Qed.


Lemma collected_tags_nonempty (fact : string) : collected_tags fact <> [].
Proof. unfold collected_tags. destruct (pushed_tags fact); discriminate. Qed.

Lemma collected_tags_candidates (fact x : string) :
  In x (collected_tags fact) -> In x candidate_tags.
Proof.
  unfold collected_tags. destruct (pushed_tags fact) eqn:E.
  - intros [<-|[]]. unfold candidate_tags. rewrite !in_app_iff. simpl. tauto.
  - rewrite <- E. apply pushed_tags_candidates.
Qed.

Lemma extractTechnicalTags_unfold (fact : string) :
  extractTechnicalTags fact = array_from_set (collected_tags fact).
Proof.
  unfold extractTechnicalTags. cbv zeta. fold (collected_tags fact).
  apply map_lowercase_id. apply List.Forall_forall. intros x Hx.
  destruct (set_of_spec (collected_tags fact) []) as [_ Hin].
  apply Hin in Hx as [Hx _]. apply collected_tags_candidates in Hx.
  exact (proj1 (List.Forall_forall _ _) candidate_tags_lowercase x Hx).
Qed.

Lemma extractTechnicalTags_wellformed (fact : string) :
  extractTechnicalTags fact <> [] /\
  List.NoDup (extractTechnicalTags fact) /\
  Forall is_lowercase (extractTechnicalTags fact).
Proof.
  rewrite extractTechnicalTags_unfold.
  destruct (set_of_spec (collected_tags fact) []) as [Hnd Hin].
  split; [|split].
  - apply array_from_set_nonempty, collected_tags_nonempty.
  - exact Hnd.
  - apply List.Forall_forall. intros x Hx. apply Hin in Hx as [Hx _].
    apply collected_tags_candidates in Hx.
    exact (proj1 (List.Forall_forall _ _) candidate_tags_lowercase x Hx).
Qed.

(** ** The handler's loop *)

Section HandlerProperties.

Variable extractCodePattern : string -> option string.
Variable calculateTextSimilarity : string -> string -> Q.


Lemma processFact_actions args opts embedder vectorStore llmService o st i fact :
  let st' := processFact extractCodePattern calculateTextSimilarity
               args opts embedder vectorStore llmService o st i fact in
  st_memoryActions st' = st_memoryActions st \/
  exists a, decided extractCodePattern opts o i fact a /\
            st_memoryActions st' =
              st_memoryActions st ++ [applyConfidenceThreshold opts a].
Proof.
  unfold processFact. cbv zeta.
  destruct (embedder && vectorStore)%bool.
  - destruct (embed_fact o) as [[]|embedError].
    + destruct (search_fact o) as [searchResults|err].
      * destruct (useLLMDecisions opts && llmService)%bool.
        -- destruct (llmDetermineMemoryOperation _ _ _ _ _ _ _) as [a|err] eqn:E.
           ++ right. exists a. split; [|reflexivity].
              eapply decided_llm. exact E.
           ++ right. eexists. split; [apply decided_similarity|reflexivity].
        -- right. eexists. split; [apply decided_similarity|reflexivity].
      * right. eexists. split; [|reflexivity].
        apply decided_constant. simpl. tauto.
    + left. destruct (instanceofError embedError); reflexivity.
  - right. eexists. split; [|reflexivity].
    apply decided_constant.
    destruct (negb _); simpl; tauto.
Qed.

Lemma processFacts_Forall (P : MemoryAction -> Prop)
    args opts embedder vectorStore llmService oracle :
  (forall i fact a, decided extractCodePattern opts (oracle i) i fact a ->
                    P (applyConfidenceThreshold opts a)) ->
  forall validFacts i st,
    Forall P (st_memoryActions st) ->
    Forall P (st_memoryActions
                (processFacts extractCodePattern calculateTextSimilarity
                   args opts embedder vectorStore llmService oracle i validFacts st)).
Proof.
  intros HP. induction validFacts as [|fact rest IH]; intros i st Hst; simpl.
  - exact Hst.
  - apply IH.
    destruct (processFact_actions args opts embedder vectorStore llmService
                (oracle i) st i fact) as [E|[a [Ha E]]]; rewrite E.
    + exact Hst.
    + apply Forall_app. split; [exact Hst|].
      constructor; [|constructor]. eapply HP. exact Ha.
Qed.

(** Every action of the returned [memory] array went through the
    confidence threshold. *)
Lemma handler_memory_Forall (P : MemoryAction -> Prop) args ctx oracle persist sys :
  (forall i fact a,
      decided extractCodePattern (mergeOptions (options args)) (oracle i) i fact a ->
      P (applyConfidenceThreshold (mergeOptions (options args)) a)) ->
  Forall P (memory (handler extractCodePattern calculateTextSimilarity
                      args ctx oracle persist sys).1.1).
Proof.
  intros HP. unfold handler.
  destruct (validateMemoryOperationArgs args); [|constructor].
  cbv zeta.
  destruct (List.map trim _) eqn:E; [constructor|]. rewrite <- E. simpl.
  apply processFacts_Forall; [exact HP | constructor].
Qed.

End HandlerProperties.

(** ** What a decided action looks like *)

Lemma applyConfidenceThreshold_fields opts a :
  id (applyConfidenceThreshold opts a) = id a /\
  text (applyConfidenceThreshold opts a) = text a /\
  tags (applyConfidenceThreshold opts a) = tags a /\
  confidence (applyConfidenceThreshold opts a) = confidence a.
Proof.
  unfold applyConfidenceThreshold. destruct (_ && _)%bool; simpl; tauto.
Qed.

Lemma applyConfidenceThreshold_gate opts a :
  (confidence a < confidenceThreshold opts)%Q ->
  event (applyConfidenceThreshold opts a) = NONE.
Proof.
  intros H. apply ltb_lt in H. unfold applyConfidenceThreshold. rewrite H.
  destruct (event a) eqn:E; simpl; try reflexivity. exact E.
Qed.

Lemma llmDetermineMemoryOperation_inv e fact sims reply index cp tgs a :
  llmDetermineMemoryOperation e fact sims reply index cp tgs = Ok a ->
  exists r d ev,
    reply = Ok r /\ parseLLMDecision r = Some d /\
    event_of_string (operation d) = Some ev /\
    text a = fact /\ tags a = tgs /\ event a = ev /\
    confidence a = max 0 (min 1 (or_num (Some (d_confidence d)) 0.7)) /\
    id a = (if (or_int (targetMemoryId d) (generateMemoryId e index) <=? 0)%Z
            then generateMemoryId e index
            else or_int (targetMemoryId d) (generateMemoryId e index)).
Proof.
  unfold llmDetermineMemoryOperation. cbv zeta.
  destruct reply as [r|err]; [|discriminate].
  destruct (parseLLMDecision r) as [d|] eqn:Ed; [|discriminate].
  destruct (event_of_string (operation d)) as [ev|] eqn:Eev; [|discriminate].
  intros [= <-]. exists r, d, ev. simpl. repeat split; assumption.
Qed.

Lemma determineMemoryOperation_fields e fact sims thr index cp tgs :
  let a := determineMemoryOperation e fact sims thr index cp tgs in
  id a = generateMemoryId e index /\ text a = fact /\ tags a = tgs /\
  In (confidence a) [0.7%Q; 0.75%Q; 0.8%Q; 0.9%Q].
Proof.
  unfold determineMemoryOperation. cbv zeta.
  destruct sims as [|top rest]; [simpl; tauto|].
  destruct (gtb _ _); [simpl; tauto|].
  destruct (_ && _)%bool; simpl; tauto.
Qed.

Section DecidedProperties.

Variable extractCodePattern : string -> option string.

Lemma decided_text_tags opts o i fact a :
  decided extractCodePattern opts o i fact a ->
  text a = fact /\ tags a = extractTechnicalTags fact.
Proof.
  intros [sims a' H|sims|ev c Hc].
  - apply llmDetermineMemoryOperation_inv in H
      as (r & d & ev & _ & _ & _ & Ht & Hg & _). split; assumption.
  - destruct (determineMemoryOperation_fields (entropy_sim o) fact sims
                (similarityThreshold opts) (Z.of_nat i)
                (extractCodePattern fact) (extractTechnicalTags fact))
      as (_ & Ht & Hg & _).
    split; assumption.
  - simpl. split; reflexivity.
Qed.

Lemma decided_confidence opts o i fact a :
  decided extractCodePattern opts o i fact a ->
  (0 <= confidence a)%Q /\ (confidence a <= 1)%Q.
Proof.
  intros [sims a' H|sims|ev c Hc].
  - apply llmDetermineMemoryOperation_inv in H
      as (r & d & ev & _ & _ & _ & _ & _ & _ & Hc & _).
    rewrite Hc. apply clamp_bounds.
  - destruct (determineMemoryOperation_fields (entropy_sim o) fact sims
                (similarityThreshold opts) (Z.of_nat i)
                (extractCodePattern fact) (extractTechnicalTags fact))
      as (_ & _ & _ & Hc).
    simpl in Hc.
    destruct Hc as [<-|[<-|[<-|[<-|[]]]]]; split; discriminate.
  - simpl in *. destruct Hc as [<-|[<-|[<-|[]]]]; split; discriminate.
Qed.

Lemma decided_id opts (oracle : nat -> FactOracle) i fact a :
  oracle_entropy_valid (oracle i) ->
  decided extractCodePattern opts (oracle i) i fact a ->
  (1 <= id a)%Z /\ ((id a <= 333333)%Z \/ llm_named_target oracle (id a)).
Proof.
  intros (Hl & Hs & Hh) [sims a' H|sims|ev c Hc].
  - apply llmDetermineMemoryOperation_inv in H
      as (r & d & ev & Hr & Hd & _ & _ & _ & _ & _ & Hid).
    pose proof (generateMemoryId_range (entropy_llm (oracle i)) (Z.of_nat i) Hl) as Hg.
    rewrite Hid. unfold or_int.
    destruct (targetMemoryId d) as [t|] eqn:Et.
    + destruct (truthy_int t).
      * destruct (Z.leb_spec t 0); [lia|]. split; [lia|].
        right. exists i, r, d. repeat split; assumption.
      * destruct (Z.leb_spec (generateMemoryId (entropy_llm (oracle i)) (Z.of_nat i)) 0); lia.
    + destruct (Z.leb_spec (generateMemoryId (entropy_llm (oracle i)) (Z.of_nat i)) 0); lia.
  - destruct (determineMemoryOperation_fields (entropy_sim (oracle i)) fact sims
                (similarityThreshold opts) (Z.of_nat i)
                (extractCodePattern fact) (extractTechnicalTags fact))
      as (Hid & _).
    rewrite Hid.
    pose proof (generateMemoryId_range (entropy_sim (oracle i)) (Z.of_nat i) Hs). lia.
  - simpl.
    pose proof (generateMemoryId_range (entropy_handler (oracle i)) (Z.of_nat i) Hh). lia.
Qed.

End DecidedProperties.

(** ** Similarity-only decision *)

(** Where the handler takes the similarity-only path (embedding and search
    succeed, LLM decisions are off or no LLM service is present), the action
    it gates and pushes is [determineMemoryOperation] on the search hits
    whose score reaches the threshold. *)
Lemma processFact_similarity_path
    (extractCodePattern : string -> option string)
    (calculateTextSimilarity : string -> string -> Q)
    args opts llmService o st i fact searchResults :
  embed_fact o = Ok tt ->
  search_fact o = Ok searchResults ->
  (useLLMDecisions opts && llmService)%bool = false ->
  st_memoryActions
    (processFact extractCodePattern calculateTextSimilarity
       args opts true true llmService o st i fact) =
  st_memoryActions st ++
  [applyConfidenceThreshold opts
     (determineMemoryOperation (entropy_sim o) fact
        (List.filter
           (fun r => geb (or_num (hit_score r) 0) (similarityThreshold opts))
           searchResults)
        (similarityThreshold opts) (Z.of_nat i) (extractCodePattern fact)
        (extractTechnicalTags fact))].
Proof.
  intros He Hs Hllm. unfold processFact. cbv zeta. simpl.
  rewrite He, Hs, Hllm. reflexivity.
Qed.

(** C1.  The similarity-only decision [determineMemoryOperation]: with no
    similar memory the action is ADD with confidence 0.8; when the top hit
    scores above 0.9 it is NONE with confidence 0.9; when the top hit scores
    above the threshold and at most 0.9 it is UPDATE with confidence 0.75 and
    [old_memory] is the top hit's text; in every other case it is ADD with
    confidence 0.7.  The top hit's score is [score || 0] and its text is
    [payload.data || text || '']. *)
Theorem determineMemoryOperation_decision
    (e : Entropy) (fact : string) (similarMemories : list SearchResult)
    (threshold : Q) (index : Z) (codePattern : option string)
    (tgs : list string) :
  let a := determineMemoryOperation e fact similarMemories threshold index
             codePattern tgs in
  text a = fact /\
  (similarMemories = [] -> event a = ADD /\ confidence a = 0.8%Q) /\
  (forall top rest, similarMemories = top :: rest ->
     let score := or_num (hit_score top) 0 in
     ((0.9 < score)%Q -> event a = NONE /\ confidence a = 0.9%Q) /\
     ((threshold < score)%Q /\ (score <= 0.9)%Q ->
        event a = UPDATE /\ confidence a = 0.75%Q /\
        old_memory a = Some (memoryText top)) /\
     (~ (0.9 < score)%Q /\ ~ ((threshold < score)%Q /\ (score <= 0.9)%Q) ->
        event a = ADD /\ confidence a = 0.7%Q)).
Proof.
  cbv zeta. split; [|split].
  - apply determineMemoryOperation_fields.
  - intros ->. split; reflexivity.
  - intros top rest ->. unfold determineMemoryOperation. cbv zeta.
    set (score := or_num (hit_score top) 0).
    destruct (gtb score 0.9) eqn:Ehigh.
    + apply gtb_gt in Ehigh. split; [|split].
      * intros _. split; reflexivity.
      * intros [_ Hle]. exfalso. exact (Qlt_not_le _ _ Ehigh Hle).
      * intros [Hn _]. contradiction.
    + assert (Hnot : ~ (0.9 < score)%Q).
      { intros H. apply gtb_gt in H. congruence. }
      destruct (gtb score threshold && leb score 0.9)%bool eqn:Emid.
      * apply andb_true_iff in Emid as [H1 H2].
        apply gtb_gt in H1. apply leb_le in H2.
        split; [|split].
        -- intros H. contradiction.
        -- intros _. repeat split; reflexivity.
        -- intros [_ Hn]. exfalso. apply Hn. split; assumption.
      * split; [|split].
        -- intros H. contradiction.
        -- intros [H1 H2]. apply gtb_gt in H1. apply leb_le in H2.
           rewrite H1, H2 in Emid. discriminate.
        -- intros _. split; reflexivity.
Qed.

Lemma determineMemoryOperation_decision_witness :
  ((0.7 < or_num (hit_score seeded082) 0)%Q /\
   (or_num (hit_score seeded082) 0 <= 0.9)%Q) /\
  event (determineMemoryOperation entropy0 pythonFact [seeded082] 0.7 0 None []) = UPDATE /\
  confidence (determineMemoryOperation entropy0 pythonFact [seeded082] 0.7 0 None []) = 0.75%Q /\
  old_memory (determineMemoryOperation entropy0 pythonFact [seeded082] 0.7 0 None [])
    = Some "def defines functions in Python".
Proof.
  assert (H : (0.7 < or_num (hit_score seeded082) 0)%Q /\
              (or_num (hit_score seeded082) 0 <= 0.9)%Q).
  { split; [reflexivity | discriminate]. }
  split; [exact H|].
  destruct (determineMemoryOperation_decision entropy0 pythonFact [seeded082]
              0.7 0 None []) as (_ & _ & Hcons).
  destruct (Hcons seeded082 [] eq_refl) as (_ & Hmid & _).
  exact (Hmid H).
Defined.

(** ** Invariants of the returned memory actions *)

(** C2.  Every action in the [memory] array the handler returns has one of
    the four events, a confidence between 0 and 1, and event NONE whenever
    its confidence is below the configured [confidenceThreshold]. *)
Theorem memory_action_invariant
    (extractCodePattern : string -> option string)
    (calculateTextSimilarity : string -> string -> Q)
    (args : MemoryOperationArgs) (ctx : option ServiceContext)
    (oracle : nat -> FactOracle) (persist : nat -> result unit)
    (sys : EmbeddingSystem) (A : MemoryAction) :
  In A (memory (handler extractCodePattern calculateTextSimilarity
                  args ctx oracle persist sys).1.1) ->
  (event A = ADD \/ event A = UPDATE \/ event A = DELETE \/ event A = NONE) /\
  (0 <= confidence A)%Q /\ (confidence A <= 1)%Q /\
  ((confidence A < confidenceThreshold (mergeOptions (options args)))%Q ->
   event A = NONE).
Proof.
  intros HA.
  set (opts := mergeOptions (options args)).
  pose proof (handler_memory_Forall extractCodePattern calculateTextSimilarity
    (fun a => (0 <= confidence a)%Q /\ (confidence a <= 1)%Q /\
              ((confidence a < confidenceThreshold opts)%Q -> event a = NONE))
    args ctx oracle persist sys) as HF.
  assert (Hall : forall i fact a,
             decided extractCodePattern opts (oracle i) i fact a ->
             (0 <= confidence (applyConfidenceThreshold opts a))%Q /\
             (confidence (applyConfidenceThreshold opts a) <= 1)%Q /\
             ((confidence (applyConfidenceThreshold opts a)
               < confidenceThreshold opts)%Q ->
              event (applyConfidenceThreshold opts a) = NONE)).
  { intros i fact a Hd.
    destruct (applyConfidenceThreshold_fields opts a) as (_ & _ & _ & Hc).
    rewrite Hc.
    destruct (decided_confidence _ _ _ _ _ _ Hd) as [H0 H1].
    split; [exact H0|]. split; [exact H1|].
    apply applyConfidenceThreshold_gate. }
  specialize (HF Hall).
  rewrite List.Forall_forall in HF. specialize (HF A HA).
  split; [|exact HF].
  destruct (event A); auto.
Qed.

Lemma memory_action_invariant_witness :
  let A := mkAction 123701 pythonFact NONE ["python"; "programming"] None None 0.3 in
  In A (memory (handler noCodePattern noTextSimilarity (oneFact pythonFact)
                  (Some allServices) oracleLowConfidence embedOk system0).1.1) /\
  event A = NONE.
Proof.
  cbv zeta.
  assert (H : In (mkAction 123701 pythonFact NONE ["python"; "programming"]
                    None None 0.3)
                (memory (handler noCodePattern noTextSimilarity (oneFact pythonFact)
                  (Some allServices) oracleLowConfidence embedOk system0).1.1)).
  { vm_compute. left. reflexivity. }
  split; [exact H|].
  destruct (memory_action_invariant _ _ _ _ _ _ _ _ H) as (_ & _ & _ & Hgate).
  apply Hgate. reflexivity.
Defined.

(** ** Tags *)

(** C10.  For every fact, [extractTechnicalTags] returns a non-empty,
    duplicate-free list of lowercase tags, which is the single tag
    [general-knowledge] when no pattern matched; so every action in the
    handler's [memory] array carries at least one tag. *)
Theorem extractTechnicalTags_nonempty_unique_lowercase :
  (forall fact : string,
      extractTechnicalTags fact <> [] /\
      List.NoDup (extractTechnicalTags fact) /\
      Forall is_lowercase (extractTechnicalTags fact)) /\
  (forall fact : string,
      pushed_tags fact = [] -> extractTechnicalTags fact = ["general-knowledge"]) /\
  (forall (extractCodePattern : string -> option string)
          (calculateTextSimilarity : string -> string -> Q)
          (args : MemoryOperationArgs) (ctx : option ServiceContext)
          (oracle : nat -> FactOracle) (persist : nat -> result unit)
          (sys : EmbeddingSystem) (A : MemoryAction),
      In A (memory (handler extractCodePattern calculateTextSimilarity
                      args ctx oracle persist sys).1.1) ->
      tags A = extractTechnicalTags (text A) /\ tags A <> []).
Proof.
  split; [exact extractTechnicalTags_wellformed|]. split.
  - intros fact H. unfold extractTechnicalTags. rewrite H. reflexivity.
  - intros ecp cts args ctx oracle persist sys A HA.
    pose proof (handler_memory_Forall ecp cts
      (fun a => tags a = extractTechnicalTags (text a))
      args ctx oracle persist sys) as HF.
    assert (Hall : forall i fact a,
               decided ecp (mergeOptions (options args)) (oracle i) i fact a ->
               tags (applyConfidenceThreshold (mergeOptions (options args)) a) =
               extractTechnicalTags
                 (text (applyConfidenceThreshold (mergeOptions (options args)) a))).
    { intros i fact a Hd.
      destruct (applyConfidenceThreshold_fields (mergeOptions (options args)) a)
        as (_ & Ht & Hg & _).
      rewrite Ht, Hg.
      destruct (decided_text_tags _ _ _ _ _ _ Hd) as [-> ->]. reflexivity. }
    specialize (HF Hall).
    rewrite List.Forall_forall in HF. specialize (HF A HA).
    split; [exact HF|]. rewrite HF.
    apply extractTechnicalTags_wellformed.
Qed.

Lemma extractTechnicalTags_nonempty_unique_lowercase_witness :
  pushed_tags "hello" = [] /\ extractTechnicalTags "hello" = ["general-knowledge"].
Proof.
  assert (H : pushed_tags "hello" = []) by reflexivity.
  split; [exact H|].
  exact (proj1 (proj2 extractTechnicalTags_nonempty_unique_lowercase) "hello" H).
Defined.

(** ** Identifiers of memory actions *)

(** C9, as stated, fails: when the decision LLM names memory 999999 as the
    target of an UPDATE, the action the handler returns carries id 999999,
    outside [1, 333333], although every clock reading and random draw is
    legitimate. *)
Lemma llm_target_id_leaves_range :
  (forall i, oracle_entropy_valid (oracleFarTarget i)) /\
  exists A,
    In A (memory (handler noCodePattern noTextSimilarity (oneFact pythonFact)
                    (Some allServices) oracleFarTarget embedOk system0).1.1) /\
    id A = 999999%Z /\ ~ (1 <= id A <= 333333)%Z.
Proof.
  split.
  - intros i. unfold oracle_entropy_valid, valid_entropy, valid_random. simpl.
    repeat split; first [discriminate | reflexivity].
  - eexists. split; [vm_compute; left; reflexivity|].
    simpl. split; [reflexivity | lia].
Qed.

(** C9, amended.  For every non-negative index, clock reading and random
    draws in [0, 1), [generateMemoryId] returns an integer in [1, 333333].
    Every action in the handler's [memory] array carries a positive integer
    id; that id lies in [1, 333333] unless the decision LLM named it as the
    target memory of its decision. *)
Theorem generated_ids_in_range_action_ids_positive :
  (forall (e : Entropy) (index : Z),
      valid_entropy e -> (0 <= index)%Z ->
      (1 <= generateMemoryId e index <= 333333)%Z) /\
  (forall (extractCodePattern : string -> option string)
          (calculateTextSimilarity : string -> string -> Q)
          (args : MemoryOperationArgs) (ctx : option ServiceContext)
          (oracle : nat -> FactOracle) (persist : nat -> result unit)
          (sys : EmbeddingSystem) (A : MemoryAction),
      (forall i, oracle_entropy_valid (oracle i)) ->
      In A (memory (handler extractCodePattern calculateTextSimilarity
                      args ctx oracle persist sys).1.1) ->
      (1 <= id A)%Z /\
      ((id A <= 333333)%Z \/ llm_named_target oracle (id A))).
Proof.
  split.
  - intros e index He _. apply generateMemoryId_range. exact He.
  - intros ecp cts args ctx oracle persist sys A Hval HA.
    pose proof (handler_memory_Forall ecp cts
      (fun a => (1 <= id a)%Z /\
                ((id a <= 333333)%Z \/ llm_named_target oracle (id a)))
      args ctx oracle persist sys) as HF.
    assert (Hall : forall i fact a,
               decided ecp (mergeOptions (options args)) (oracle i) i fact a ->
               (1 <= id (applyConfidenceThreshold (mergeOptions (options args)) a))%Z /\
               ((id (applyConfidenceThreshold (mergeOptions (options args)) a)
                 <= 333333)%Z \/
                llm_named_target oracle
                  (id (applyConfidenceThreshold (mergeOptions (options args)) a)))).
    { intros i fact a Hd.
      destruct (applyConfidenceThreshold_fields (mergeOptions (options args)) a)
        as (Hi & _).
      rewrite Hi. eapply decided_id; [apply Hval | exact Hd]. }
    specialize (HF Hall).
    rewrite List.Forall_forall in HF. exact (HF A HA).
Qed.

Lemma generated_ids_in_range_action_ids_positive_witness :
  (valid_entropy entropy0 /\ (0 <= 2)%Z) /\
  (1 <= generateMemoryId entropy0 2 <= 333333)%Z.
Proof.
  assert (He : valid_entropy entropy0).
  { unfold valid_entropy, valid_random. simpl.
    repeat split; first [discriminate | reflexivity]. }
  assert (Hi : (0 <= 2)%Z) by lia.
  split; [split; assumption|].
  exact (proj1 generated_ids_in_range_action_ids_positive entropy0 2%Z He Hi).
Defined.

(** ** Persistence *)

Lemma persistLoop_heuristic (embed : nat -> result unit) (actions : list MemoryAction) :
  forall k c, In c (persistLoop embed k actions) ->
              p_qualitySource (payload_of c) = heuristic.
Proof.
  induction actions as [|action rest IH]; intros k c; simpl; [intros []|].
  destruct (embed k); [|apply IH].
  destruct (event action); simpl; try apply IH.
  - intros [<-|H]; [reflexivity | exact (IH _ _ H)].
  - intros [<-|H]; [reflexivity | exact (IH _ _ H)].
Qed.

(** C5.  Every payload the handler writes to the vector store has
    [qualitySource = 'heuristic'], whichever way its action was decided
    (decision LLM, similarity analysis or constant fallback). *)
Theorem persisted_payloads_are_heuristic
    (extractCodePattern : string -> option string)
    (calculateTextSimilarity : string -> string -> Q)
    (args : MemoryOperationArgs) (ctx : option ServiceContext)
    (oracle : nat -> FactOracle) (persist : nat -> result unit)
    (sys : EmbeddingSystem) (c : StoreCall) :
  In c (handler extractCodePattern calculateTextSimilarity
          args ctx oracle persist sys).2 ->
  p_qualitySource (payload_of c) = heuristic.
Proof.
  unfold handler.
  destruct (validateMemoryOperationArgs args); [|intros []].
  cbv zeta.
  destruct (List.map trim _); [intros []|]. simpl.
  destruct (_ && _)%bool; [|intros []].
  unfold persistMemoryActions.
  destruct (List.filter needs_persistence _) eqn:E; [intros []|].
  apply persistLoop_heuristic.
Qed.

Lemma persisted_payloads_are_heuristic_witness :
  let c := Insert 123701
             (mkPayload 123701 pythonFact ["python"; "programming"] 0.95 ADD
                        heuristic None None) in
  In c (handler noCodePattern noTextSimilarity (oneFact pythonFact)
          (Some allServices) oracleAdd embedOk system0).2 /\
  p_qualitySource (payload_of c) = heuristic /\
  llmDecisionsUsed
    (statistics (handler noCodePattern noTextSimilarity (oneFact pythonFact)
                   (Some allServices) oracleAdd embedOk system0).1.1) = 1.
Proof.
  cbv zeta.
  assert (H : In (Insert 123701
                    (mkPayload 123701 pythonFact ["python"; "programming"] 0.95 ADD
                               heuristic None None))
                (handler noCodePattern noTextSimilarity (oneFact pythonFact)
                   (Some allServices) oracleAdd embedOk system0).2).
  { vm_compute. left. reflexivity. }
  split; [exact H|]. split; [|reflexivity].
  exact (persisted_payloads_are_heuristic _ _ _ _ _ _ _ _ H).
Defined.

(** ** Embedding failure *)

(** Whenever embedding a fact throws, the loop iteration ends without
    pushing anything: the ADD action with confidence 0.6 it has just built
    is dropped by the [continue]. *)
Lemma processFact_embed_failure
    (extractCodePattern : string -> option string)
    (calculateTextSimilarity : string -> string -> Q)
    args opts llmService o st i fact embedError :
  embed_fact o = Throw embedError ->
  let st' := processFact extractCodePattern calculateTextSimilarity
               args opts true true llmService o st i fact in
  st_memoryActions st' = st_memoryActions st /\
  st_fallbackDecisionsUsed st' = S (st_fallbackDecisionsUsed st) /\
  (instanceofError embedError = true ->
   embeddingsDisabled (st_system st') = true /\
   In "memory:operationFailed" (emitted (st_system st'))).
Proof.
  intros H. unfold processFact. cbv zeta. simpl. rewrite H.
  destruct embedError; simpl.
  - split; [reflexivity|]. split; [reflexivity|]. intros _.
    split; [reflexivity|]. apply in_or_app. right. now left.
  - split; [reflexivity|]. split; [reflexivity|]. discriminate.
Qed.

(** C4, on the code: one fact, embedder and vector store present, the
    embedder throws an [Error].  The handler reports success with one
    processed fact and one fallback decision, embeddings are disabled and
    the failure event is emitted, but [memory] is empty and nothing is
    written to the store: the ADD action with confidence 0.6 is missing. *)
Theorem embed_failure_fallback_action_missing :
  let run := handler noCodePattern noTextSimilarity (oneFact pythonFact)
               (Some allServices) oracleEmbedFails embedOk system0 in
  success run.1.1 = true /\
  processedFacts run.1.1 = 1 /\
  fallbackDecisionsUsed (statistics run.1.1) = 1 /\
  memory run.1.1 = [] /\
  embeddingsDisabled run.1.2 = true /\
  emitted run.1.2 = ["memory:operationFailed"] /\
  run.2 = [].
Proof. vm_compute. repeat split; reflexivity. Qed.

(** ** The provider-call helper *)

Lemma retryLoop_unfold (tools : list Tool) (oracle : nat -> AttemptOutcome) :
  getAIResponseWithRetries tools oracle =
  Some (schedule tools oracle,
        match oracle 1 with
        | Replies m => Ok m
        | _ =>
            match oracle 2 with
            | Replies m => Ok m
            | _ =>
                match oracle 3 with
                | Replies m => Ok m
                | FormatThrows e | CreateThrows e => Throw e
                | NoMessage => Throw (ErrorObj "Received empty message from Ollama API")
                end
            end
        end).
Proof.
  unfold getAIResponseWithRetries, schedule. simpl.
  destruct (oracle 1); simpl; try reflexivity;
    destruct (oracle 2); simpl; try reflexivity;
      destruct (oracle 3); simpl; reflexivity.
Qed.

Lemma schedule_calls (tools : list Tool) (oracle : nat -> AttemptOutcome) :
  provider_calls (schedule tools oracle) <= 3 /\
  forall k ts c, In (ProviderCall k ts c) (schedule tools oracle) ->
    (k = 1 /\ ts = tools /\ c = choice_auto) \/
    ((k = 2 \/ k = 3) /\ ts = [] /\ c = choice_none).
Proof.
  unfold schedule, provider_calls, attemptActions, request.
  destruct (oracle 1); simpl;
    try (destruct (oracle 2); simpl; try (destruct (oracle 3); simpl));
    (split; [lia|]);
    intros k ts c H;
    repeat match type of H with
           | _ \/ _ => destruct H as [H|H]
           | False => destruct H
           | ProviderCall _ _ _ = ProviderCall _ _ _ =>
               injection H as <- <- <-;
               first [ left; repeat split; reflexivity
                     | right; split;
                       [ first [left; reflexivity | right; reflexivity]
                       | split; reflexivity ] ]
           | _ = _ => discriminate H
           end.
Qed.

(** C6.  The provider-call helper always returns or throws after at most
    three provider calls.  Its observable actions follow the retry schedule:
    attempt 1, then after a failure a pause of 500 ms and attempt 2, then
    after a second failure a pause of 1000 ms and attempt 3.  The first
    request carries the full tool list with tool-choice [auto]; the second
    and third carry an empty tool list with tool-choice [none].  When all
    three attempts fail, the error of the third attempt is thrown. *)
Theorem getAIResponseWithRetries_protocol
    (tools : list Tool) (oracle : nat -> AttemptOutcome) :
  exists (trace : list Action) (res : result ProviderMessage),
    getAIResponseWithRetries tools oracle = Some (trace, res) /\
    trace = schedule tools oracle /\
    provider_calls trace <= 3 /\
    (forall k ts c, In (ProviderCall k ts c) trace ->
       (k = 1 /\ ts = tools /\ c = choice_auto) \/
       ((k = 2 \/ k = 3) /\ ts = [] /\ c = choice_none)) /\
    (forall e1 e2 e3,
       attempt_error (oracle 1) = Some e1 ->
       attempt_error (oracle 2) = Some e2 ->
       attempt_error (oracle 3) = Some e3 ->
       res = Throw e3).
Proof.
  eexists. eexists. split; [apply retryLoop_unfold|].
  split; [reflexivity|].
  destruct (schedule_calls tools oracle) as [Hn Hshape].
  split; [exact Hn|]. split; [exact Hshape|].
  intros e1 e2 e3 H1 H2 H3.
  destruct (oracle 1); try discriminate;
    destruct (oracle 2); try discriminate;
      destruct (oracle 3); try discriminate;
        simpl in H3; congruence.
Qed.

Lemma getAIResponseWithRetries_protocol_witness :
  (attempt_error (deadProvider 1) = Some (ErrorObj "attempt 1") /\
   attempt_error (deadProvider 2) = Some (ErrorObj "attempt 2") /\
   attempt_error (deadProvider 3) = Some (ErrorObj "attempt 3")) /\
  getAIResponseWithRetries [searchTool] deadProvider =
  Some ([ProviderCall 1 [searchTool] choice_auto;
         AttemptFailed 1 (ErrorObj "attempt 1"); Sleep 500;
         ProviderCall 2 [] choice_none;
         AttemptFailed 2 (ErrorObj "attempt 2"); Sleep 1000;
         ProviderCall 3 [] choice_none;
         AttemptFailed 3 (ErrorObj "attempt 3")],
        Throw (ErrorObj "attempt 3")).
Proof.
  assert (H : attempt_error (deadProvider 1) = Some (ErrorObj "attempt 1") /\
              attempt_error (deadProvider 2) = Some (ErrorObj "attempt 2") /\
              attempt_error (deadProvider 3) = Some (ErrorObj "attempt 3")).
  { repeat split; reflexivity. }
  split; [exact H|].
  destruct (getAIResponseWithRetries_protocol [searchTool] deadProvider)
    as (trace & res & Hrun & Htrace & _ & _ & Hlast).
  destruct H as (H1 & H2 & H3).
  rewrite Hrun, Htrace, (Hlast _ _ _ H1 H2 H3). reflexivity.
Defined.

(** ** The tool-calling loop *)

Section ToolLoopProperties.

Variable JSON_parse : string -> result string.
Variable executeTool : nat -> string -> string -> result string.

Lemma handleToolCalls_app (calls1 calls2 : list ToolCall) (st : ServiceState) :
  handleToolCalls JSON_parse executeTool (calls1 ++ calls2) st =
  handleToolCalls JSON_parse executeTool calls2
    (handleToolCalls JSON_parse executeTool calls1 st).
Proof.
  revert st. induction calls1 as [|toolCall rest IH]; intros st; simpl.
  - reflexivity.
  - destruct (JSON_parse (tc_arguments toolCall)); [|apply IH].
    destruct (executeTool _ _ _); apply IH.
Qed.

Lemma handleToolCalls_step (toolCall : ToolCall) (rest : list ToolCall)
    (st : ServiceState) :
  exists (payload : Content) (st' : ServiceState),
    handleToolCalls JSON_parse executeTool (toolCall :: rest) st =
      handleToolCalls JSON_parse executeTool rest st' /\
    cm_messages (contextManager st') =
      cm_messages (contextManager st) ++
      [toolResultMessage (tc_id toolCall) (tc_name toolCall) payload].
Proof.
  simpl. destruct (JSON_parse (tc_arguments toolCall)) as [args|e].
  - destruct (executeTool _ _ _) as [r|err];
      eexists; eexists; (split; [reflexivity|]); reflexivity.
  - eexists; eexists; (split; [reflexivity|]); reflexivity.
Qed.

(** Each tool call adds exactly one message, a tool result answering that
    call, whatever happens to it. *)
Lemma handleToolCalls_one_result_each (calls : list ToolCall) (st : ServiceState) :
  exists payloads : list Content,
    List.length payloads = List.length calls /\
    cm_messages (contextManager (handleToolCalls JSON_parse executeTool calls st)) =
    cm_messages (contextManager st) ++
    List.map (fun cp => toolResultMessage (tc_id cp.1) (tc_name cp.1) cp.2)
             (List.combine calls payloads).
Proof.
  revert st. induction calls as [|toolCall rest IH]; intros st.
  - exists []. simpl. split; [reflexivity|]. now rewrite List.app_nil_r.
  - destruct (handleToolCalls_step toolCall rest st) as (payload & st' & Hstep & Hm).
    destruct (IH st') as (ps & Hlen & Hrest).
    exists (payload :: ps). split; [simpl; now rewrite Hlen|].
    rewrite Hstep, Hrest, Hm. simpl. now rewrite <- List.app_assoc.
Qed.

(** [generate] always comes to an end: it returns a text or throws. *)
Lemma iterate_total (remaining iterationCount : nat) (canEmit : bool)
    (formattedTools : list Tool) (provider : nat -> nat -> AttemptOutcome)
    (st : ServiceState) :
  exists st' r,
    iterate JSON_parse executeTool remaining iterationCount canEmit
      formattedTools provider st = Some (st', r).
Proof.
  revert iterationCount st.
  induction remaining as [|remaining IH]; intros iterationCount st; simpl.
  - eauto.
  - rewrite retryLoop_unfold.
    destruct (match provider (S iterationCount) 1 with Replies m => Ok m | _ => _ end)
      as [message|e]; [|eauto].
    destruct (m_tool_calls message) as [[|toolCall rest]|]; eauto.
Qed.

Lemma generate_total (maxIterations : nat) (canEmit : bool)
    (formattedTools : list Tool) (provider : nat -> nat -> AttemptOutcome)
    (cm : ContextManager) (userInput : string) :
  exists st r,
    generate JSON_parse executeTool maxIterations canEmit formattedTools
      provider cm userInput = Some (st, r).
Proof. unfold generate. apply iterate_total. Qed.

End ToolLoopProperties.

(** C7.  In the tool-calling loop of [generate], a tool call whose
    arguments fail [JSON.parse] adds exactly one message to the context
    manager: a tool result for that call whose payload is the parse error.
    The tool is not executed, no event is emitted, and the loop goes on
    with the remaining tool calls from that state. *)
Theorem unparseable_tool_call_gets_one_error_result
    (JSON_parse : string -> result string)
    (executeTool : nat -> string -> string -> result string)
    (before after : list ToolCall) (toolCall : ToolCall) (e : Thrown)
    (st : ServiceState) :
  JSON_parse (tc_arguments toolCall) = Throw e ->
  let reached := handleToolCalls JSON_parse executeTool before st in
  let handled := handleToolCalls JSON_parse executeTool (before ++ [toolCall]) st in
  cm_messages (contextManager handled) =
    cm_messages (contextManager reached) ++
    [toolResultMessage (tc_id toolCall) (tc_name toolCall)
       (ErrorPayload ("Failed to parse arguments: " ++ stringOf e))] /\
  executions handled = executions reached /\
  events handled = events reached /\
  handleToolCalls JSON_parse executeTool (before ++ toolCall :: after) st =
    handleToolCalls JSON_parse executeTool after handled.
Proof.
  intros Hparse. cbv zeta.
  rewrite (handleToolCalls_app JSON_parse executeTool before [toolCall]).
  simpl. rewrite Hparse. simpl.
  split; [reflexivity|]. split; [reflexivity|]. split; [reflexivity|].
  rewrite (handleToolCalls_app JSON_parse executeTool before (toolCall :: after)).
  simpl. rewrite Hparse. reflexivity.
Qed.

Lemma unparseable_tool_call_gets_one_error_result_witness :
  parseArgs (tc_arguments brokenCall) = Throw (ErrorObj "Unexpected end of JSON input") /\
  cm_messages (contextManager
                 (handleToolCalls parseArgs runTool [goodCall; brokenCall] emptyService)) =
    cm_messages (contextManager
                   (handleToolCalls parseArgs runTool [goodCall] emptyService)) ++
    [toolResultMessage "call_1" "memory_search"
       (ErrorPayload "Failed to parse arguments: Error: Unexpected end of JSON input")] /\
  executions (handleToolCalls parseArgs runTool [goodCall; brokenCall; goodCall]
                emptyService) =
    [("read_file", "{}"); ("read_file", "{}")].
Proof.
  assert (H : parseArgs (tc_arguments brokenCall) =
              Throw (ErrorObj "Unexpected end of JSON input")) by reflexivity.
  split; [exact H|].
  destruct (unparseable_tool_call_gets_one_error_result parseArgs runTool
              [goodCall] [goodCall] brokenCall _ emptyService H)
    as (Hm & _ & _ & Hrest).
  split; [exact Hm|].
  change ([goodCall; brokenCall; goodCall]) with ([goodCall] ++ brokenCall :: [goodCall]).
  rewrite Hrest. reflexivity.
Defined.

(** ** Session persistence *)









(** ** Background work of a turn *)

Lemma appends_only_ret {A} (a : A) : appends_only (ret a).
Proof. intros l. exists [], (Ok a). unfold ret. now rewrite List.app_nil_r. Qed.

Lemma appends_only_throw {A} (e : Thrown) : appends_only (@throw A e).
Proof. intros l. exists [], (Throw e). unfold throw. now rewrite List.app_nil_r. Qed.

Lemma appends_only_await {A} (r : result A) : appends_only (await r).
Proof. intros l. exists [], r. unfold await. now rewrite List.app_nil_r. Qed.

Lemma appends_only_log (e : LogEntry) : appends_only (log e).
Proof. intros l. exists [e], (Ok tt). reflexivity. Qed.

Lemma appends_only_bind {A B} (m : M A) (k : A -> M B) :
  appends_only m -> (forall a, appends_only (k a)) -> appends_only (bind m k).
Proof.
  intros Hm Hk l. unfold bind.
  destruct (Hm l) as (es & r & ->). destruct r as [a|e].
  - destruct (Hk a (l ++ es)) as (es' & r' & ->).
    exists (es ++ es'), r'. now rewrite List.app_assoc.
  - exists es, (Throw e). reflexivity.
Qed.

Lemma appends_only_try_catch {A} (body : M A) (handler : Thrown -> M A) :
  appends_only body -> (forall e, appends_only (handler e)) ->
  appends_only (try_catch body handler).
Proof.
  intros Hb Hh l. unfold try_catch.
  destruct (Hb l) as (es & r & ->). destruct r as [a|e].
  - exists es, (Ok a). reflexivity.
  - destruct (Hh e (l ++ es)) as (es' & r' & ->).
    exists (es ++ es'), r'. now rewrite List.app_assoc.
Qed.

Lemma never_throws_appends_only {A} (m : M A) : never_throws m -> appends_only m.
Proof. intros H l. destruct (H l) as (es & a & ->). eauto. Qed.

Lemma never_throws_ret {A} (a : A) : never_throws (ret a).
Proof. intros l. exists [], a. unfold ret. now rewrite List.app_nil_r. Qed.

Lemma never_throws_log (e : LogEntry) : never_throws (log e).
Proof. intros l. exists [e], tt. reflexivity. Qed.

Lemma never_throws_bind {A B} (m : M A) (k : A -> M B) :
  never_throws m -> (forall a, never_throws (k a)) -> never_throws (bind m k).
Proof.
  intros Hm Hk l. unfold bind.
  destruct (Hm l) as (es & a & ->).
  destruct (Hk a (l ++ es)) as (es' & b & ->).
  exists (es ++ es'), b. now rewrite List.app_assoc.
Qed.

(** A [try] whose handler never throws never throws. *)
Lemma never_throws_try_catch {A} (body : M A) (handler : Thrown -> M A) :
  appends_only body -> (forall e, never_throws (handler e)) ->
  never_throws (try_catch body handler).
Proof.
  intros Hb Hh l. unfold try_catch.
  destruct (Hb l) as (es & r & ->). destruct r as [a|e].
  - exists es, a. reflexivity.
  - destruct (Hh e (l ++ es)) as (es' & a & ->).
    exists (es ++ es'), a. now rewrite List.app_assoc.
Qed.

Ltac appends_step :=
  match goal with
  | |- appends_only (bind _ _) => apply appends_only_bind; [|intros ?]
  | |- appends_only (try_catch _ _) => apply appends_only_try_catch; [|intros ?]
  | |- appends_only (ret _) => apply appends_only_ret
  | |- appends_only (throw _) => apply appends_only_throw
  | |- appends_only (await _) => apply appends_only_await
  | |- appends_only (log _) => apply appends_only_log
  | |- appends_only (if ?b then _ else _) => destruct b
  | |- appends_only (match ?x with _ => _ end) => destruct x
  | |- appends_only (let _ := _ in _) => cbv zeta
  end.

Ltac never_throws_step :=
  match goal with
  | |- never_throws (bind _ _) => apply never_throws_bind; [|intros ?]
  | |- never_throws (try_catch _ _) => apply never_throws_try_catch; [|intros ?]
  | |- never_throws (ret _) => apply never_throws_ret
  | |- never_throws (log _) => apply never_throws_log
  | |- never_throws (if ?b then _ else _) => destruct b
  | |- never_throws (let _ := _ in _) => cbv zeta
  end.

Lemma appends_only_aggregate (memoryResults : list (string * option ToolReport)) :
  appends_only (aggregate memoryResults).
Proof.
  induction memoryResults as [|[toolName [r|]] rest IH]; simpl.
  - apply appends_only_ret.
  - apply appends_only_bind; [exact IH|]. intros n. apply appends_only_ret.
  - apply appends_only_throw.
Qed.

Lemma never_throws_enforceReflectionMemoryProcessing flags hasToolManager allTools o :
  never_throws (enforceReflectionMemoryProcessing flags hasToolManager allTools o).
Proof.
  unfold enforceReflectionMemoryProcessing.
  apply never_throws_try_catch; [|intros e; apply never_throws_log].
  repeat appends_step.
Qed.

Lemma appends_only_runMemoryTool toolName answer :
  appends_only (runMemoryTool toolName answer).
Proof. unfold runMemoryTool. repeat appends_step. Qed.

Lemma never_throws_enforceMemoryExtraction flags em o :
  never_throws (enforceMemoryExtraction flags em o).
Proof.
  unfold enforceMemoryExtraction.
  apply never_throws_bind; [apply never_throws_log|]. intros _.
  apply never_throws_try_catch; [|intros e; apply never_throws_log].
  repeat first
    [ apply appends_only_runMemoryTool
    | apply appends_only_aggregate
    | apply never_throws_appends_only,
        never_throws_enforceReflectionMemoryProcessing
    | appends_step ].
Qed.

(** When the embedding manager answers, the callback reaches [resolve()]
    on either path, and it has logged at least one line by then. *)
Lemma backgroundCallback_resolves flags em o (d : bool) :
  embeddingManagerDisabled em = Ok d ->
  forall l, exists entries,
    backgroundCallback flags em o l = (l ++ entries, Ok true) /\ entries <> [].
Proof.
  intros Hd l. unfold backgroundCallback, bind, await. cbv zeta. rewrite Hd.
  destruct (DISABLE_EMBEDDINGS flags || EMBEDDING_DISABLED flags || d)%bool.
  - exists [LogDebug "Skipping all background memory operations - embeddings disabled"].
    split; [reflexivity|discriminate].
  - unfold log at 1. unfold try_catch, bind.
    destruct (never_throws_enforceMemoryExtraction flags em o
                (l ++ [LogDebug "Starting background memory operations"]))
      as (es & [] & ->).
    unfold log, ret.
    exists ([LogDebug "Starting background memory operations"] ++ es ++
            [LogDebug "Background memory operations completed successfully"]).
    split; [|discriminate].
    now rewrite <- !List.app_assoc.
Qed.

(** When the embedding manager throws, the callback ends before it has
    logged anything and before [resolve()]. *)
Lemma backgroundOperations_pending_of_throw flags em o (e : Thrown) :
  embeddingManagerDisabled em = Throw e ->
  forall l, backgroundOperations flags em o l = (l, Pending).
Proof.
  intros He l. unfold backgroundOperations, backgroundCallback, bind, await.
  cbv zeta. rewrite He. reflexivity.
Qed.

(** The same failure inside [enforceMemoryExtraction] is caught by the
    method's own [try] and logged. *)
Lemma enforceMemoryExtraction_logs_status_failure flags em o (e : Thrown) :
  embeddingManagerDisabled em = Throw e ->
  forall l,
    enforceMemoryExtraction flags em o l =
    (l ++ [LogDebug "ConversationSession.enforceMemoryExtraction called";
           LogDebug "Enforcing memory extraction for interaction";
           LogError ("Memory extraction failed: " ++ errorMessage e)],
     Ok tt).
Proof.
  intros He l. unfold enforceMemoryExtraction, try_catch, bind, await, log.
  cbv zeta. rewrite He. now rewrite <- !List.app_assoc.
Qed.

(** C8.  The [backgroundOperations] promise of a successful [run] is not
    always resolved.  The callback of [run] asks the embedding manager
    ([hasAvailableEmbeddings()], [getEmbeddingStatus()] and the [status]
    of each entry) outside any [try], and the promise is built with
    [resolve] only.  When [hasAvailableEmbeddings()] throws, or when
    [getEmbeddingStatus()] throws or lists a null entry, [run] still
    returns the generated response, but the job it returns logs nothing
    and leaves the promise pending for ever, whatever the environment
    flags and the other collaborators.  The same checks inside
    [enforceMemoryExtraction] sit in the method's [try]: there the
    failure is caught and logged. *)
Theorem backgroundOperations_left_pending
    (flags : Flags) (bg : MemoryOracle) (sd : result bool) (available : bool)
    (status : result (option (list (option bool))))
    (statuses : list (option bool)) (e : Thrown) (l0 : list LogEntry) :
  (exists job,
     run true flags (Some (mkEmbeddingManager sd (Throw e) status))
         answering bg "hi" None l0
       = (l0 ++ [LogDebug "ConversationSession.run called"],
          Ok ("hello"%string, job)) /\
     forall l, job l = (l, Pending)) /\
  (forall l,
     backgroundOperations flags
       (Some (mkEmbeddingManager sd (Ok available) (Throw e))) bg l
     = (l, Pending)) /\
  (forall l,
     backgroundOperations flags
       (Some (mkEmbeddingManager sd (Ok available) (Ok (Some (None :: statuses)))))
       bg l
     = (l, Pending)) /\
  (forall l,
     enforceMemoryExtraction flags
       (Some (mkEmbeddingManager sd (Throw e) status)) bg l =
     (l ++ [LogDebug "ConversationSession.enforceMemoryExtraction called";
            LogDebug "Enforcing memory extraction for interaction";
            LogError ("Memory extraction failed: " ++ errorMessage e)],
      Ok tt)).
Proof.
  split; [|split; [|split]].
  - eexists. split; [reflexivity|].
    intros l. now apply backgroundOperations_pending_of_throw with (e := e).
  - intros l. now apply backgroundOperations_pending_of_throw with (e := e).
  - intros l. now apply backgroundOperations_pending_of_throw with (e := typeError).
  - intros l. now apply enforceMemoryExtraction_logs_status_failure.
Qed.

(** With an embedding manager that answers, the failure of the knowledge
    pipeline shows up in the log only. *)
Example background_failure_is_logged :
  backgroundOperations flags0 (Some healthyEmbeddings) failingMemory [] =
  ([LogDebug "Starting background memory operations";
    LogDebug "ConversationSession.enforceMemoryExtraction called";
    LogDebug "Enforcing memory extraction for interaction";
    LogDebug "Memory tools to execute";
    LogError "Memory extraction failed: history unavailable";
    LogDebug "Background memory operations completed successfully"],
   Resolved).
Proof. reflexivity. Qed.

(** A status report that throws: the promise of the turn stays pending. *)
Example background_job_never_settles :
  backgroundOperations flags0 (Some brokenStatusReport) failingMemory [] =
  ([], Pending).
Proof. reflexivity. Qed.

(* ===================================================================== *)
(** * Further properties                                                  *)
(* ===================================================================== *)

(* ===================================================================== *)
(** * Further properties: memory operations                               *)
(* ===================================================================== *)

(** ** Accounting of the handler *)

Lemma count_event_partition (actions : list MemoryAction) :
  count_event ADD actions + count_event UPDATE actions +
  count_event DELETE actions + count_event NONE actions = List.length actions.
Proof.
  unfold count_event. induction actions as [|a actions IH]; simpl; [reflexivity|].
  destruct (event a); simpl; lia.
Qed.

Lemma processFact_counters
    (extractCodePattern : string -> option string)
    (calculateTextSimilarity : string -> string -> Q)
    args opts embedder vectorStore llmService o st i fact :
  let st' := processFact extractCodePattern calculateTextSimilarity
               args opts embedder vectorStore llmService o st i fact in
  st_llmDecisionsUsed st' + st_fallbackDecisionsUsed st' =
    S (st_llmDecisionsUsed st + st_fallbackDecisionsUsed st) /\
  List.length (st_memoryActions st') <= S (List.length (st_memoryActions st)).
Proof.
  unfold processFact. cbv zeta.
  destruct (embedder && vectorStore)%bool.
  - destruct (embed_fact o) as [[]|embedError].
    + destruct (search_fact o) as [searchResults|err].
      * destruct (useLLMDecisions opts && llmService)%bool.
        -- destruct (llmDetermineMemoryOperation _ _ _ _ _ _ _) as [a|err];
             simpl; rewrite List.length_app; simpl; lia.
        -- simpl. rewrite List.length_app. simpl. lia.
      * simpl. rewrite List.length_app. simpl. lia.
    + destruct (instanceofError embedError); simpl; lia.
  - simpl. rewrite List.length_app. simpl. lia.
Qed.

Lemma processFacts_counters
    (extractCodePattern : string -> option string)
    (calculateTextSimilarity : string -> string -> Q)
    args opts embedder vectorStore llmService oracle validFacts :
  forall i st,
    let st' := processFacts extractCodePattern calculateTextSimilarity
                 args opts embedder vectorStore llmService oracle i validFacts st in
    st_llmDecisionsUsed st' + st_fallbackDecisionsUsed st' =
      st_llmDecisionsUsed st + st_fallbackDecisionsUsed st + List.length validFacts /\
    List.length (st_memoryActions st') <=
      List.length (st_memoryActions st) + List.length validFacts.
Proof.
  induction validFacts as [|fact rest IH]; intros i st; simpl.
  - lia.
  - destruct (processFact_counters extractCodePattern calculateTextSimilarity
                args opts embedder vectorStore llmService (oracle i) st i fact)
      as [H1 H2].
    destruct (IH (S i) (processFact extractCodePattern calculateTextSimilarity
                          args opts embedder vectorStore llmService (oracle i) st i fact))
      as [H3 H4].
    cbv zeta in *. lia.
Qed.

(** X1.  The counters of every handler result add up: processed and
    skipped facts make the total, each processed fact is counted as exactly
    one LLM or fallback decision, the returned actions are at most one per
    processed fact, and the four per-event counts sum to the number of
    returned actions. *)
Theorem handler_counters_add_up
    (extractCodePattern : string -> option string)
    (calculateTextSimilarity : string -> string -> Q)
    (args : MemoryOperationArgs) (ctx : option ServiceContext)
    (oracle : nat -> FactOracle) (persist : nat -> result unit)
    (sys : EmbeddingSystem) :
  let res := (handler extractCodePattern calculateTextSimilarity
                args ctx oracle persist sys).1.1 in
  processedFacts res + skippedFacts res = totalFacts res /\
  llmDecisionsUsed (statistics res) + fallbackDecisionsUsed (statistics res)
    = processedFacts res /\
  List.length (memory res) <= processedFacts res /\
  addOperations (statistics res) + updateOperations (statistics res) +
  deleteOperations (statistics res) + noneOperations (statistics res)
    = List.length (memory res).
Proof.
  unfold handler.
  destruct (validateMemoryOperationArgs args).
  2:{ simpl. repeat split; lia. }
  cbv zeta.
  destruct (List.map trim _) as [|f fs] eqn:E.
  { simpl. repeat split; lia. }
  rewrite <- E. simpl.
  set (facts := default [] (extractedFacts args)) in *.
  set (validFacts := List.map trim (List.filter (fun fact => truthy_str (trim fact)) facts)) in *.
  destruct (processFacts_counters extractCodePattern calculateTextSimilarity
              args (mergeOptions (options args)) (resolveEmbedder ctx)
              (resolveVectorStore ctx)
              (match ctx with Some c => hasLlmService c | None => false end)
              oracle validFacts 0 (mkLoop [] 0 (exactly 0) 0 0 sys)) as [H1 H2].
  cbv zeta in H1, H2. simpl in H1, H2.
  assert (Hle : List.length validFacts <= List.length facts).
  { unfold validFacts. rewrite List.length_map. apply List.filter_length_le. }
  split; [lia|]. split; [exact H1|]. split; [exact H2|].
  apply count_event_partition.
Qed.

(** ** Failure of the handler *)

Lemma valid_facts_empty (facts : list string) :
  List.map trim (List.filter (fun fact => truthy_str (trim fact)) facts) = [] <->
  Forall blank facts.
Proof.
  split.
  - intros H. apply List.map_eq_nil in H.
    induction facts as [|f fs IH]; [constructor|].
    simpl in H. destruct (truthy_str (trim f)) eqn:E; [discriminate|].
    constructor; [|exact (IH H)].
    unfold truthy_str in E. apply negb_false_iff, String.eqb_eq in E. exact E.
  - intros H. induction H as [|f fs Hf _ IH]; [reflexivity|].
    simpl. unfold blank in Hf. unfold truthy_str at 1. rewrite Hf. simpl. exact IH.
Qed.

(** X2.  The handler fails exactly when validation reports an error or
    every fact is blank; a failed call returns no action, names its error,
    and leaves the embedding state and the vector store untouched. *)
Theorem handler_failure_leaves_no_trace
    (extractCodePattern : string -> option string)
    (calculateTextSimilarity : string -> string -> Q)
    (args : MemoryOperationArgs) (ctx : option ServiceContext)
    (oracle : nat -> FactOracle) (persist : nat -> result unit)
    (sys : EmbeddingSystem) :
  let run := handler extractCodePattern calculateTextSimilarity
               args ctx oracle persist sys in
  (success run.1.1 = false <->
   validateMemoryOperationArgs args <> [] \/
   Forall blank (default [] (extractedFacts args))) /\
  (success run.1.1 = false ->
   memory run.1.1 = [] /\ processedFacts run.1.1 = 0 /\
   error run.1.1 <> None /\ run.1.2 = sys /\ run.2 = []).
Proof.
  unfold handler.
  destruct (validateMemoryOperationArgs args) as [|v vs] eqn:Ev.
  - cbv zeta.
    destruct (List.map trim _) as [|f fs] eqn:E.
    + simpl. split.
      * split; [|reflexivity]. intros _. right. apply valid_facts_empty. exact E.
      * intros _. repeat split. discriminate.
    + simpl. split; [|discriminate].
      split; [discriminate|]. intros [H|H]; [congruence|].
      apply valid_facts_empty in H. congruence.
  - simpl. split.
    + split; [|reflexivity]. intros _. left. discriminate.
    + intros _. repeat split. discriminate.
Qed.

Lemma handler_failure_leaves_no_trace_witness :
  let run := handler noCodePattern noTextSimilarity (oneFact "   ")
               (Some allServices) oracleAdd embedOk system0 in
  success run.1.1 = false /\
  memory run.1.1 = [] /\ error run.1.1 = Some NoValidFacts /\ run.2 = [].
Proof.
  cbv zeta.
  assert (H : success (handler noCodePattern noTextSimilarity (oneFact "   ")
                         (Some allServices) oracleAdd embedOk system0).1.1 = false)
    by reflexivity.
  split; [exact H|].
  destruct (handler_failure_leaves_no_trace noCodePattern noTextSimilarity
              (oneFact "   ") (Some allServices) oracleAdd embedOk system0)
    as [_ Hcons].
  destruct (Hcons H) as (Hm & _ & _ & _ & Hc).
  split; [exact Hm|]. split; [reflexivity | exact Hc].
Defined.

(** ** Validated options *)

Lemma ltb_false_le (a b : Q) : ltb a b = false -> (b <= a)%Q.
Proof.
  unfold ltb. intros H. apply negb_false_iff in H. now apply Qle_bool_iff.
Qed.

Lemma checkNumber_accepts (lo hi dflt : Q) (notNumber outOfRange : ValidationError)
    (v : option JsValue) :
  checkNumber lo hi notNumber outOfRange v = [] ->
  default_or_unchecked_or_within lo hi dflt v (default (JsNum (Finite dflt)) v).
Proof.
  unfold checkNumber, default_or_unchecked_or_within, read.
  destruct v as [[|[q| |negative]|b|]|]; simpl; try discriminate; try tauto.
  - destruct (ltb q lo || gtb q hi)%bool eqn:E; [discriminate|]. intros _.
    apply orb_false_iff in E as [E1 E2].
    split; [reflexivity|]. right. right. exists q.
    split; [reflexivity|].
    split; [exact (ltb_false_le _ _ E1) | exact (ltb_false_le _ _ E2)].
  - destruct negative; simpl; discriminate.
Qed.

Lemma checkBoolean_accepts (dflt : bool) (notBoolean : ValidationError)
    (v : option JsValue) :
  checkBoolean notBoolean v = [] ->
  default_or_undefined_or_boolean dflt v (default (JsBool dflt) v).
Proof.
  unfold checkBoolean, default_or_undefined_or_boolean, read.
  destruct v as [[|x|b|]|]; simpl; try discriminate; try tauto.
  intros _. split; [reflexivity|]. right. now exists b.
Qed.

Lemma checkNumber_typed (lo hi : Q) (notNumber outOfRange : ValidationError)
    (x : option Q) :
  checkNumber lo hi notNumber outOfRange (fmap (fun q => JsNum (Finite q)) x) =
  if out_of_range lo hi x then [outOfRange] else [].
Proof. destruct x; reflexivity. Qed.

Lemma checkBoolean_typed (notBoolean : ValidationError) (x : option bool) :
  checkBoolean notBoolean (fmap JsBool x) = [].
Proof. destruct x; reflexivity. Qed.

(** X3.  Options that pass validation, merged over the defaults.  Each
    numeric option the handler works with is the default when its key is
    absent; when the key is present it is the given value, which is
    [undefined], [NaN], or a number within the bounds ([0, 1] for the two
    thresholds, [1, 20] for the result limit); each flag is the default, or
    [undefined], or a boolean.  An [undefined] and a [NaN] threshold do
    pass validation and replace the default 0.7.  On options that hold
    finite numbers and booleans, validation reports what the typed
    [validateMemoryOperationArgs] reports and the merge is [mergeOptions]. *)
Theorem validated_options_in_range :
  (forall o : RawOptions,
     validateOptions o = [] ->
     default_or_unchecked_or_within 0 1 0.7 (r_similarityThreshold o)
       (m_similarityThreshold (mergeRawOptions o)) /\
     default_or_unchecked_or_within 1 20 5 (r_maxSimilarResults o)
       (m_maxSimilarResults (mergeRawOptions o)) /\
     default_or_unchecked_or_within 0 1 0.4 (r_confidenceThreshold o)
       (m_confidenceThreshold (mergeRawOptions o)) /\
     default_or_undefined_or_boolean true (r_enableBatchProcessing o)
       (m_enableBatchProcessing (mergeRawOptions o)) /\
     default_or_undefined_or_boolean true (r_useLLMDecisions o)
       (m_useLLMDecisions (mergeRawOptions o)) /\
     default_or_undefined_or_boolean true (r_enableDeleteOperations o)
       (m_enableDeleteOperations (mergeRawOptions o))) /\
  (validateOptions undefinedThreshold = [] /\
   m_similarityThreshold (mergeRawOptions undefinedThreshold) = JsUndefined) /\
  (validateOptions nanThreshold = [] /\
   m_similarityThreshold (mergeRawOptions nanThreshold) = JsNum NaN) /\
  (forall (facts : option (list string)) (memories : option (list ExistingMemory))
          (a : OptionsArg),
     validateMemoryOperationArgs (mkArgs facts memories (Some a)) =
       validateMemoryOperationArgs (mkArgs facts memories None) ++
       validateOptions (raw_of a)) /\
  (forall a : OptionsArg,
     mergeRawOptions (raw_of a) = values_of (mergeOptions (Some a))) /\
  (forall args : MemoryOperationArgs,
     validateMemoryOperationArgs args = [] ->
     (0 <= similarityThreshold (mergeOptions (options args)) <= 1)%Q /\
     (0 <= confidenceThreshold (mergeOptions (options args)) <= 1)%Q /\
     (1 <= maxSimilarResults (mergeOptions (options args)) <= 20)%Q).
Proof.
  assert (Hraw : forall o : RawOptions,
     validateOptions o = [] ->
     default_or_unchecked_or_within 0 1 0.7 (r_similarityThreshold o)
       (m_similarityThreshold (mergeRawOptions o)) /\
     default_or_unchecked_or_within 1 20 5 (r_maxSimilarResults o)
       (m_maxSimilarResults (mergeRawOptions o)) /\
     default_or_unchecked_or_within 0 1 0.4 (r_confidenceThreshold o)
       (m_confidenceThreshold (mergeRawOptions o)) /\
     default_or_undefined_or_boolean true (r_enableBatchProcessing o)
       (m_enableBatchProcessing (mergeRawOptions o)) /\
     default_or_undefined_or_boolean true (r_useLLMDecisions o)
       (m_useLLMDecisions (mergeRawOptions o)) /\
     default_or_undefined_or_boolean true (r_enableDeleteOperations o)
       (m_enableDeleteOperations (mergeRawOptions o))).
  { intros o H. unfold validateOptions in H.
    apply List.app_eq_nil in H as [H1 H]. apply List.app_eq_nil in H as [H2 H].
    apply List.app_eq_nil in H as [H3 H]. apply List.app_eq_nil in H as [H4 H].
    apply List.app_eq_nil in H as [H5 H6].
    unfold mergeRawOptions. cbn [m_similarityThreshold m_maxSimilarResults
      m_confidenceThreshold m_enableBatchProcessing m_useLLMDecisions
      m_enableDeleteOperations].
    split; [exact (checkNumber_accepts 0 1 0.7 _ _ _ H1)|].
    split; [exact (checkNumber_accepts 1 20 5 _ _ _ H2)|].
    split; [exact (checkNumber_accepts 0 1 0.4 _ _ _ H5)|].
    split; [exact (checkBoolean_accepts true _ _ H3)|].
    split; [exact (checkBoolean_accepts true _ _ H4)|].
    exact (checkBoolean_accepts true _ _ H6). }
  assert (Htyped : forall (facts : option (list string))
                          (memories : option (list ExistingMemory)) (a : OptionsArg),
     validateMemoryOperationArgs (mkArgs facts memories (Some a)) =
       validateMemoryOperationArgs (mkArgs facts memories None) ++
       validateOptions (raw_of a)).
  { intros facts memories a. unfold validateMemoryOperationArgs, validateOptions, raw_of.
    cbn [extractedFacts existingMemories options r_similarityThreshold
      r_maxSimilarResults r_enableBatchProcessing r_useLLMDecisions
      r_confidenceThreshold r_enableDeleteOperations].
    rewrite !checkNumber_typed, !checkBoolean_typed.
    rewrite !List.app_nil_r, !List.app_nil_l, <- !List.app_assoc. reflexivity. }
  assert (Hmerge : forall a : OptionsArg,
     mergeRawOptions (raw_of a) = values_of (mergeOptions (Some a))).
  { intros [[s|] [m|] [b|] [u|] [c|] [d|]]; reflexivity. }
  split; [exact Hraw|]. split; [split; reflexivity|]. split; [split; reflexivity|].
  split; [exact Htyped|]. split; [exact Hmerge|].
  intros [facts memories [a|]] H.
  - rewrite Htyped in H. apply List.app_eq_nil in H as [_ H].
    destruct (Hraw (raw_of a) H) as (A & B & C & _).
    rewrite Hmerge in A, B, C. cbn [options].
    revert A B C. unfold default_or_unchecked_or_within, raw_of, values_of.
    cbn [r_similarityThreshold r_maxSimilarResults r_confidenceThreshold
      m_similarityThreshold m_maxSimilarResults m_confidenceThreshold].
    unfold mergeOptions. cbn [similarityThreshold maxSimilarResults confidenceThreshold].
    destruct (a_similarityThreshold a) as [s|], (a_maxSimilarResults a) as [m|],
      (a_confidenceThreshold a) as [c|]; simpl;
      intros A B C;
      repeat match goal with
             | H : _ /\ _ |- _ => destruct H
             | H : _ \/ _ |- _ => destruct H
             | H : exists _, _ |- _ => destruct H
             | H : JsNum _ = JsUndefined |- _ => discriminate H
             | H : JsNum (Finite _) = JsNum NaN |- _ => discriminate H
             | H : JsNum (Finite _) = JsNum (Finite _) |- _ => injection H as ->
             end;
      repeat split; try assumption; discriminate.
  - cbn [options]. unfold mergeOptions, DEFAULT_OPTIONS.
    cbn [similarityThreshold maxSimilarResults confidenceThreshold].
    repeat split; discriminate.
Qed.

Lemma validated_options_in_range_witness :
  validateOptions nanThreshold = [] /\
  default_or_unchecked_or_within 0 1 0.7 (r_similarityThreshold nanThreshold)
    (m_similarityThreshold (mergeRawOptions nanThreshold)).
Proof.
  assert (H : validateOptions nanThreshold = []) by reflexivity.
  split; [exact H|].
  exact (proj1 (proj1 validated_options_in_range nanThreshold H)).
Defined.

(** ** What reaches the vector store *)

Lemma persistLoop_calls (embed : nat -> result unit) (actions : list MemoryAction) :
  forall k c, In c (persistLoop embed k actions) ->
              exists a, In a actions /\ call_for a = Some c.
Proof.
  induction actions as [|action rest IH]; intros k c; simpl; [intros []|].
  assert (Hrest : In c (persistLoop embed (S k) rest) ->
                  exists a, (action = a \/ In a rest) /\ call_for a = Some c).
  { intros H. destruct (IH _ _ H) as (a & Ha & Hc). exists a. split; [now right|exact Hc]. }
  destruct (embed k); [|exact Hrest].
  destruct (event action) eqn:Ev; try exact Hrest.
  - intros [<-|H]; [|exact (Hrest H)].
    exists action. split; [now left|]. unfold call_for, payload_for.
    rewrite Ev. reflexivity.
  - intros [<-|H]; [|exact (Hrest H)].
    exists action. split; [now left|]. unfold call_for, payload_for.
    rewrite Ev. reflexivity.
Qed.

Lemma persistLoop_all_ok (embed : nat -> result unit) (actions : list MemoryAction) :
  (forall k, embed k = Ok tt) ->
  forall k, persistLoop embed k actions = calls_of actions.
Proof.
  intros Hok. induction actions as [|action rest IH]; intros k; simpl; [reflexivity|].
  rewrite Hok, IH. unfold call_for, payload_for.
  destruct (event action); reflexivity.
Qed.

Lemma calls_of_filter (actions : list MemoryAction) :
  calls_of (List.filter needs_persistence actions) = calls_of actions.
Proof.
  induction actions as [|a actions IH]; simpl; [reflexivity|].
  destruct (needs_persistence a) eqn:N; simpl.
  - now rewrite IH.
  - assert (H : call_for a = None).
    { unfold needs_persistence in N. unfold call_for.
      destruct (event a); congruence. }
    now rewrite H, IH.
Qed.

(** X4.  Every call the handler makes on the vector store writes one of
    the actions of the returned [memory] array: an insert for an ADD action,
    an update for an UPDATE action, under the action's id and with the
    action's text, tags, confidence and event.  DELETE and NONE actions are
    never written. *)
Theorem store_calls_come_from_returned_actions
    (extractCodePattern : string -> option string)
    (calculateTextSimilarity : string -> string -> Q)
    (args : MemoryOperationArgs) (ctx : option ServiceContext)
    (oracle : nat -> FactOracle) (persist : nat -> result unit)
    (sys : EmbeddingSystem) (c : StoreCall) :
  let run := handler extractCodePattern calculateTextSimilarity
               args ctx oracle persist sys in
  In c run.2 ->
  exists A, In A (memory run.1.1) /\
    ((event A = ADD /\ c = Insert (id A) (payload_for A)) \/
     (event A = UPDATE /\ c = Update (id A) (payload_for A))).
Proof.
  unfold handler.
  destruct (validateMemoryOperationArgs args); [|intros []].
  cbv zeta.
  destruct (List.map trim _); [intros []|]. simpl.
  destruct (_ && _)%bool; [|intros []].
  unfold persistMemoryActions.
  destruct (List.filter needs_persistence _) as [|a0 l0] eqn:E; [intros []|].
  rewrite <- E. intros H.
  destruct (persistLoop_calls _ _ _ _ H) as (A & HA & Hc).
  apply List.filter_In in HA as [HA _].
  exists A. split; [exact HA|].
  unfold call_for in Hc. destruct (event A); try discriminate;
    injection Hc as <-; auto.
Qed.

Lemma store_calls_come_from_returned_actions_witness :
  let run := handler noCodePattern noTextSimilarity (oneFact pythonFact)
               (Some allServices) oracleFarTarget embedOk system0 in
  exists c, In c run.2 /\
  exists A, In A (memory run.1.1) /\
    ((event A = ADD /\ c = Insert (id A) (payload_for A)) \/
     (event A = UPDATE /\ c = Update (id A) (payload_for A))).
Proof.
  cbv zeta. eexists.
  assert (H : In (Update 999999
                    (mkPayload 999999 pythonFact ["python"; "programming"] 0.9 UPDATE
                       heuristic None (Some "def defines functions in Python")))
                (handler noCodePattern noTextSimilarity (oneFact pythonFact)
                   (Some allServices) oracleFarTarget embedOk system0).2).
  { vm_compute. left. reflexivity. }
  split; [exact H|].
  exact (store_calls_come_from_returned_actions _ _ _ _ _ _ _ _ H).
Defined.

(** X5.  When every embedding request of the persistence step succeeds,
    the calls made on the vector store are exactly the inserts and updates
    of the ADD and UPDATE actions, one each, in the order of the array;
    when none of the actions is an ADD or UPDATE nothing is embedded or
    written. *)
Theorem persistMemoryActions_writes_each_once
    (embed : nat -> result unit) (memoryActions : list MemoryAction) :
  (forall k, embed k = Ok tt) ->
  persistMemoryActions embed memoryActions = calls_of memoryActions /\
  List.length (persistMemoryActions embed memoryActions) =
    count_event ADD memoryActions + count_event UPDATE memoryActions.
Proof.
  intros Hok.
  assert (H : persistMemoryActions embed memoryActions = calls_of memoryActions).
  { unfold persistMemoryActions.
    destruct (List.filter needs_persistence memoryActions) as [|a l] eqn:E.
    - rewrite <- calls_of_filter, E. reflexivity.
    - rewrite <- E, persistLoop_all_ok by exact Hok. apply calls_of_filter. }
  split; [exact H|]. rewrite H. clear H.
  unfold count_event. induction memoryActions as [|a l IH]; simpl; [reflexivity|].
  unfold call_for at 1. destruct (event a); simpl; lia.
Qed.

Lemma persistMemoryActions_writes_each_once_witness :
  (forall k, embedOk k = Ok tt) /\
  persistMemoryActions embedOk
    [mkAction 1 "a" ADD [] None None 0.8; mkAction 2 "b" NONE [] None None 0.9;
     mkAction 3 "c" UPDATE [] (Some "old"%string) None 0.75] =
  [Insert 1 (mkPayload 1 "a" [] 0.8 ADD heuristic None None);
   Update 3 (mkPayload 3 "c" [] 0.75 UPDATE heuristic None (Some "old"%string))].
Proof.
  assert (H : forall k, embedOk k = Ok tt) by (intros k; reflexivity).
  split; [exact H|].
  rewrite (proj1 (persistMemoryActions_writes_each_once embedOk _ H)). reflexivity.
Defined.

(** ** Decisions without the LLM *)

Lemma applyConfidenceThreshold_keeps opts a :
  (confidenceThreshold opts <= confidence a)%Q ->
  applyConfidenceThreshold opts a = a.
Proof.
  intros H. unfold applyConfidenceThreshold.
  destruct (ltb (confidence a) (confidenceThreshold opts)) eqn:E; [|reflexivity].
  apply ltb_lt in E. exfalso. exact (Qlt_not_le _ _ E H).
Qed.

Lemma processFact_without_llm
    (extractCodePattern : string -> option string)
    (calculateTextSimilarity : string -> string -> Q)
    args opts embedder vectorStore llmService o st i fact :
  (useLLMDecisions opts && llmService)%bool = false ->
  let st' := processFact extractCodePattern calculateTextSimilarity
               args opts embedder vectorStore llmService o st i fact in
  st_memoryActions st' = st_memoryActions st \/
  exists a,
    st_memoryActions st' = st_memoryActions st ++ [applyConfidenceThreshold opts a] /\
    ((event a = ADD /\ In (confidence a) [0.6%Q; 0.7%Q; 0.8%Q]) \/
     (event a = UPDATE /\ confidence a = 0.75%Q) \/
     (event a = NONE /\ In (confidence a) [0.5%Q; 0.9%Q])).
Proof.
  intros Hllm. unfold processFact. cbv zeta. rewrite Hllm. clear Hllm.
  destruct (embedder && vectorStore)%bool.
  - destruct (embed_fact o) as [[]|embedError].
    + destruct (search_fact o) as [searchResults|err].
      * right. eexists. split; [reflexivity|].
        unfold determineMemoryOperation. cbv zeta.
        destruct (List.filter _ searchResults) as [|top rest].
        { left. split; [reflexivity|]. simpl. auto. }
        destruct (gtb _ _).
        { right. right. split; [reflexivity|]. simpl. auto. }
        destruct (_ && _)%bool.
        { right. left. split; reflexivity. }
        { left. split; [reflexivity|]. simpl. auto. }
      * right. eexists. split; [reflexivity|].
        left. split; [reflexivity|]. simpl. auto.
    + left. destruct (instanceofError embedError); reflexivity.
  - right. eexists. split; [reflexivity|].
    destruct (negb _).
    + left. split; [reflexivity|]. simpl. auto.
    + right. right. split; [reflexivity|]. simpl. auto.
Qed.

(** X6.  When no LLM decision is taken (LLM decisions switched off or no
    LLM service) and the confidence threshold is at most 0.5, as with the
    default 0.4, no decision is demoted: every returned action has a
    confidence of at least 0.5, and an action is NONE only as a duplicate,
    with confidence 0.9 (vector similarity above 0.9) or 0.5 (text
    similarity above the threshold). *)
Theorem without_llm_none_only_marks_duplicates
    (extractCodePattern : string -> option string)
    (calculateTextSimilarity : string -> string -> Q)
    (args : MemoryOperationArgs) (ctx : option ServiceContext)
    (oracle : nat -> FactOracle) (persist : nat -> result unit)
    (sys : EmbeddingSystem) (A : MemoryAction) :
  let opts := mergeOptions (options args) in
  (useLLMDecisions opts &&
   match ctx with Some c => hasLlmService c | None => false end)%bool = false ->
  (confidenceThreshold opts <= 0.5)%Q ->
  In A (memory (handler extractCodePattern calculateTextSimilarity
                  args ctx oracle persist sys).1.1) ->
  (0.5 <= confidence A)%Q /\
  (event A = NONE -> confidence A = 0.9%Q \/ confidence A = 0.5%Q).
Proof.
  cbv zeta. intros Hllm Hthr.
  unfold handler.
  destruct (validateMemoryOperationArgs args); [|intros []].
  cbv zeta.
  destruct (List.map trim _) as [|f fs] eqn:E; [intros []|]. rewrite <- E. simpl.
  generalize (List.map trim
                (List.filter (fun fact => truthy_str (trim fact))
                   (default [] (extractedFacts args)))).
  intros validFacts.
  set (P := fun a : MemoryAction =>
              (0.5 <= confidence a)%Q /\
              (event a = NONE -> confidence a = 0.9%Q \/ confidence a = 0.5%Q)).
  assert (Hall : forall facts i st,
             Forall P (st_memoryActions st) ->
             Forall P (st_memoryActions
                         (processFacts extractCodePattern calculateTextSimilarity
                            args (mergeOptions (options args)) (resolveEmbedder ctx)
                            (resolveVectorStore ctx)
                            (match ctx with Some c => hasLlmService c | None => false end)
                            oracle i facts st))).
  { induction facts as [|fact rest IH]; intros i st Hst; simpl; [exact Hst|].
    apply IH.
    destruct (processFact_without_llm extractCodePattern calculateTextSimilarity
                args (mergeOptions (options args)) (resolveEmbedder ctx)
                (resolveVectorStore ctx)
                (match ctx with Some c => hasLlmService c | None => false end)
                (oracle i) st i fact Hllm) as [Heq|(a & Heq & Ha)];
      cbv zeta in Heq; rewrite Heq; [exact Hst|].
    apply Forall_app. split; [exact Hst|]. constructor; [|constructor].
    assert (Hc : (0.5 <= confidence a)%Q).
    { destruct Ha as [[_ Hc]|[[_ Hc]|[_ Hc]]]; simpl in Hc.
      - destruct Hc as [<-|[<-|[<-|[]]]]; discriminate.
      - rewrite Hc. discriminate.
      - destruct Hc as [<-|[<-|[]]]; discriminate. }
    rewrite applyConfidenceThreshold_keeps
      by (eapply Qle_trans; [exact Hthr | exact Hc]).
    split; [exact Hc|]. intros Hev.
    destruct Ha as [[He _]|[[He _]|[_ Hc']]]; try congruence.
    simpl in Hc'. destruct Hc' as [<-|[<-|[]]]; auto. }
  intros HA.
  assert (HP : Forall P (st_memoryActions (mkLoop [] 0 (exactly 0) 0 0 sys)))
    by constructor.
  specialize (Hall validFacts 0 (mkLoop [] 0 (exactly 0) 0 0 sys) HP).
  rewrite List.Forall_forall in Hall. exact (Hall A HA).
Qed.

Lemma without_llm_none_only_marks_duplicates_witness :
  let args := oneFact pythonFact in
  let A := mkAction 123701 pythonFact ADD ["python"; "programming"] None None 0.7 in
  ((useLLMDecisions (mergeOptions (options args)) && false)%bool = false /\
   (confidenceThreshold (mergeOptions (options args)) <= 0.5)%Q /\
   In A (memory (handler noCodePattern noTextSimilarity args None
                   oracleAdd embedOk system0).1.1)) /\
  (0.5 <= confidence A)%Q.
Proof.
  cbv zeta.
  assert (H1 : (useLLMDecisions (mergeOptions (options (oneFact pythonFact)))
                && false)%bool = false) by reflexivity.
  assert (H2 : (confidenceThreshold (mergeOptions (options (oneFact pythonFact)))
                <= 0.5)%Q) by discriminate.
  assert (H3 : In (mkAction 123701 pythonFact ADD ["python"; "programming"]
                     None None 0.7)
                 (memory (handler noCodePattern noTextSimilarity (oneFact pythonFact)
                            None oracleAdd embedOk system0).1.1)).
  { vm_compute. left. reflexivity. }
  split; [repeat split; assumption|].
  exact (proj1 (without_llm_none_only_marks_duplicates noCodePattern noTextSimilarity
                  (oneFact pythonFact) None oracleAdd embedOk system0 _ H1 H2 H3)).
Defined.

(** ** Where [old_memory] comes from *)

Lemma applyConfidenceThreshold_old_memory opts a :
  old_memory (applyConfidenceThreshold opts a) = old_memory a.
Proof.
  unfold applyConfidenceThreshold. destruct (_ && _)%bool; reflexivity.
Qed.

Lemma llmDetermineMemoryOperation_old_memory e fact sims reply index cp tgs a s :
  llmDetermineMemoryOperation e fact sims reply index cp tgs = Ok a ->
  old_memory a = Some s ->
  event a = UPDATE /\ exists h, In h sims /\ memoryText h = s.
Proof.
  unfold llmDetermineMemoryOperation. cbv zeta.
  destruct reply as [r|err]; [|discriminate].
  destruct (parseLLMDecision r) as [d|]; [|discriminate].
  destruct (event_of_string (operation d)) as [ev|]; [|discriminate].
  intros [= <-]. simpl.
  destruct ev; try discriminate.
  destruct (targetMemoryId d) as [t|]; [|discriminate].
  destruct (truthy_int t); [|discriminate].
  destruct (List.find (is_target t) sims) as [h|] eqn:F; [|discriminate].
  intros [= <-]. split; [reflexivity|].
  exists h. split; [|reflexivity].
  apply find_some in F. exact (proj1 F).
Qed.

Lemma determineMemoryOperation_old_memory e fact sims thr index cp tgs s :
  old_memory (determineMemoryOperation e fact sims thr index cp tgs) = Some s ->
  event (determineMemoryOperation e fact sims thr index cp tgs) = UPDATE /\
  exists h, In h sims /\ memoryText h = s.
Proof.
  unfold determineMemoryOperation. cbv zeta.
  destruct sims as [|top rest]; [discriminate|].
  destruct (gtb _ _); [discriminate|].
  destruct (gtb _ _ && _)%bool; [|discriminate].
  simpl. intros [= <-]. split; [reflexivity|].
  exists top. split; [now left | reflexivity].
Qed.

Lemma processFact_old_memory
    (extractCodePattern : string -> option string)
    (calculateTextSimilarity : string -> string -> Q)
    args opts embedder vectorStore llmService o st i fact :
  let st' := processFact extractCodePattern calculateTextSimilarity
               args opts embedder vectorStore llmService o st i fact in
  st_memoryActions st' = st_memoryActions st \/
  exists a,
    st_memoryActions st' = st_memoryActions st ++ [applyConfidenceThreshold opts a] /\
    forall s, old_memory a = Some s ->
              event a = UPDATE /\
              exists h, In h (similar_hits opts o) /\ memoryText h = s.
Proof.
  unfold processFact, similar_hits. cbv zeta.
  destruct (embedder && vectorStore)%bool.
  - destruct (embed_fact o) as [[]|embedError].
    + destruct (search_fact o) as [searchResults|err].
      * destruct (useLLMDecisions opts && llmService)%bool.
        -- destruct (llmDetermineMemoryOperation _ _ _ _ _ _ _) as [a|err] eqn:E.
           ++ right. exists a. split; [reflexivity|].
              intros s. eapply llmDetermineMemoryOperation_old_memory. exact E.
           ++ right. eexists. split; [reflexivity|].
              intros s. apply determineMemoryOperation_old_memory.
        -- right. eexists. split; [reflexivity|].
           intros s. apply determineMemoryOperation_old_memory.
      * right. eexists. split; [reflexivity|]. intros s. discriminate.
    + left. destruct (instanceofError embedError); reflexivity.
  - right. eexists. split; [reflexivity|]. intros s. discriminate.
Qed.

Lemma processFacts_old_memory
    (extractCodePattern : string -> option string)
    (calculateTextSimilarity : string -> string -> Q)
    args opts embedder vectorStore llmService (oracle : nat -> FactOracle)
    (P : MemoryAction -> Prop) :
  (forall i a, (forall s, old_memory a = Some s ->
                  event a = UPDATE /\
                  exists h, In h (similar_hits opts (oracle i)) /\ memoryText h = s) ->
               P (applyConfidenceThreshold opts a)) ->
  forall validFacts i st,
    Forall P (st_memoryActions st) ->
    Forall P (st_memoryActions
                (processFacts extractCodePattern calculateTextSimilarity
                   args opts embedder vectorStore llmService oracle i validFacts st)).
Proof.
  intros HP. induction validFacts as [|fact rest IH]; intros i st Hst; simpl.
  - exact Hst.
  - apply IH.
    destruct (processFact_old_memory extractCodePattern calculateTextSimilarity
                args opts embedder vectorStore llmService (oracle i) st i fact)
      as [E|[a [E Ha]]]; cbv zeta in E; rewrite E.
    + exact Hst.
    + apply Forall_app. split; [exact Hst|].
      constructor; [|constructor]. eapply HP. exact Ha.
Qed.

(** X7.  An [old_memory] in a returned action is never invented: it is the
    text ([payload.data || text || '']) of a search hit of one of the facts
    whose score reaches the similarity threshold, and the action is an
    UPDATE or an UPDATE demoted to NONE by the confidence threshold. *)
Theorem old_memory_is_text_of_a_similar_hit
    (extractCodePattern : string -> option string)
    (calculateTextSimilarity : string -> string -> Q)
    (args : MemoryOperationArgs) (ctx : option ServiceContext)
    (oracle : nat -> FactOracle) (persist : nat -> result unit)
    (sys : EmbeddingSystem) (A : MemoryAction) (s : string) :
  let opts := mergeOptions (options args) in
  In A (memory (handler extractCodePattern calculateTextSimilarity
                  args ctx oracle persist sys).1.1) ->
  old_memory A = Some s ->
  (event A = UPDATE \/ event A = NONE) /\
  exists (i : nat) (hits : list SearchResult) (h : SearchResult),
    search_fact (oracle i) = Ok hits /\ In h hits /\
    (similarityThreshold opts <= or_num (hit_score h) 0)%Q /\
    memoryText h = s.
Proof.
  cbv zeta. intros HA Hs.
  set (opts := mergeOptions (options args)).
  set (P := fun a : MemoryAction =>
    forall s, old_memory a = Some s ->
    (event a = UPDATE \/ event a = NONE) /\
    exists (i : nat) (hits : list SearchResult) (h : SearchResult),
      search_fact (oracle i) = Ok hits /\ In h hits /\
      (similarityThreshold opts <= or_num (hit_score h) 0)%Q /\
      memoryText h = s).
  assert (Hall : Forall P (memory (handler extractCodePattern calculateTextSimilarity
                                      args ctx oracle persist sys).1.1)).
  { unfold handler.
    destruct (validateMemoryOperationArgs args); [|constructor].
    cbv zeta.
    destruct (List.map trim _) eqn:E; [constructor|]. rewrite <- E. simpl.
    apply processFacts_old_memory; [|constructor].
    intros i a Ha s' Hs'. rewrite applyConfidenceThreshold_old_memory in Hs'.
    destruct (Ha s' Hs') as [Hev (h & Hh & Ht)]. split.
    - unfold applyConfidenceThreshold.
      destruct (_ && _)%bool; simpl; [now right | now left].
    - unfold similar_hits in Hh.
      destruct (search_fact (oracle i)) as [hits|err] eqn:Es; [|destruct Hh].
      apply filter_In in Hh as [Hin Hge].
      exists i, hits, h. repeat split; try assumption.
      apply Qle_bool_iff. exact Hge. }
  rewrite List.Forall_forall in Hall. exact (Hall A HA s Hs).
Qed.

Lemma old_memory_is_text_of_a_similar_hit_witness :
  let A := mkAction 999999 pythonFact UPDATE ["python"; "programming"]
             (Some "def defines functions in Python") None 0.9 in
  In A (memory (handler noCodePattern noTextSimilarity (oneFact pythonFact)
                  (Some allServices) oracleFarTarget embedOk system0).1.1) /\
  old_memory A = Some "def defines functions in Python" /\
  (event A = UPDATE \/ event A = NONE).
Proof.
  cbv zeta.
  assert (H1 : In (mkAction 999999 pythonFact UPDATE ["python"; "programming"]
                     (Some "def defines functions in Python") None 0.9)
                 (memory (handler noCodePattern noTextSimilarity (oneFact pythonFact)
                            (Some allServices) oracleFarTarget embedOk system0).1.1)).
  { vm_compute. left. reflexivity. }
  split; [exact H1|]. split; [reflexivity|].
  exact (proj1 (old_memory_is_text_of_a_similar_hit noCodePattern noTextSimilarity
                  (oneFact pythonFact) (Some allServices) oracleFarTarget embedOk
                  system0 _ "def defines functions in Python" H1 eq_refl)).
Defined.

(** ** When the LLM is consulted *)

Lemma processFact_llm_counter
    (extractCodePattern : string -> option string)
    (calculateTextSimilarity : string -> string -> Q)
    args opts embedder vectorStore llmService o st i fact :
  (embedder && vectorStore && (useLLMDecisions opts && llmService))%bool = false ->
  st_llmDecisionsUsed
    (processFact extractCodePattern calculateTextSimilarity
       args opts embedder vectorStore llmService o st i fact) =
  st_llmDecisionsUsed st.
Proof.
  intros H. unfold processFact. cbv zeta.
  destruct (embedder && vectorStore)%bool; [|reflexivity].
  simpl in H. rewrite H.
  destruct (embed_fact o) as [[]|embedError].
  - destruct (search_fact o); reflexivity.
  - destruct (instanceofError embedError); reflexivity.
Qed.

Lemma processFacts_llm_counter
    (extractCodePattern : string -> option string)
    (calculateTextSimilarity : string -> string -> Q)
    args opts embedder vectorStore llmService (oracle : nat -> FactOracle) :
  (embedder && vectorStore && (useLLMDecisions opts && llmService))%bool = false ->
  forall validFacts i st,
    st_llmDecisionsUsed
      (processFacts extractCodePattern calculateTextSimilarity
         args opts embedder vectorStore llmService oracle i validFacts st) =
    st_llmDecisionsUsed st.
Proof.
  intros H. induction validFacts as [|fact rest IH]; intros i st; simpl.
  - reflexivity.
  - rewrite IH. apply processFact_llm_counter. exact H.
Qed.

(** X8.  LLM decisions are taken only on the embedding path: when the
    statistics report an LLM decision, the option [useLLMDecisions] is on
    and the context carries an LLM service together with an embedding
    manager and a vector-store manager that both handed out their
    component.  On the basic path (no embedder or no vector store) the LLM
    is never consulted, whatever the options say. *)
Theorem llm_decisions_need_embedder_and_store
    (extractCodePattern : string -> option string)
    (calculateTextSimilarity : string -> string -> Q)
    (args : MemoryOperationArgs) (ctx : option ServiceContext)
    (oracle : nat -> FactOracle) (persist : nat -> result unit)
    (sys : EmbeddingSystem) :
  let res := (handler extractCodePattern calculateTextSimilarity
                args ctx oracle persist sys).1.1 in
  llmDecisionsUsed (statistics res) <> 0 ->
  useLLMDecisions (mergeOptions (options args)) = true /\
  exists c, ctx = Some c /\ hasLlmService c = true /\
            hasEmbeddingManager c = true /\ hasVectorStoreManager c = true /\
            getEmbedder c = Ok true /\ getStore c = Ok true.
Proof.
  cbv zeta. unfold handler.
  destruct (validateMemoryOperationArgs args); [|simpl; congruence].
  cbv zeta.
  destruct (List.map trim _) eqn:E; [simpl; congruence|]. rewrite <- E. simpl.
  destruct (resolveEmbedder ctx && resolveVectorStore ctx &&
            (useLLMDecisions (mergeOptions (options args)) &&
             match ctx with Some c => hasLlmService c | None => false end))%bool
    eqn:B.
  - intros _.
    apply andb_true_iff in B as [B1 B2].
    apply andb_true_iff in B1 as [Be Bv].
    apply andb_true_iff in B2 as [Bu Bl].
    split; [exact Bu|].
    destruct ctx as [c|]; [|discriminate].
    exists c. unfold resolveEmbedder, resolveVectorStore in *.
    destruct (hasEmbeddingManager c); [|discriminate].
    destruct (hasVectorStoreManager c); [|discriminate].
    simpl in *.
    destruct (getEmbedder c) as [[]|]; try discriminate.
    destruct (getStore c) as [[]|]; try discriminate.
    repeat split; try reflexivity. exact Bl.
  - rewrite processFacts_llm_counter by exact B. simpl. congruence.
Qed.

Lemma llm_decisions_need_embedder_and_store_witness :
  llmDecisionsUsed
    (statistics (handler noCodePattern noTextSimilarity (oneFact pythonFact)
                   (Some allServices) oracleAdd embedOk system0).1.1) <> 0 /\
  useLLMDecisions (mergeOptions (options (oneFact pythonFact))) = true.
Proof.
  assert (H : llmDecisionsUsed
                (statistics (handler noCodePattern noTextSimilarity (oneFact pythonFact)
                               (Some allServices) oracleAdd embedOk system0).1.1) <> 0)
    by (vm_compute; discriminate).
  split; [exact H|].
  exact (proj1 (llm_decisions_need_embedder_and_store noCodePattern noTextSimilarity
                  (oneFact pythonFact) (Some allServices) oracleAdd embedOk system0 H)).
Defined.

(** ** The reported average confidence *)

Lemma confidence_total_snoc (actions : list MemoryAction) (a : MemoryAction) :
  (confidence_total (actions ++ [a]) == confidence_total actions + confidence a)%Q.
Proof.
  induction actions as [|b rest IH]; simpl.
  - ring.
  - rewrite IH. ring.
Qed.

Lemma confidence_sum_snoc (actions : list MemoryAction) (a : MemoryAction) :
  confidence_sum (actions ++ [a]) = fadd (confidence_sum actions) (confidence a).
Proof. unfold confidence_sum. now rewrite List.fold_left_app. Qed.

(** In exact arithmetic the loop's sum is the sum. *)
Lemma confidence_sum_exact (actions : list MemoryAction) :
  (confidence_sum actions (fun q => q) == confidence_total actions)%Q.
Proof.
  induction actions as [|a rest IH] using List.rev_ind; [reflexivity|].
  rewrite confidence_sum_snoc, confidence_total_snoc. unfold fadd.
  now rewrite IH.
Qed.

(** Under a monotone rounding that is exact on the counts, the loop's sum
    of [n] confidences between 0 and 1 lies between 0 and [n]. *)
Lemma confidence_sum_bounds (round : Q -> Q) (actions : list MemoryAction) :
  rounds_monotonically round ->
  exact_up_to (List.length actions) round ->
  Forall (fun a => (0 <= confidence a)%Q /\ (confidence a <= 1)%Q) actions ->
  (0 <= confidence_sum actions round)%Q /\
  (confidence_sum actions round <= inject_Z (Z.of_nat (List.length actions)))%Q.
Proof.
  intros Hmono.
  induction actions as [|a rest IH] using List.rev_ind; intros Hexact Hall.
  - simpl. split; apply Qle_refl.
  - apply Forall_app in Hall as [Hrest Ha].
    apply List.Forall_inv in Ha as [Ha0 Ha1].
    rewrite List.length_app in Hexact. simpl in Hexact.
    destruct IH as [IH0 IH1]; [|exact Hrest|].
    { intros k Hk. apply Hexact. lia. }
    rewrite confidence_sum_snoc, List.length_app. simpl. unfold fadd.
    split.
    + rewrite <- (Hexact 0) by lia. apply Hmono.
      change (inject_Z (Z.of_nat 0)) with (0 + 0)%Q.
      apply Qplus_le_compat; assumption.
    + rewrite <- (Hexact (List.length rest + 1)) by lia. apply Hmono.
      rewrite Nat2Z.inj_add, inject_Z_plus.
      apply Qplus_le_compat; assumption.
Qed.

Lemma processFact_confidence_sum
    (extractCodePattern : string -> option string)
    (calculateTextSimilarity : string -> string -> Q)
    args opts embedder vectorStore llmService o st i fact :
  st_confidenceSum st = confidence_sum (st_memoryActions st) ->
  let st' := processFact extractCodePattern calculateTextSimilarity
               args opts embedder vectorStore llmService o st i fact in
  st_confidenceSum st' = confidence_sum (st_memoryActions st').
Proof.
  intros H. unfold processFact. cbv zeta.
  assert (Hpush : forall st0 a,
            st_confidenceSum st0 = confidence_sum (st_memoryActions st0) ->
            st_confidenceSum (pushAction opts st0 a) =
            confidence_sum (st_memoryActions (pushAction opts st0 a))).
  { intros st0 a H0. unfold pushAction. cbv zeta. simpl.
    now rewrite confidence_sum_snoc, H0. }
  destruct (embedder && vectorStore)%bool.
  - destruct (embed_fact o) as [[]|embedError].
    + destruct (search_fact o) as [searchResults|err].
      * destruct (useLLMDecisions opts && llmService)%bool.
        -- destruct (llmDetermineMemoryOperation _ _ _ _ _ _ _);
             apply Hpush; exact H.
        -- apply Hpush. exact H.
      * apply Hpush. exact H.
    + destruct (instanceofError embedError); exact H.
  - apply Hpush. exact H.
Qed.

Lemma processFacts_confidence_sum
    (extractCodePattern : string -> option string)
    (calculateTextSimilarity : string -> string -> Q)
    args opts embedder vectorStore llmService (oracle : nat -> FactOracle) :
  forall validFacts i st,
    st_confidenceSum st = confidence_sum (st_memoryActions st) ->
    let st' := processFacts extractCodePattern calculateTextSimilarity
                 args opts embedder vectorStore llmService oracle i validFacts st in
    st_confidenceSum st' = confidence_sum (st_memoryActions st').
Proof.
  induction validFacts as [|fact rest IH]; intros i st H; simpl.
  - exact H.
  - apply IH. apply processFact_confidence_sum. exact H.
Qed.

(** X9.  The reported [averageConfidence] is computed in floating point:
    the confidences of the returned actions are added from the left and
    the sum is divided by their number, each operation rounded.  It is 0
    when no action is returned.  Whatever the rounding, as long as it is
    monotone and exact on the whole numbers up to that number, the
    reported value lies between 0 and 1.  In exact arithmetic it is the
    arithmetic mean of the confidences. *)
Theorem averageConfidence_is_the_mean
    (extractCodePattern : string -> option string)
    (calculateTextSimilarity : string -> string -> Q)
    (args : MemoryOperationArgs) (ctx : option ServiceContext)
    (oracle : nat -> FactOracle) (persist : nat -> result unit)
    (sys : EmbeddingSystem) (round : Q -> Q) :
  let res := (handler extractCodePattern calculateTextSimilarity
                args ctx oracle persist sys).1.1 in
  let n := List.length (memory res) in
  rounds_monotonically round ->
  exact_up_to n round ->
  (averageConfidence (statistics res) =
     if Nat.ltb 0 n
     then fdiv (confidence_sum (memory res)) (inject_Z (Z.of_nat n))
     else exactly 0) /\
  (n = 0%nat -> (averageConfidence (statistics res) round == 0)%Q) /\
  (0 <= averageConfidence (statistics res) round)%Q /\
  (averageConfidence (statistics res) round <= 1)%Q /\
  (averageConfidence (statistics res) (fun q => q) * inject_Z (Z.of_nat n)
     == confidence_total (memory res))%Q.
Proof.
  cbv zeta.
  pose proof (handler_memory_Forall extractCodePattern calculateTextSimilarity
                (fun a => (0 <= confidence a)%Q /\ (confidence a <= 1)%Q)
                args ctx oracle persist sys) as Hall.
  assert (Hb : Forall (fun a => (0 <= confidence a)%Q /\ (confidence a <= 1)%Q)
                 (memory (handler extractCodePattern calculateTextSimilarity
                            args ctx oracle persist sys).1.1)).
  { apply Hall. intros i fact a Ha.
    destruct (applyConfidenceThreshold_fields (mergeOptions (options args)) a)
      as (_ & _ & _ & ->).
    eapply decided_confidence. exact Ha. }
  clear Hall. revert Hb.
  unfold handler.
  destruct (validateMemoryOperationArgs args).
  2:{ simpl. intros _ _ _. repeat split; try reflexivity; discriminate. }
  cbv zeta.
  destruct (List.map trim _) eqn:E.
  { simpl. intros _ _ _. repeat split; try reflexivity; discriminate. }
  rewrite <- E. simpl.
  set (st := processFacts _ _ _ _ _ _ _ _ _ _ _).
  assert (Hsum : st_confidenceSum st = confidence_sum (st_memoryActions st)).
  { apply processFacts_confidence_sum. reflexivity. }
  rewrite Hsum.
  intros Hb Hmono Hexact.
  destruct (confidence_sum_bounds round (st_memoryActions st) Hmono Hexact Hb)
    as [Hb0 Hb1].
  pose proof (confidence_sum_exact (st_memoryActions st)) as Hmean.
  destruct (st_memoryActions st) as [|a rest] eqn:Em.
  - simpl. repeat split; try reflexivity; discriminate.
  - set (n := List.length (a :: rest)) in *.
    assert (Hn : (0 < inject_Z (Z.of_nat n))%Q).
    { change 0%Q with (inject_Z 0). rewrite <- Zlt_Qlt. subst n. simpl. lia. }
    assert (Hn' : ~ (inject_Z (Z.of_nat n) == 0)%Q).
    { intros H0. rewrite H0 in Hn. exact (Qlt_irrefl _ Hn). }
    change (0 <? n)%nat with true. cbv iota.
    split; [reflexivity|]. split; [subst n; simpl; discriminate|].
    unfold fdiv.
    split; [|split].
    + rewrite <- (Hexact 0%nat) by lia. apply Hmono.
      apply Qle_shift_div_l; [exact Hn|].
      change (inject_Z (Z.of_nat 0)) with 0%Q. rewrite Qmult_0_l. exact Hb0.
    + assert (H1 : (round (inject_Z (Z.of_nat 1)) == 1)%Q)
        by (apply (Hexact 1%nat); subst n; simpl; lia).
      rewrite <- H1. apply Hmono.
      apply Qle_shift_div_r; [exact Hn|].
      change (inject_Z (Z.of_nat 1)) with 1%Q. rewrite Qmult_1_l. exact Hb1.
    + rewrite Hmean. field. exact Hn'.
Qed.

Lemma averageConfidence_is_the_mean_witness :
  (rounds_monotonically (fun q => q) /\
   exact_up_to
     (List.length
        (memory (handler noCodePattern noTextSimilarity (oneFact pythonFact)
                   (Some allServices) oracleAdd embedOk system0).1.1))
     (fun q => q)) /\
  (averageConfidence
     (statistics (handler noCodePattern noTextSimilarity (oneFact pythonFact)
                    (Some allServices) oracleAdd embedOk system0).1.1)
     (fun q => q) <= 1)%Q.
Proof.
  assert (H1 : rounds_monotonically (fun q => q)) by (intros x y H; exact H).
  assert (H2 : exact_up_to
                 (List.length
                    (memory (handler noCodePattern noTextSimilarity
                               (oneFact pythonFact) (Some allServices) oracleAdd
                               embedOk system0).1.1))
                 (fun q => q)) by (intros k _; reflexivity).
  split; [split; [exact H1 | exact H2]|].
  exact (proj1 (proj2 (proj2 (proj2
           (averageConfidence_is_the_mean noCodePattern noTextSimilarity
              (oneFact pythonFact) (Some allServices) oracleAdd embedOk system0
              (fun q => q) H1 H2))))).
Defined.

(** ** Tags *)

Lemma set_of_complete (xs seen : list string) (x : string) :
  In x xs -> ~ In x seen -> In x (set_of seen xs).
Proof.
  revert seen. induction xs as [|y ys IH]; intros seen Hin Hseen; simpl.
  - destruct Hin.
  - destruct (existsb (String.eqb y) seen) eqn:E.
    + apply IH; [|exact Hseen].
      destruct Hin as [->|Hin]; [|exact Hin].
      apply existsb_eqb_In in E. contradiction.
    + destruct (String.eqb_spec y x) as [->|Hne]; [now left|].
      right. apply IH.
      * destruct Hin as [Hin|Hin]; [contradiction | exact Hin].
      * intros [Hx|Hx]; [contradiction | exact (Hseen Hx)].
Qed.

Lemma extractTechnicalTags_In (fact x : string) :
  In x (extractTechnicalTags fact) <-> In x (collected_tags fact).
Proof.
  rewrite extractTechnicalTags_unfold. unfold array_from_set. split.
  - intros H. exact (proj1 (proj2 (set_of_spec (collected_tags fact) []) x H)).
  - intros H. apply set_of_complete; [exact H | intros []].
Qed.

Lemma keywords_are_not_content_tags (k : string) :
  In k keywords -> ~ In k ("general-knowledge" :: content_tags).
Proof.
  intros Hk Hc.
  assert (Hb : forallb (fun k => negb (existsb (String.eqb k)
                                         ("general-knowledge" :: content_tags)))
                 keywords = true) by reflexivity.
  rewrite forallb_forall in Hb. specialize (Hb k Hk).
  apply negb_true_iff in Hb.
  apply existsb_eqb_In in Hc. congruence.
Qed.

Lemma pushed_tags_keyword (fact k : string) :
  In k keywords ->
  (In k (pushed_tags fact) <-> includes (toLowerCase fact) k = true).
Proof.
  intros Hk.
  pose proof (keywords_are_not_content_tags k Hk) as Hnc.
  unfold pushed_tags, keyword_tags.
  rewrite !in_app_iff, !filter_In. split.
  - intros H.
    repeat match type of H with
           | _ \/ _ => destruct H as [H|H]
           end;
      try (destruct H as [_ H]; exact H);
      apply content_tag_In in H; subst k;
      exfalso; apply Hnc; unfold content_tags; simpl; tauto.
  - intros H. unfold keywords in Hk. rewrite !in_app_iff in Hk.
    destruct Hk as [Hk|[Hk|Hk]]; auto 6.
Qed.

Lemma collected_tags_keyword (fact k : string) :
  In k keywords ->
  (In k (collected_tags fact) <-> includes (toLowerCase fact) k = true).
Proof.
  intros Hk. rewrite <- (pushed_tags_keyword fact k Hk).
  unfold collected_tags. destruct (pushed_tags fact) eqn:E; [|reflexivity].
  split; [|intros []].
  intros [<-|[]]. exfalso.
  apply (keywords_are_not_content_tags _ Hk). now left.
Qed.

(** X10.  A language, framework or tool name is among the tags of a fact
    exactly when the lower-cased fact contains it as a substring; and the
    tag "general-knowledge" is present exactly when nothing else was
    recognised, in which case it is the only tag. *)
Theorem keyword_tag_iff_substring (fact k : string) :
  (In k keywords ->
   (In k (extractTechnicalTags fact) <-> includes (toLowerCase fact) k = true)) /\
  (In "general-knowledge" (extractTechnicalTags fact) <->
   extractTechnicalTags fact = ["general-knowledge"]) /\
  (In "general-knowledge" (extractTechnicalTags fact) <-> pushed_tags fact = []).
Proof.
  split; [|split].
  - intros Hk. rewrite extractTechnicalTags_In. apply collected_tags_keyword, Hk.
  - split.
    + rewrite extractTechnicalTags_In. unfold collected_tags.
      destruct (pushed_tags fact) as [|t ts] eqn:E.
      * intros _. rewrite extractTechnicalTags_unfold. unfold collected_tags.
        rewrite E. reflexivity.
      * rewrite <- E. intros H. apply pushed_tags_candidates in H as H'.
        exfalso.
        assert (Hp : forall x, In x (pushed_tags fact) ->
                               In x (keywords ++ content_tags)).
        { intros x Hx. unfold pushed_tags, keyword_tags in Hx.
          unfold keywords, content_tags.
          rewrite !in_app_iff, !filter_In in Hx. rewrite !in_app_iff.
          repeat match type of Hx with
                 | _ \/ _ => destruct Hx as [Hx|Hx]
                 end;
            try (destruct Hx as [Hx _]; tauto);
            apply content_tag_In in Hx; subst x; simpl; tauto. }
        specialize (Hp _ H).
        assert (Hb : existsb (String.eqb "general-knowledge")
                       (keywords ++ content_tags) = false) by reflexivity.
        apply existsb_eqb_In in Hp. congruence.
    + intros ->. now left.
  - rewrite extractTechnicalTags_In. unfold collected_tags.
    destruct (pushed_tags fact) as [|t ts] eqn:E.
    + split; [reflexivity | intros _; now left].
    + rewrite <- E. split; [|rewrite E; discriminate].
      intros H. exfalso.
      assert (Hp : forall x, In x (pushed_tags fact) ->
                             In x (keywords ++ content_tags)).
      { intros x Hx. unfold pushed_tags, keyword_tags in Hx.
        unfold keywords, content_tags.
        rewrite !in_app_iff, !filter_In in Hx. rewrite !in_app_iff.
        repeat match type of Hx with
               | _ \/ _ => destruct Hx as [Hx|Hx]
               end;
          try (destruct Hx as [Hx _]; tauto);
          apply content_tag_In in Hx; subst x; simpl; tauto. }
      specialize (Hp _ H).
      assert (Hb : existsb (String.eqb "general-knowledge")
                     (keywords ++ content_tags) = false) by reflexivity.
      apply existsb_eqb_In in Hp. congruence.
Qed.

Lemma keyword_tag_iff_substring_witness :
  In "python" keywords /\
  (In "python" (extractTechnicalTags pythonFact) <->
   includes (toLowerCase pythonFact) "python" = true).
Proof.
  assert (H : In "python" keywords) by (vm_compute; tauto).
  split; [exact H|].
  exact (proj1 (keyword_tag_iff_substring pythonFact "python") H).
Defined.

Lemma prefix_app_l (p q s : string) :
  String.prefix (p ++ q)%string s = true -> String.prefix p s = true.
Proof.
  revert s. induction p as [|c p IH]; intros s; simpl.
  - intros _. destruct s; reflexivity.
  - destruct s as [|d s]; [discriminate|].
    change (String.prefix (String c (p ++ q)%string) (String d s) = true ->
            String.prefix (String c p) (String d s) = true).
    cbn [String.prefix].
    destruct (Ascii.ascii_dec c d); [apply IH | discriminate].
Qed.

Lemma includes_app_l (s p q : string) :
  includes s (p ++ q)%string = true -> includes s p = true.
Proof.
  induction s as [|c s IH]; cbn [includes].
  - destruct (String.prefix (p ++ q)%string EmptyString) eqn:E; [|discriminate].
    intros _. apply prefix_app_l in E. rewrite E. reflexivity.
  - destruct (String.prefix (p ++ q)%string (String c s)) eqn:E.
    + intros _. apply prefix_app_l in E. rewrite E. reflexivity.
    + intros H. rewrite (IH H). destruct (String.prefix p (String c s)); reflexivity.
Qed.

(** X11.  Keywords are matched as substrings, not as words: every fact
    tagged "javascript" is also tagged "java". *)
Theorem javascript_is_also_tagged_java (fact : string) :
  In "javascript" (extractTechnicalTags fact) ->
  In "java" (extractTechnicalTags fact).
Proof.
  rewrite !extractTechnicalTags_In.
  assert (Hjs : In "javascript" keywords) by (vm_compute; tauto).
  assert (Hj : In "java" keywords) by (vm_compute; tauto).
  rewrite (collected_tags_keyword fact _ Hjs), (collected_tags_keyword fact _ Hj).
  change "javascript" with ("java" ++ "script")%string.
  apply includes_app_l.
Qed.

Lemma javascript_is_also_tagged_java_witness :
  In "javascript" (extractTechnicalTags "We use JavaScript on the server") /\
  In "java" (extractTechnicalTags "We use JavaScript on the server").
Proof.
  assert (H : In "javascript" (extractTechnicalTags "We use JavaScript on the server"))
    by (vm_compute; tauto).
  split; [exact H|].
  exact (javascript_is_also_tagged_java "We use JavaScript on the server" H).
Defined.

(** ** Identifiers *)

Lemma generateMemoryId_main (e : Entropy) (index : Z) :
  (0 <= now e)%Z -> (0 <= index)%Z -> (0 <= random1 e)%Q ->
  generateMemoryId e index = main_id e index.
Proof.
  intros Hn Hi Hr. unfold generateMemoryId, main_id. cbv zeta.
  assert (Hf : (0 <= Qfloor (random1 e * 1000))%Z).
  { rewrite <- (Qfloor_Z 0). apply Qfloor_resp_le.
    apply Qmult_le_0_compat; [exact Hr | discriminate]. }
  rewrite (Z.rem_mod_nonneg (now e) 300000) by lia.
  pose proof (Z.mod_pos_bound (now e) 300000 ltac:(lia)) as Hm.
  rewrite Z.rem_mod_nonneg by lia.
  pose proof (Z.mod_pos_bound
                (now e mod 300000 * 1000 + Qfloor (random1 e * 1000) + index)
                333333 ltac:(lia)) as Hm2.
  destruct (Z.leb_spec
              (1 + (now e mod 300000 * 1000 + Qfloor (random1 e * 1000) + index)
                     mod 333333) 0); [lia | reflexivity].
Qed.

(** X12.  For a non-negative clock, index and random draw the repair
    branch of [generateMemoryId] is never taken: the id is 1 plus
    ((now mod 300000) * 1000 + floor(1000 * random) + index) mod 333333, and
    the second random draw plays no part.  Hence ids are not unique: two
    calls whose clocks differ by a multiple of 300000 ms and whose sums of
    random suffix and index agree produce the same id. *)
Theorem generateMemoryId_collides (e1 e2 : Entropy) (i1 i2 k : Z) :
  (0 <= now e1)%Z -> (0 <= k)%Z -> (0 <= i1)%Z -> (0 <= i2)%Z ->
  (0 <= random1 e1)%Q -> (0 <= random1 e2)%Q ->
  now e2 = (now e1 + 300000 * k)%Z ->
  (Qfloor (random1 e1 * 1000) + i1 = Qfloor (random1 e2 * 1000) + i2)%Z ->
  generateMemoryId e1 i1 = main_id e1 i1 /\
  generateMemoryId e2 i2 = generateMemoryId e1 i1.
Proof.
  intros Hn Hk Hi1 Hi2 Hr1 Hr2 Hnow Hsum.
  rewrite (generateMemoryId_main e1 i1) by assumption.
  rewrite (generateMemoryId_main e2 i2) by (try assumption; lia).
  split; [reflexivity|].
  unfold main_id. rewrite Hnow.
  replace ((now e1 + 300000 * k) mod 300000)%Z with (now e1 mod 300000)%Z.
  2:{ rewrite (Z.mul_comm 300000 k). now rewrite Z.mod_add by lia. }
  f_equal. f_equal. lia.
Qed.

Lemma generateMemoryId_collides_witness :
  let e1 := mkEntropy 1700000000123 0.501 0.25 in
  let e2 := mkEntropy 1700000300123 0.5 0.75 in
  generateMemoryId e2 1 = generateMemoryId e1 0.
Proof.
  cbv zeta.
  refine (proj2 (generateMemoryId_collides
                   (mkEntropy 1700000000123 0.501 0.25)
                   (mkEntropy 1700000300123 0.5 0.75) 0 1 1 _ _ _ _ _ _ _ _));
    simpl; try lia; try discriminate; reflexivity.
Defined.

(** ** The tool-calling loop, as a whole *)

Section ToolRounds.

Variable JSON_parse : string -> result string.
Variable executeTool : nat -> string -> string -> result string.

Lemma handleToolCalls_shape (calls : list ToolCall) (st : ServiceState) :
  let st' := handleToolCalls JSON_parse executeTool calls st in
  exists payloads : list Content,
    List.length payloads = List.length calls /\
    Forall is_tool_payload payloads /\
    cm_messages (contextManager st') =
      cm_messages (contextManager st) ++ answers calls payloads /\
    cm_historyProvider (contextManager st') = cm_historyProvider (contextManager st) /\
    cm_sessionId (contextManager st') = cm_sessionId (contextManager st) /\
    events st' = events st /\
    executions st' = executions st ++ parsed_calls JSON_parse calls.
Proof.
  cbv zeta. revert st. induction calls as [|toolCall rest IH]; intros st.
  - exists []. simpl. rewrite !List.app_nil_r. repeat split. constructor.
  - cbn [handleToolCalls parsed_calls].
    destruct (JSON_parse (tc_arguments toolCall)) as [args|e].
    + destruct (executeTool _ _ _) as [r|err].
      * destruct (IH (with_context
                        (addToolResult
                           (contextManager (record_execution (tc_name toolCall) args st))
                           (tc_id toolCall) (tc_name toolCall) (ToolOutput r))
                        (record_execution (tc_name toolCall) args st)))
          as (ps & Hl & Hp & Hm & Hh & Hs & He & Hx).
        exists (ToolOutput r :: ps).
        rewrite Hm, Hh, Hs, He, Hx. simpl. rewrite Hl, <- !List.app_assoc.
        repeat split. constructor; [exact I | exact Hp].
      * destruct (IH (with_context
                        (addToolResult
                           (contextManager (record_execution (tc_name toolCall) args st))
                           (tc_id toolCall) (tc_name toolCall)
                           (ErrorPayload (errorMessage err)))
                        (record_execution (tc_name toolCall) args st)))
          as (ps & Hl & Hp & Hm & Hh & Hs & He & Hx).
        exists (ErrorPayload (errorMessage err) :: ps).
        rewrite Hm, Hh, Hs, He, Hx. simpl. rewrite Hl, <- !List.app_assoc.
        repeat split. constructor; [exact I | exact Hp].
    + destruct (IH (with_context
                      (addToolResult (contextManager st) (tc_id toolCall)
                         (tc_name toolCall)
                         (ErrorPayload ("Failed to parse arguments: " ++ stringOf e)))
                      st))
        as (ps & Hl & Hp & Hm & Hh & Hs & He & Hx).
      exists (ErrorPayload ("Failed to parse arguments: " ++ stringOf e) :: ps).
      rewrite Hm, Hh, Hs, He, Hx. simpl. rewrite Hl, <- !List.app_assoc.
      repeat split. constructor; [exact I | exact Hp].
Qed.

(** X13.  The tool-calling loop answers every call exactly once and in
    order, with a tool output or an error object; it executes exactly the
    calls whose arguments parse, in order; and it emits no event and leaves
    the history provider and session id of the context manager alone. *)
Theorem handleToolCalls_answers_every_call
    (calls : list ToolCall) (st : ServiceState) :
  let st' := handleToolCalls JSON_parse executeTool calls st in
  (exists payloads : list Content,
     List.length payloads = List.length calls /\
     Forall is_tool_payload payloads /\
     cm_messages (contextManager st') =
       cm_messages (contextManager st) ++ answers calls payloads) /\
  executions st' = executions st ++ parsed_calls JSON_parse calls /\
  events st' = events st /\
  cm_historyProvider (contextManager st') = cm_historyProvider (contextManager st) /\
  cm_sessionId (contextManager st') = cm_sessionId (contextManager st).
Proof.
  cbv zeta.
  destruct (handleToolCalls_shape calls st) as (ps & Hl & Hp & Hm & Hh & Hs & He & Hx).
  split; [exists ps; repeat split; assumption|].
  repeat split; assumption.
Qed.

Lemma emit_context (canEmit : bool) (ev : SessionEvent) (st : ServiceState) :
  contextManager (emit canEmit ev st) = contextManager st.
Proof. unfold emit. destruct canEmit; reflexivity. Qed.

Lemma emit_events (canEmit : bool) (ev : SessionEvent) (st : ServiceState) :
  events (emit canEmit ev st) = events st ++ (if canEmit then [ev] else []).
Proof. unfold emit. destruct canEmit; simpl; [reflexivity | now rewrite List.app_nil_r]. Qed.

Lemma thinking_rounds_app (xs ys : list Message) :
  thinking_rounds (xs ++ ys) = thinking_rounds xs + thinking_rounds ys.
Proof. unfold thinking_rounds. now rewrite List.filter_app, List.length_app. Qed.

Lemma thinking_rounds_answers (calls : list ToolCall) (payloads : list Content) :
  thinking_rounds (answers calls payloads) = 0.
Proof.
  unfold thinking_rounds, answers.
  induction (List.combine calls payloads) as [|cp rest IH]; [reflexivity|exact IH].
Qed.

Lemma thinking_rounds_bound (n : nat) (rounds : list Message) :
  tool_rounds n rounds -> thinking_rounds rounds <= n.
Proof.
  induction 1 as [|n c calls payloads rest Hcalls Hlen Hpay Hrest IH]; [reflexivity|].
  change (mkMessage assistant c calls None None :: answers calls payloads ++ rest)
    with ([mkMessage assistant c calls None None] ++ answers calls payloads ++ rest).
  rewrite !thinking_rounds_app, thinking_rounds_answers.
  unfold thinking_rounds at 1. simpl.
  destruct (thinks_aloud (mkMessage assistant c calls None None)); simpl; lia.
Qed.

Lemma thinking_rounds_round (text : option string) (toolCall : ToolCall)
    (rest : list ToolCall) (payloads : list Content) (rounds : list Message) :
  thinking_rounds
    (mkMessage assistant
       (match text with Some c => Text c | None => NoContent end)
       (toolCall :: rest) None None :: answers (toolCall :: rest) payloads ++ rounds) =
  (if match text with Some c => truthy_str (trim c) | None => false end
   then 1 else 0) + thinking_rounds rounds.
Proof.
  change (?m :: answers ?calls payloads ++ rounds)
    with ([m] ++ answers calls payloads ++ rounds).
  rewrite !thinking_rounds_app, thinking_rounds_answers.
  unfold thinking_rounds at 1. cbn [List.filter].
  destruct text as [c|]; [|reflexivity].
  change (thinks_aloud (mkMessage assistant (Text c) (toolCall :: rest) None None))
    with (truthy_str (trim c)).
  destruct (truthy_str (trim c)); reflexivity.
Qed.

Lemma iterate_shape (canEmit : bool) (formattedTools : list Tool)
    (provider : nat -> nat -> AttemptOutcome) :
  forall (remaining iterationCount : nat) (st : ServiceState),
  exists (st' : ServiceState) (r : result string) (n : nat) (rounds : list Message),
    iterate JSON_parse executeTool remaining iterationCount canEmit
      formattedTools provider st = Some (st', r) /\
    tool_rounds n rounds /\ n <= remaining /\
    (is_ok r = true -> n < remaining) /\
    cm_messages (contextManager st') =
      cm_messages (contextManager st) ++ rounds ++ final_message r /\
    cm_historyProvider (contextManager st') = cm_historyProvider (contextManager st) /\
    cm_sessionId (contextManager st') = cm_sessionId (contextManager st) /\
    events st' =
      events st ++
      (if canEmit
       then repeat LLM_THINKING (thinking_rounds rounds) ++ completed_event r
       else []).
Proof.
  induction remaining as [|remaining IH]; intros iterationCount st.
  - exists st, (Throw (ErrorObj "Maximum iterations exceeded")), 0, [].
    simpl. rewrite !List.app_nil_r.
    repeat split; try lia; try discriminate; try (now constructor).
    destruct canEmit; simpl; now rewrite List.app_nil_r.
  - cbn [iterate]. cbv zeta. rewrite retryLoop_unfold.
    destruct (match provider (S iterationCount) 1 with Replies m => Ok m | _ => _ end)
      as [message|e].
    2:{ exists st, (Throw e), 0, []. simpl. rewrite !List.app_nil_r.
        repeat split; try lia; try discriminate; try (now constructor).
        destruct canEmit; simpl; now rewrite List.app_nil_r. }
    assert (Hfinal :
      exists (st' : ServiceState) (r : result string) (n : nat) (rounds : list Message),
        Some (emit canEmit
                (LLM_RESPONSE_COMPLETED
                   (default EmptyString (field_if_truthy (m_content message))))
                (with_context
                   (addAssistantMessage (contextManager st)
                      (Text (default EmptyString (field_if_truthy (m_content message))))
                      []) st),
              Ok (default EmptyString (field_if_truthy (m_content message))))
          = Some (st', r) /\
        tool_rounds n rounds /\ n <= S remaining /\
        (is_ok r = true -> n < S remaining) /\
        cm_messages (contextManager st') =
          cm_messages (contextManager st) ++ rounds ++ final_message r /\
        cm_historyProvider (contextManager st') =
          cm_historyProvider (contextManager st) /\
        cm_sessionId (contextManager st') = cm_sessionId (contextManager st) /\
        events st' =
          events st ++
          (if canEmit
           then repeat LLM_THINKING (thinking_rounds rounds) ++ completed_event r
           else [])).
    { eexists. eexists. exists 0, []. split; [reflexivity|].
      rewrite emit_context, emit_events. simpl.
      repeat split; try lia; try (now constructor). }
    destruct (m_tool_calls message) as [[|toolCall rest]|]; try exact Hfinal.
    clear Hfinal.
    set (thinking := match m_content message with
                     | Some c => truthy_str (trim c)
                     | None => false
                     end).
    set (st1 := if thinking then emit canEmit LLM_THINKING st else st).
    set (announcement :=
           mkMessage assistant
             (match m_content message with Some c => Text c | None => NoContent end)
             (toolCall :: rest) None None).
    set (st2 := with_context
                  (addAssistantMessage (contextManager st1)
                     (match m_content message with
                      | Some c => Text c
                      | None => NoContent
                      end) (toolCall :: rest)) st1).
    destruct (handleToolCalls_shape (toolCall :: rest) st2)
      as (ps & Hl & Hp & Hm & Hh & Hs & He & _).
    cbv zeta in Hm, Hh, Hs, He.
    destruct (IH (S iterationCount)
                (handleToolCalls JSON_parse executeTool (toolCall :: rest) st2))
      as (st' & r & n & rounds & Hrun & Hr & Hn & Hok & Hmsg & Hhp & Hsid & Hev).
    assert (Hc1 : contextManager st1 = contextManager st).
    { subst st1. destruct thinking; [apply emit_context | reflexivity]. }
    assert (He1 : events st1 =
                  events st ++ (if (thinking && canEmit)%bool then [LLM_THINKING] else [])).
    { subst st1. destruct thinking; simpl.
      - apply emit_events.
      - now rewrite List.app_nil_r. }
    assert (Hcount : thinking_rounds
                       (announcement :: answers (toolCall :: rest) ps ++ rounds) =
                     (if thinking then 1 else 0) + thinking_rounds rounds).
    { apply thinking_rounds_round. }
    exists st', r, (S n),
      (announcement :: answers (toolCall :: rest) ps ++ rounds).
    split; [exact Hrun|].
    split; [constructor; [discriminate | exact Hl | exact Hp | exact Hr]|].
    split; [lia|].
    split; [intros Hr'; specialize (Hok Hr'); lia|].
    split.
    { rewrite Hmsg, Hm. subst st2 announcement. simpl. rewrite Hc1.
      rewrite <- !List.app_assoc. reflexivity. }
    split; [rewrite Hhp, Hh; subst st2; simpl; now rewrite Hc1|].
    split; [rewrite Hsid, Hs; subst st2; simpl; now rewrite Hc1|].
    rewrite Hev, He, Hcount. subst st2. simpl. rewrite He1.
    destruct thinking, canEmit; simpl; rewrite <- ?List.app_assoc, ?List.app_nil_r;
      reflexivity.
Qed.

(** X14.  [generate] always returns or throws, and whichever it does the
    transcript it leaves is well formed: the messages that were there, then
    the user message, then at most [maxIterations] tool rounds (an assistant
    message with tool calls followed by one answer per call), then the
    final assistant text exactly when a text is returned.  A returned text
    takes fewer than [maxIterations] tool rounds. *)
Theorem generate_leaves_wellformed_transcript
    (maxIterations : nat) (canEmit : bool) (formattedTools : list Tool)
    (provider : nat -> nat -> AttemptOutcome)
    (cm : ContextManager) (userInput : string) :
  exists (st : ServiceState) (r : result string) (n : nat) (rounds : list Message),
    generate JSON_parse executeTool maxIterations canEmit formattedTools
      provider cm userInput = Some (st, r) /\
    tool_rounds n rounds /\ n <= maxIterations /\
    (is_ok r = true -> n < maxIterations) /\
    cm_messages (contextManager st) =
      cm_messages cm ++ mkMessage user (Text userInput) [] None None ::
      rounds ++ final_message r /\
    cm_historyProvider (contextManager st) = cm_historyProvider cm /\
    cm_sessionId (contextManager st) = cm_sessionId cm.
Proof.
  unfold generate. cbv zeta.
  destruct (iterate_shape canEmit formattedTools provider maxIterations 0
              (emit canEmit LLM_RESPONSE_STARTED
                 (mkServiceState (addUserMessage cm userInput) [] [])))
    as (st & r & n & rounds & Hrun & Hr & Hn & Hok & Hmsg & Hhp & Hsid & _).
  exists st, r, n, rounds.
  rewrite emit_context in Hmsg, Hhp, Hsid. simpl in Hmsg, Hhp, Hsid.
  rewrite <- List.app_assoc in Hmsg.
  repeat split; assumption.
Qed.

(** X15.  The events of one [generate] call, read off the transcript it
    leaves.  Without an event manager or session id there are none.
    Otherwise LLM_RESPONSE_STARTED comes first; then one LLM_THINKING for
    each tool round of the transcript whose assistant message carries text
    that is not blank, and for no other round, so at most one per round;
    and LLM_RESPONSE_COMPLETED comes last, carrying the returned text,
    exactly when a text is returned.  When [generate] throws, no completion
    event is emitted. *)
Theorem generate_events
    (maxIterations : nat) (canEmit : bool) (formattedTools : list Tool)
    (provider : nat -> nat -> AttemptOutcome)
    (cm : ContextManager) (userInput : string) :
  exists (st : ServiceState) (r : result string) (n : nat) (rounds : list Message),
    generate JSON_parse executeTool maxIterations canEmit formattedTools
      provider cm userInput = Some (st, r) /\
    tool_rounds n rounds /\ n <= maxIterations /\
    cm_messages (contextManager st) =
      cm_messages cm ++ mkMessage user (Text userInput) [] None None ::
      rounds ++ final_message r /\
    thinking_rounds rounds <= n /\
    events st =
      (if canEmit
       then LLM_RESPONSE_STARTED ::
            repeat LLM_THINKING (thinking_rounds rounds) ++ completed_event r
       else []).
Proof.
  unfold generate. cbv zeta.
  destruct (iterate_shape canEmit formattedTools provider maxIterations 0
              (emit canEmit LLM_RESPONSE_STARTED
                 (mkServiceState (addUserMessage cm userInput) [] [])))
    as (st & r & n & rounds & Hrun & Hr & Hn & _ & Hmsg & _ & _ & Hev).
  exists st, r, n, rounds. split; [exact Hrun|]. split; [exact Hr|].
  split; [exact Hn|].
  rewrite emit_context in Hmsg. simpl in Hmsg. rewrite <- List.app_assoc in Hmsg.
  split; [exact Hmsg|].
  split; [now apply thinking_rounds_bound|].
  rewrite Hev, emit_events. destruct canEmit; reflexivity.
Qed.

End ToolRounds.

Lemma generate_leaves_wellformed_transcript_witness :
  exists (st : ServiceState) (r : result string) (n : nat) (rounds : list Message),
    generate parseArgs runTool 2 true [searchTool] steadyProvider
      secondTurnContext "and now?" = Some (st, r) /\
    tool_rounds n rounds /\ n <= 2 /\
    cm_messages (contextManager st) =
      turn ++ mkMessage user (Text "and now?") [] None None ::
      rounds ++ final_message r.
Proof.
  destruct (generate_leaves_wellformed_transcript parseArgs runTool 2 true
              [searchTool] steadyProvider secondTurnContext "and now?")
    as (st & r & n & rounds & Hrun & Hr & Hn & _ & Hmsg & _).
  exists st, r, n, rounds.
  split; [exact Hrun|]. split; [exact Hr|]. split; [exact Hn | exact Hmsg].
Defined.

(** ** Which attempt answers *)

(** X16.  The provider-call helper returns the message of the first
    attempt that gets one: if attempt [k] (1, 2 or 3) replies and every
    earlier attempt failed, the helper returns that reply after exactly [k]
    attempts, so after at most [k] provider calls, and no error of an
    earlier attempt is thrown.  It pauses [k - 1] times, each time for
    500 ms or 1000 ms, and the last thing it does is the request of
    attempt [k]. *)
Theorem first_reply_wins (tools : list Tool) (oracle : nat -> AttemptOutcome)
    (k : nat) (m : ProviderMessage) :
  1 <= k <= 3 ->
  oracle k = Replies m ->
  failed_before oracle k ->
  exists trace,
    getAIResponseWithRetries tools oracle = Some (trace, Ok m) /\
    provider_calls trace <= k /\
    List.length (List.filter (fun a => match a with Sleep _ => true | _ => false end)
                   trace) = k - 1 /\
    (forall ms, In (Sleep ms) trace -> ms = 500 \/ ms = 1000) /\
    List.last trace (Sleep 0) =
      ProviderCall k (if Nat.eqb k 1 then tools else [])
                     (if Nat.eqb k 1 then choice_auto else choice_none).
Proof.
  intros Hk Hreply Hfail.
  rewrite retryLoop_unfold. unfold schedule.
  assert (Hcases : k = 1 \/ k = 2 \/ k = 3) by lia.
  destruct Hcases as [-> | [-> | ->]].
  - rewrite Hreply. simpl. eexists. split; [reflexivity|].
    unfold provider_calls. simpl. repeat split; try lia.
    intros ms [H|[]]. discriminate.
  - pose proof (Hfail 1 ltac:(lia)) as H1.
    rewrite Hreply.
    destruct (oracle 1) as [e1|e1| |m1]; simpl in H1; try congruence;
      simpl; (eexists; split; [reflexivity|]);
      unfold provider_calls; simpl; repeat split; try lia;
      intros ms H;
      repeat match type of H with
             | _ \/ _ => destruct H as [H|H]
             | False => destruct H
             | Sleep _ = Sleep _ => injection H as <-; lia
             | _ = _ => discriminate H
             end.
  - pose proof (Hfail 1 ltac:(lia)) as H1.
    pose proof (Hfail 2 ltac:(lia)) as H2.
    rewrite Hreply.
    destruct (oracle 1) as [e1|e1| |m1]; simpl in H1; try congruence;
      destruct (oracle 2) as [e2|e2| |m2]; simpl in H2; try congruence;
      simpl; (eexists; split; [reflexivity|]);
      unfold provider_calls; simpl; repeat split; try lia;
      intros ms H;
      repeat match type of H with
             | _ \/ _ => destruct H as [H|H]
             | False => destruct H
             | Sleep _ = Sleep _ => injection H as <-; lia
             | _ = _ => discriminate H
             end.
Qed.

Lemma first_reply_wins_witness :
  (1 <= 3 <= 3 /\ flakyProvider 3 = Replies finalAnswer /\
   failed_before flakyProvider 3) /\
  exists trace,
    getAIResponseWithRetries [searchTool] flakyProvider = Some (trace, Ok finalAnswer).
Proof.
  assert (H1 : 1 <= 3 <= 3) by lia.
  assert (H2 : flakyProvider 3 = Replies finalAnswer) by reflexivity.
  assert (H3 : failed_before flakyProvider 3).
  { intros j Hj. assert (Hc : j = 1 \/ j = 2) by lia.
    destruct Hc as [->| ->]; simpl; discriminate. }
  split; [split; [exact H1 | split; [exact H2 | exact H3]]|].
  destruct (first_reply_wins [searchTool] flakyProvider 3 finalAnswer H1 H2 H3)
    as (trace & Hrun & _).
  exists trace. exact Hrun.
Defined.

(** ** The history provider of a session *)

(** X17.  Where a new session keeps its history, in a deployment without
    the multi-backend provider, whether or not the storage manager
    connects: nowhere when history is disabled; in the shared storage
    manager when one was passed, whatever [historyBackend] says; otherwise
    in the environment's database for the ['database'] backend and nowhere
    for the ['memory'] backend.  Asking for the provider leaves the (empty)
    transcript of the initialised session alone. *)
Theorem history_provider_of_a_new_session
    (env : Env) (services : Services) (sid : string)
    (options : option SessionOptions) (s : ConversationSession) :
  CIPHER_MULTI_BACKEND env = false ->
  init services (construct sid options) = Ok s ->
  exists s',
    getHistoryProviderLazy env s = s' /\
    _historyProvider s' = provider_for env options /\
    provider_on_storage s' /\
    transcript s' = [] /\ s_id s' = sid.
Proof.
  intros Hmulti. unfold init.
  destruct (getFormatterForProvider (llmProvider services)); [|discriminate].
  intros [= <-].
  unfold construct, provider_for, getHistoryProviderLazy, getStorageManagerLazy,
    provider_on_storage.
  destruct (connects env (env_store env)) eqn:Hconnect;
    destruct options as [[meta schema [[|]|] [[|]|] [shared|]]|];
    simpl; rewrite ?Hmulti; simpl; rewrite ?Hconnect; simpl;
    (eexists; split; [reflexivity|]; simpl;
     repeat split; try reflexivity; try (intros p; congruence)).
Qed.

Lemma history_provider_of_a_new_session_witness :
  (CIPHER_MULTI_BACKEND env0 = false /\
   init services0 (construct "s1" (Some memoryBackendOptions)) =
     Ok (mkSession "s1" (Some (mkContextManager [] (Some (DatabaseProvider 7)) "s1"))
           (Some (DatabaseProvider 7)) (Some 7)
           true backend_memory None false true false true)) /\
  exists s',
    getHistoryProviderLazy env0
      (mkSession "s1" (Some (mkContextManager [] (Some (DatabaseProvider 7)) "s1"))
         (Some (DatabaseProvider 7)) (Some 7)
         true backend_memory None false true false true) = s' /\
    _historyProvider s' = Some (DatabaseProvider 7).
Proof.
  assert (H1 : CIPHER_MULTI_BACKEND env0 = false) by reflexivity.
  assert (H2 : init services0 (construct "s1" (Some memoryBackendOptions)) =
               Ok (mkSession "s1" (Some (mkContextManager [] (Some (DatabaseProvider 7)) "s1"))
                     (Some (DatabaseProvider 7)) (Some 7) true backend_memory None
                     false true false true))
    by reflexivity.
  split; [split; [exact H1 | exact H2]|].
  destruct (history_provider_of_a_new_session env0 services0 "s1"
              (Some memoryBackendOptions) _ H1 H2) as (s' & Hrun & Hp & _).
  exists s'. split; [exact Hrun | exact Hp].
Defined.

(** X18.  What asking a session for its history provider does to it, in
    a deployment without the multi-backend provider.  Only the provider,
    the storage manager and the mark [_storageInitialized] can change;
    with history disabled the provider is left as it was, and a provider
    that sat on the session's storage manager still does.  The mark is
    left unset in one case only: storage was not initialised, history is
    enabled on the ['database'] backend, there was no storage manager and
    [connect()] was rejected; the new storage manager is kept all the
    same, and a session that had no provider gets one over it.  Asking
    again then does not connect again: the second call marks storage
    initialised, and from then on asking changes nothing.  When the first
    call sets the mark, the second already changes nothing. *)
Theorem getHistoryProviderLazy_settles (env : Env) (s : ConversationSession) :
  CIPHER_MULTI_BACKEND env = false ->
  exists s' s'',
    getHistoryProviderLazy env s = s' /\
    getHistoryProviderLazy env s' = s'' /\
    (s_id s' = s_id s /\ s_contextManager s' = s_contextManager s /\
     historyEnabled s' = historyEnabled s /\ historyBackend s' = historyBackend s /\
     sessionMemoryMetadata s' = sessionMemoryMetadata s /\
     hasMetadataSchema s' = hasMetadataSchema s /\
     _servicesInitialized s' = _servicesInitialized s) /\
    (historyEnabled s = false -> _historyProvider s' = _historyProvider s) /\
    (provider_on_storage s -> provider_on_storage s') /\
    (_storageInitialized s' = false <->
     _storageInitialized s = false /\ historyEnabled s = true /\
     historyBackend s = backend_database /\ _storageManager s = None /\
     connects env (env_store env) = false) /\
    (_storageInitialized s' = false ->
     _storageManager s' = Some (env_store env) /\
     (_historyProvider s = None ->
      _historyProvider s' = Some (DatabaseProvider (env_store env)))) /\
    (_storageInitialized s' = true -> s'' = s') /\
    _storageInitialized s'' = true /\
    _storageManager s'' = _storageManager s' /\
    (_historyProvider s = None -> _historyProvider s'' = _historyProvider s') /\
    getHistoryProviderLazy env s'' = s''.
Proof.
  intros Hmulti.
  destruct s as [sid cm hp sm en be meta schema si li st].
  unfold getHistoryProviderLazy, getStorageManagerLazy, provider_on_storage.
  destruct (connects env (env_store env)) eqn:Hconnect;
    destruct st, en, be, hp as [p|], sm as [m|];
    simpl; rewrite ?Hmulti; simpl; rewrite ?Hconnect; simpl;
    (eexists; eexists; split; [reflexivity|]; split; [reflexivity|]; simpl;
     rewrite ?Hmulti; simpl; rewrite ?Hconnect; simpl;
     repeat split; try reflexivity; try congruence;
     try (intros H q Hq;
          first [ congruence | exact (H q Hq) | discriminate (H q Hq) ]);
     try tauto; try (intros; intuition congruence)).
Qed.

Lemma getHistoryProviderLazy_settles_witness :
  CIPHER_MULTI_BACKEND offlineEnv = false /\
  exists s' s'',
    getHistoryProviderLazy offlineEnv (construct "s1" None) = s' /\
    getHistoryProviderLazy offlineEnv s' = s'' /\
    _storageInitialized s' = false /\
    _historyProvider s' = Some (DatabaseProvider 0) /\
    _storageInitialized s'' = true.
Proof.
  assert (H : CIPHER_MULTI_BACKEND offlineEnv = false) by reflexivity.
  split; [exact H|].
  destruct (getHistoryProviderLazy_settles offlineEnv (construct "s1" None) H)
    as (s' & s'' & Hrun & Hagain & _ & _ & _ & Hmark & Hkept & _ & Hset & _).
  exists s', s''. split; [exact Hrun|]. split; [exact Hagain|].
  assert (Hunset : _storageInitialized s' = false)
    by (apply Hmark; repeat split; reflexivity).
  split; [exact Hunset|].
  split; [exact (proj2 (Hkept Hunset) eq_refl) | exact Hset].
Defined.

(** ** Refreshing the transcript *)

(** X19.  After [refreshConversationHistory] on a session with history
    enabled, the context manager shows exactly what the history provider
    stores for the session; messages held only in memory are dropped, and
    when no provider can be had the transcript is left empty, since the
    context manager is cleared before the provider is looked for.  With
    history disabled the session is left untouched. *)
Theorem refresh_shows_exactly_the_stored_history
    (env : Env) (w : gmap (StoreId * string) (list Message))
    (s : ConversationSession) (cm : ContextManager) :
  CIPHER_MULTI_BACKEND env = false ->
  s_contextManager s = Some cm ->
  cm_sessionId cm = s_id s ->
  exists s',
    refreshConversationHistory env w s = s' /\
    (historyEnabled s = true ->
       transcript s' = stored_transcript w s' /\
       (_historyProvider s' = None -> transcript s' = [])) /\
    (historyEnabled s = false -> s' = s).
Proof.
  intros Hmulti Hcm Hsid.
  destruct s as [sid c hp sm en be meta schema si li st].
  simpl in Hcm, Hsid. subst c.
  destruct cm as [msgs chp csid]. simpl in Hsid. subst csid.
  unfold refreshConversationHistory, getHistoryProviderLazy, getStorageManagerLazy,
    transcript, stored_transcript, restoreHistory.
  destruct (connects env (env_store env)) eqn:Hconnect;
    destruct st, en, be, hp as [p|], sm as [m|];
    simpl; rewrite ?Hmulti; simpl; rewrite ?Hconnect; simpl;
    (eexists; split; [reflexivity|]; simpl;
     repeat split; try reflexivity; try congruence).
Qed.

Lemma refresh_shows_exactly_the_stored_history_witness :
  let unsaved := mkSession "s1" (Some (mkContextManager turn None "s1")) None None
                   true backend_memory None false true false false in
  (CIPHER_MULTI_BACKEND env0 = false /\
   s_contextManager unsaved = Some (mkContextManager turn None "s1") /\
   cm_sessionId (mkContextManager turn None "s1") = s_id unsaved) /\
  transcript unsaved = turn /\
  exists s', refreshConversationHistory env0 stores0 unsaved = s' /\
             transcript s' = [].
Proof.
  cbv zeta.
  set (unsaved := mkSession "s1" (Some (mkContextManager turn None "s1")) None None
                    true backend_memory None false true false false).
  assert (H1 : CIPHER_MULTI_BACKEND env0 = false) by reflexivity.
  assert (H2 : s_contextManager unsaved = Some (mkContextManager turn None "s1"))
    by reflexivity.
  assert (H3 : cm_sessionId (mkContextManager turn None "s1") = s_id unsaved)
    by reflexivity.
  split; [split; [exact H1 | split; [exact H2 | exact H3]]|].
  split; [reflexivity|].
  destruct (refresh_shows_exactly_the_stored_history env0 stores0 unsaved _ H1 H2 H3)
    as (s' & Hrun & Hen & _).
  exists s'. split; [exact Hrun|].
  destruct (Hen eq_refl) as [_ Hnone]. apply Hnone.
  rewrite <- Hrun. reflexivity.
Defined.

(** ** Restoring a serialized session *)

Lemma save_all_other_keys (ms : list Message) (p : StoreId) (sid : string)
    (key : StoreId * string) :
  key <> (p, sid) ->
  forall w : gmap (StoreId * string) (list Message),
    List.fold_left (fun w m => saveMessage w p sid m) ms w !! key = w !! key.
Proof.
  intros Hne. induction ms as [|m ms IH]; intros w; simpl.
  - reflexivity.
  - rewrite IH. unfold saveMessage. apply lookup_insert_ne. congruence.
Qed.

Lemma deserialize_settings (env : Env) (services : Services)
    (w : gmap (StoreId * string) (list Message)) (data : SerializedSession) :
  is_ok (getFormatterForProvider (llmProvider services)) = true ->
  CIPHER_MULTI_BACKEND env = false ->
  exists restored w',
    deserialize env services w data = Ok (restored, w') /\
    s_id restored = d_id data /\
    historyEnabled restored = m_historyEnabled (d_metadata data) /\
    historyBackend restored = m_historyBackend (d_metadata data) /\
    sessionMemoryMetadata restored = m_sessionMemoryMetadata (d_metadata data) /\
    hasMetadataSchema restored = false /\
    _servicesInitialized restored = true /\
    s_contextManager restored <> None /\
    (forall key, key <> (env_store env, d_id data) -> w' !! key = w !! key).
Proof.
  intros Hfmt Hmulti.
  unfold deserialize, init, construct. simpl.
  destruct (getFormatterForProvider (llmProvider services)) as [f|e];
    [|discriminate]. clear Hfmt. simpl.
  destruct (conversationHistory data) as [|m ms].
  - eexists. eexists. split; [reflexivity|]. simpl.
    repeat split; try reflexivity; discriminate.
  - unfold refreshConversationHistory, getHistoryProviderLazy,
      getStorageManagerLazy. simpl. rewrite ?Hmulti.
    destruct (connects env (env_store env)) eqn:Hconnect;
      destruct (m_historyEnabled (d_metadata data)),
               (m_historyBackend (d_metadata data)); simpl;
      rewrite ?Hmulti; simpl; rewrite ?Hconnect; simpl;
      (eexists; eexists; split; [reflexivity|]; simpl;
       repeat split; try reflexivity; try discriminate);
      intros key Hkey;
      rewrite (save_all_other_keys ms (env_store env) (d_id data) key Hkey);
      unfold saveMessage, clearHistory;
      (rewrite lookup_insert_ne by congruence);
      apply lookup_delete_ne; congruence.
Qed.

(** X20.  Round trip of the settings.  With a supported LLM provider and
    no multi-backend provider, deserializing the serialized record of any
    session yields an initialised session with the same id, history
    switch, history backend and session metadata.  The metadata-schema flag
    is not restored, nor is a shared storage manager: the restored session
    never has a schema.  Of the stored histories only the one of this
    session in the environment's database can change. *)
Theorem roundtrip_restores_settings_not_schema
    (CURRENT_VERSION : string) (clock : Z) (env : Env) (services : Services)
    (w : gmap (StoreId * string) (list Message)) (s : ConversationSession) :
  is_ok (getFormatterForProvider (llmProvider services)) = true ->
  CIPHER_MULTI_BACKEND env = false ->
  exists restored w',
    deserialize env services w (serialize CURRENT_VERSION clock w s)
      = Ok (restored, w') /\
    s_id restored = s_id s /\
    historyEnabled restored = historyEnabled s /\
    historyBackend restored = historyBackend s /\
    sessionMemoryMetadata restored = sessionMemoryMetadata s /\
    hasMetadataSchema restored = false /\
    _servicesInitialized restored = true /\
    s_contextManager restored <> None /\
    (forall key, key <> (env_store env, s_id s) -> w' !! key = w !! key).
Proof.
  intros Hfmt Hmulti.
  exact (deserialize_settings env services w (serialize CURRENT_VERSION clock w s)
           Hfmt Hmulti).
Qed.

Lemma roundtrip_restores_settings_not_schema_witness :
  let withSchema := mkSession "s1" (Some (mkContextManager turn (Some (DatabaseProvider 7)) "s1"))
                      (Some (DatabaseProvider 7)) (Some 7) true backend_database None
                      true true false true in
  (is_ok (getFormatterForProvider (llmProvider services0)) = true /\
   CIPHER_MULTI_BACKEND env0 = false) /\
  hasMetadataSchema withSchema = true /\
  exists restored w',
    deserialize env0 services0 stores0 (serialize "1" 1700000000000 stores0 withSchema)
      = Ok (restored, w') /\
    hasMetadataSchema restored = false.
Proof.
  cbv zeta.
  assert (H1 : is_ok (getFormatterForProvider (llmProvider services0)) = true)
    by reflexivity.
  assert (H2 : CIPHER_MULTI_BACKEND env0 = false) by reflexivity.
  split; [split; [exact H1 | exact H2]|]. split; [reflexivity|].
  destruct (roundtrip_restores_settings_not_schema "1" 1700000000000 env0 services0
              stores0
              (mkSession "s1" (Some (mkContextManager turn (Some (DatabaseProvider 7)) "s1"))
                 (Some (DatabaseProvider 7)) (Some 7) true backend_database None
                 true true false true)
              H1 H2)
    as (restored & w' & Hrun & _ & _ & _ & _ & Hschema & _).
  exists restored, w'. split; [exact Hrun | exact Hschema].
Defined.

(** X21.  A record without messages restores nothing and clears nothing:
    the stores are returned as they were and the restored session starts
    with an empty transcript, even when the database still holds a history
    under the session's id.  With history enabled on the ['database']
    backend that stale history is what the next lazy restoration loads. *)
Theorem empty_record_leaves_stale_history
    (env : Env) (services : Services)
    (w : gmap (StoreId * string) (list Message)) (data : SerializedSession) :
  is_ok (getFormatterForProvider (llmProvider services)) = true ->
  CIPHER_MULTI_BACKEND env = false ->
  conversationHistory data = [] ->
  exists restored,
    deserialize env services w data = Ok (restored, w) /\
    transcript restored = [] /\
    (m_historyEnabled (d_metadata data) = true ->
     m_historyBackend (d_metadata data) = backend_database ->
     exists later,
       restoreHistoryLazy env w restored = later /\
       transcript later = getHistory w (env_store env) (d_id data)).
Proof.
  intros Hfmt Hmulti Hconv.
  unfold deserialize, init, construct. simpl.
  destruct (getFormatterForProvider (llmProvider services)) as [f|e];
    [|discriminate]. clear Hfmt. simpl. rewrite Hconv.
  eexists. split; [reflexivity|]. split; [reflexivity|].
  intros Hen Hbe.
  unfold restoreHistoryLazy, getHistoryProviderLazy, getStorageManagerLazy.
  simpl. rewrite Hen, Hbe. simpl. rewrite Hmulti. simpl.
  destruct (connects env (env_store env)); simpl;
    (eexists; split; reflexivity).
Qed.

Lemma empty_record_leaves_stale_history_witness :
  let data := mkSerialized "s1"
                (mkSerializedMetadata 0 0 None true backend_database) [] false "1" 0 in
  let w := {[ (0, "s1"%string) := turn ]} : gmap (StoreId * string) (list Message) in
  (is_ok (getFormatterForProvider (llmProvider services0)) = true /\
   CIPHER_MULTI_BACKEND env0 = false /\
   conversationHistory data = []) /\
  exists restored later,
    deserialize env0 services0 w data = Ok (restored, w) /\
    restoreHistoryLazy env0 w restored = later /\
    transcript later = turn.
Proof.
  cbv zeta.
  assert (H1 : is_ok (getFormatterForProvider (llmProvider services0)) = true)
    by reflexivity.
  assert (H2 : CIPHER_MULTI_BACKEND env0 = false) by reflexivity.
  assert (H3 : conversationHistory
                 (mkSerialized "s1"
                    (mkSerializedMetadata 0 0 None true backend_database) [] false "1" 0)
               = []) by reflexivity.
  split; [split; [exact H1 | split; [exact H2 | exact H3]]|].
  destruct (empty_record_leaves_stale_history env0 services0
              ({[ (0, "s1"%string) := turn ]})
              (mkSerialized "s1"
                 (mkSerializedMetadata 0 0 None true backend_database) [] false "1" 0)
              H1 H2 H3)
    as (restored & Hrun & _ & Hlater).
  destruct (Hlater eq_refl eq_refl) as (later & Hl & Ht).
  exists restored, later. split; [exact Hrun|]. split; [exact Hl|].
  rewrite Ht. reflexivity.
Defined.

(** ** The interaction data of a turn *)

Lemma collectBackwards_skip (isCurrentUserMessage : Message -> bool)
    (skipped rest acc : list Message) :
  Forall (fun m => isCurrentUserMessage m = false) skipped ->
  collectBackwards isCurrentUserMessage false (skipped ++ rest) acc =
  collectBackwards isCurrentUserMessage false rest acc.
Proof.
  induction 1 as [|m ms Hm _ IH]; simpl; [reflexivity|].
  rewrite Hm. exact IH.
Qed.

Lemma collectBackwards_found (isCurrentUserMessage : Message -> bool)
    (earlier acc : list Message) :
  collectBackwards isCurrentUserMessage true earlier acc =
  trailing_replies earlier acc.
Proof.
  revert acc. induction earlier as [|m ms IH]; intros acc; simpl; [reflexivity|].
  destruct (isAssistantOrTool m); [apply IH | reflexivity].
Qed.

Lemma trailing_replies_spec (reversed acc : list Message) :
  exists taken left,
    reversed = taken ++ left /\
    trailing_replies reversed acc = List.rev taken ++ acc /\
    Forall (fun m => isAssistantOrTool m = true) taken /\
    (match left with [] => True | m :: _ => isAssistantOrTool m = false end).
Proof.
  revert acc. induction reversed as [|m ms IH]; intros acc; simpl.
  - exists [], []. repeat split. constructor.
  - destruct (isAssistantOrTool m) eqn:E.
    + destruct (IH (m :: acc)) as (taken & left & -> & Ht & Hall & Hleft).
      exists (m :: taken), left. simpl. rewrite Ht, <- List.app_assoc.
      repeat split; [constructor; assumption | exact Hleft].
    + exists [], (m :: ms). repeat split; [constructor | exact E].
Qed.

(** X22.  Which messages [extractComprehensiveInteractionData] takes for
    "the current interaction".  Walking the transcript backwards, it skips
    everything after the last message that matches the user input, and then
    collects the unbroken run of assistant and tool messages that comes
    before that message, in transcript order.  So no message that follows
    the matching user message is ever collected, and without a matching
    message nothing is. *)
Theorem currentInteractionMessages_precede_the_user_message
    (isCurrentUserMessage : Message -> bool)
    (before after : list Message) (userMessage : Message) :
  isCurrentUserMessage userMessage = true ->
  Forall (fun m => isCurrentUserMessage m = false) after ->
  exists taken left,
    before = left ++ taken /\
    currentInteractionMessages isCurrentUserMessage
      (before ++ userMessage :: after) = taken /\
    Forall (fun m => isAssistantOrTool m = true) taken /\
    (List.last left userMessage = userMessage \/
     isAssistantOrTool (List.last left userMessage) = false) /\
    currentInteractionMessages isCurrentUserMessage after = [].
Proof.
  intros Hu Hafter. unfold currentInteractionMessages.
  rewrite List.rev_app_distr. simpl. rewrite <- List.app_assoc. simpl.
  rewrite collectBackwards_skip by (apply List.Forall_rev; exact Hafter).
  simpl. rewrite Hu, collectBackwards_found.
  destruct (trailing_replies_spec (List.rev before) [])
    as (taken & left & Hsplit & Ht & Hall & Hleft).
  exists (List.rev taken), (List.rev left).
  split.
  { rewrite <- (List.rev_involutive before), Hsplit, List.rev_app_distr.
    reflexivity. }
  split; [rewrite Ht; apply List.app_nil_r|].
  split; [apply List.Forall_rev; exact Hall|].
  split.
  - destruct left as [|m ms]; [left; reflexivity|].
    right. simpl. rewrite List.last_last. exact Hleft.
  - rewrite <- (List.app_nil_r (List.rev after)).
    rewrite collectBackwards_skip by (apply List.Forall_rev; exact Hafter).
    reflexivity.
Qed.

Lemma tool_rounds_roles (n : nat) (rounds : list Message) :
  tool_rounds n rounds -> Forall (fun m => role m = assistant \/ role m = tool) rounds.
Proof.
  induction 1 as [|n c calls payloads rest _ _ _ _ IH]; [constructor|].
  constructor; [now left|].
  apply Forall_app. split; [|exact IH].
  unfold answers. apply List.Forall_forall. intros m Hm.
  apply in_map_iff in Hm as (cp & <- & _). now right.
Qed.

(** X23.  After a turn of [generate], the interaction data describe the
    wrong turn: what [extractComprehensiveInteractionData] collects from the
    transcript left by [generate] is made of messages that were already
    there before the turn (the assistant and tool messages that end the
    previous transcript); the tool calls and tool results of the turn that
    just ran are never among them.  This holds for any test of "the current
    user message" that accepts the message [generate] added and only accepts
    user messages. *)
Theorem interaction_data_misses_the_tools_of_the_turn
    (JSON_parse : string -> result string)
    (executeTool : nat -> string -> string -> result string)
    (isCurrentUserMessage : Message -> bool)
    (maxIterations : nat) (canEmit : bool) (formattedTools : list Tool)
    (provider : nat -> nat -> AttemptOutcome)
    (cm : ContextManager) (userInput : string) :
  isCurrentUserMessage (mkMessage user (Text userInput) [] None None) = true ->
  (forall m, isCurrentUserMessage m = true -> role m = user) ->
  exists (st : ServiceState) (r : result string) (added : list Message),
    generate JSON_parse executeTool maxIterations canEmit formattedTools
      provider cm userInput = Some (st, r) /\
    cm_messages (contextManager st) =
      cm_messages cm ++ mkMessage user (Text userInput) [] None None :: added /\
    currentInteractionMessages isCurrentUserMessage (cm_messages (contextManager st)) =
      trailing_replies (List.rev (cm_messages cm)) [] /\
    exists left,
      cm_messages cm =
      left ++ currentInteractionMessages isCurrentUserMessage
                (cm_messages (contextManager st)).
Proof.
  intros Hu Hrole.
  destruct (generate_total JSON_parse executeTool maxIterations canEmit
              formattedTools provider cm userInput) as (st & r & Hrun).
  pose proof Hrun as Hrun'. unfold generate in Hrun'. cbv zeta in Hrun'.
  destruct (iterate_shape JSON_parse executeTool canEmit formattedTools provider
              maxIterations 0
              (emit canEmit LLM_RESPONSE_STARTED
                 (mkServiceState (addUserMessage cm userInput) [] [])))
    as (st2 & r2 & n & rounds & Hrun2 & Hr & _ & _ & Hmsg & _).
  rewrite Hrun' in Hrun2. injection Hrun2 as <- <-.
  rewrite emit_context in Hmsg. simpl in Hmsg. rewrite <- List.app_assoc in Hmsg.
  simpl in Hmsg.
  exists st, r, (rounds ++ final_message r).
  split; [exact Hrun|]. split; [exact Hmsg|].
  assert (Hafter : Forall (fun m => isCurrentUserMessage m = false)
                     (rounds ++ final_message r)).
  { apply Forall_app. split.
    - apply tool_rounds_roles in Hr.
      eapply List.Forall_impl; [|exact Hr].
      intros m [Hm|Hm]; destruct (isCurrentUserMessage m) eqn:E; try reflexivity;
        apply Hrole in E; congruence.
    - destruct r as [text|e]; simpl; [|constructor].
      constructor; [|constructor].
      destruct (isCurrentUserMessage (mkMessage assistant (Text text) [] None None))
        eqn:E; [|reflexivity].
      apply Hrole in E. discriminate. }
  assert (Hcur : currentInteractionMessages isCurrentUserMessage
                   (cm_messages (contextManager st)) =
                 trailing_replies (List.rev (cm_messages cm)) []).
  { rewrite Hmsg. unfold currentInteractionMessages.
    rewrite List.rev_app_distr. simpl. rewrite <- List.app_assoc. simpl.
    rewrite collectBackwards_skip by (apply List.Forall_rev; exact Hafter).
    simpl. rewrite Hu. apply collectBackwards_found. }
  split; [exact Hcur|].
  rewrite Hcur.
  destruct (trailing_replies_spec (List.rev (cm_messages cm)) [])
    as (taken & left & Hsplit & Ht & _ & _).
  exists (List.rev left). rewrite Ht, List.app_nil_r.
  rewrite <- (List.rev_involutive (cm_messages cm)), Hsplit, List.rev_app_distr.
  reflexivity.
Qed.

Lemma currentInteractionMessages_precede_the_user_message_witness :
  let question := mkMessage user (Text "and now?") [] None None in
  let answer := mkMessage assistant (Text "done") [] None None in
  (isUserText "and now?" question = true /\
   Forall (fun m => isUserText "and now?" m = false) [answer]) /\
  exists taken left,
    turn = left ++ taken /\
    currentInteractionMessages (isUserText "and now?") (turn ++ question :: [answer])
      = taken.
Proof.
  cbv zeta.
  assert (H1 : isUserText "and now?" (mkMessage user (Text "and now?") [] None None)
               = true) by reflexivity.
  assert (H2 : Forall (fun m => isUserText "and now?" m = false)
                 [mkMessage assistant (Text "done") [] None None])
    by (constructor; [reflexivity | constructor]).
  split; [split; [exact H1 | exact H2]|].
  destruct (currentInteractionMessages_precede_the_user_message
              (isUserText "and now?") turn
              [mkMessage assistant (Text "done") [] None None]
              (mkMessage user (Text "and now?") [] None None) H1 H2)
    as (taken & left & Hsplit & Hcur & _).
  exists taken, left. split; [exact Hsplit | exact Hcur].
Defined.

Lemma interaction_data_misses_the_tools_of_the_turn_witness :
  (isUserText "and now?" (mkMessage user (Text "and now?") [] None None) = true /\
   (forall m, isUserText "and now?" m = true -> role m = user)) /\
  exists st r added,
    generate parseArgs runTool 2 true [searchTool] steadyProvider
      secondTurnContext "and now?" = Some (st, r) /\
    cm_messages (contextManager st) =
      turn ++ mkMessage user (Text "and now?") [] None None :: added /\
    currentInteractionMessages (isUserText "and now?")
      (cm_messages (contextManager st)) =
      trailing_replies (List.rev turn) [].
Proof.
  assert (H1 : isUserText "and now?" (mkMessage user (Text "and now?") [] None None)
               = true) by reflexivity.
  assert (H2 : forall m, isUserText "and now?" m = true -> role m = user).
  { intros m. unfold isUserText. destruct (role m); [reflexivity | | |]; discriminate. }
  split; [split; [exact H1 | exact H2]|].
  destruct (interaction_data_misses_the_tools_of_the_turn parseArgs runTool
              (isUserText "and now?") 2 true [searchTool] steadyProvider
              secondTurnContext "and now?" H1 H2)
    as (st & r & added & Hrun & Hmsg & Hcur & _).
  exists st, r, added. split; [exact Hrun|]. split; [exact Hmsg | exact Hcur].
Defined.

(** ** Background work: which flags and answers matter *)

Ltac absent_from_log H :=
  simpl in H;
  repeat match type of H with
         | _ \/ _ => destruct H as [H|H]
         | False => destruct H
         | _ = _ => discriminate H
         end.

Ltac log_entry_cases H :=
  simpl in H; rewrite ?in_app_iff in H; simpl in H;
  repeat match type of H with
         | _ \/ _ => destruct H as [H|H]
         | False => destruct H
         end;
  first [ left; exact H
        | right; rewrite <- H; unfold reflection_messages; simpl; tauto ].

Lemma reflection_log_entries (flags : Flags) (hasToolManager : bool)
    (allTools : list string) (o : ReflectionOracle)
    (l : list LogEntry) (x : LogEntry) :
  In x (enforceReflectionMemoryProcessing flags hasToolManager allTools o l).1 ->
  In x l \/ In x reflection_messages.
Proof.
  destruct flags as [de ed uw dd dr].
  destruct o as [det detect extract create evaluate store].
  unfold enforceReflectionMemoryProcessing. cbn [DISABLE_EMBEDDINGS EMBEDDING_DISABLED
    DISABLE_REFLECTION_MEMORY detectorAvailable detectReasoningContent
    extractReasoningSteps createEvalService evaluateReasoning storeReasoningMemory].
  intros H.
  destruct hasToolManager; [|log_entry_cases H].
  destruct de; [log_entry_cases H|].
  destruct ed; [log_entry_cases H|].
  destruct (existsb (String.eqb "cipher_extract_reasoning_steps") allTools);
    [|log_entry_cases H].
  destruct (existsb (String.eqb "cipher_store_reasoning_memory") allTools);
    [|log_entry_cases H].
  destruct dr; [log_entry_cases H|].
  destruct det; [|log_entry_cases H].
  destruct detect as [[|]|e]; [|log_entry_cases H|log_entry_cases H].
  destruct extract as [[[[|] [|n]]|]|e]; try (log_entry_cases H).
  destruct create as [[]|e]; [|log_entry_cases H].
  destruct evaluate as [[[|]|]|e]; try (log_entry_cases H).
  destruct store as [[stored|]|e]; log_entry_cases H.
Qed.

(** X24.  When the default memory tool is called.  Memory extraction calls
    [cipher_extract_and_operate_memory] exactly when embeddings are enabled
    (environment and embedding manager), the tool manager is present, the
    interaction data and the session metadata can be had, and it is not the
    case that [USE_WORKSPACE_MEMORY] and [DISABLE_DEFAULT_MEMORY] are both
    set.  [DISABLE_DEFAULT_MEMORY] on its own does not stop the call, and
    neither does a failure of the workspace tool. *)
Theorem default_memory_tool_is_called_iff
    (flags : Flags) (em : option EmbeddingManager) (o : MemoryOracle) :
  default_memory_tool_called (enforceMemoryExtraction flags em o []).1
  <->
  (DISABLE_EMBEDDINGS flags = false /\ EMBEDDING_DISABLED flags = false /\
   embeddingManagerDisabled em = Ok false /\ hasUnifiedToolManager o = true /\
   is_ok (interactionData o) = true /\ is_ok (sessionMetadata o) = true /\
   (USE_WORKSPACE_MEMORY flags && DISABLE_DEFAULT_MEMORY flags)%bool = false).
Proof.
  destruct flags as [de ed uw dd dr].
  destruct o as [htm idata smeta ws eo tools refl].
  unfold default_memory_tool_called, enforceMemoryExtraction.
  cbn [DISABLE_EMBEDDINGS EMBEDDING_DISABLED
    USE_WORKSPACE_MEMORY DISABLE_DEFAULT_MEMORY hasUnifiedToolManager
    interactionData sessionMetadata workspaceStore extractAndOperateMemory
    getAllTools reflection].
  split.
  - intros H.
    destruct (embeddingManagerDisabled em) as [[|]|e];
      [destruct de, ed; destruct H as [H|H]; absent_from_log H
      |
      |destruct de, ed; destruct H as [H|H]; absent_from_log H].
    destruct de; [destruct H as [H|H]; absent_from_log H|].
    destruct ed; [destruct H as [H|H]; absent_from_log H|].
    destruct htm; [|destruct H as [H|H]; absent_from_log H].
    destruct idata as [d|e]; [|destruct H as [H|H]; absent_from_log H].
    destruct smeta as [[]|e]; [|destruct H as [H|H]; absent_from_log H].
    destruct uw, dd; try (repeat split; reflexivity).
    exfalso.
    destruct ws as [[wr|]|we]; try (solve [destruct H as [H|H]; absent_from_log H]);
      destruct tools as [ts|te]; try (solve [destruct H as [H|H]; absent_from_log H]).
    unfold bind, try_catch, log, await, ret in H. simpl in H.
    revert H.
    destruct (enforceReflectionMemoryProcessing
                (mkFlags false false true true dr) true ts refl _) as [l' r] eqn:E.
    intros H.
    assert (Hin : forall x, In x l' ->
              In x [LogDebug "ConversationSession.enforceMemoryExtraction called";
                    LogDebug "Enforcing memory extraction for interaction";
                    LogDebug "Memory tools to execute";
                    LogDebug "cipher_workspace_store executed successfully";
                    LogDebug "Memory extraction completed"] \/
              In x reflection_messages).
    { intros x Hx.
      match type of E with
      | enforceReflectionMemoryProcessing ?f ?h ?t ?o ?l = _ =>
          apply (reflection_log_entries f h t o l x)
      end.
      rewrite E. exact Hx. }
    assert (Hl : In (LogDebug "cipher_extract_and_operate_memory executed successfully") l' \/
                 In (LogDebug "cipher_extract_and_operate_memory execution failed") l').
    { destruct r; simpl in H; rewrite ?in_app_iff in H; simpl in H;
        intuition discriminate. }
    destruct Hl as [Hl|Hl]; apply Hin in Hl;
      unfold reflection_messages in Hl; simpl in Hl; intuition discriminate.
  - intros (Hde & Hed & Hem & Hhtm & Hi & Hs & Hflags).
    simpl in Hde, Hed, Hhtm, Hi, Hs, Hflags. subst de ed htm. rewrite Hem.
    destruct idata as [d|e]; [|discriminate].
    destruct smeta as [[]|e]; [|discriminate].
    assert (Hgrow : forall l0 ts x, In x l0 ->
              In x (match enforceReflectionMemoryProcessing
                            (mkFlags false false uw dd dr) true ts refl l0 with
                    | (l', Ok a) => (l', Ok a)
                    | (l', Throw e) =>
                        (l' ++ [LogError ("Memory extraction failed: " ++ errorMessage e)],
                         Ok tt)
                    end).1).
    { intros l0 ts x Hx.
      destruct (never_throws_enforceReflectionMemoryProcessing
                  (mkFlags false false uw dd dr) true ts refl l0) as (entries & a & ->).
      simpl. apply in_or_app. now left. }
    destruct uw, dd; try discriminate;
      destruct ws as [[wr|]|we]; destruct eo as [[er|]|ee];
      destruct tools as [ts|te];
      unfold bind, try_catch, log, await, ret, runMemoryTool; simpl;
      first [ left; simpl; tauto
            | right; simpl; tauto
            | left; apply Hgrow; simpl; tauto
            | right; apply Hgrow; simpl; tauto ].
Qed.


Lemma default_memory_tool_is_called_iff_witness :
  default_memory_tool_called (enforceMemoryExtraction flags0 None workingMemory []).1 /\
  hasUnifiedToolManager workingMemory = true.
Proof.
  assert (H : default_memory_tool_called
                (enforceMemoryExtraction flags0 None workingMemory []).1)
    by (left; vm_compute; tauto).
  split; [exact H|].
  pose proof (proj1 (default_memory_tool_is_called_iff flags0 None workingMemory) H)
    as Hc.
  exact (proj1 (proj2 (proj2 (proj2 Hc)))).
Defined.

(** X25.  The reflection pipeline stores a reasoning trace only at the end
    of the whole chain.  The storage step reports completion exactly when:
    embeddings are not disabled by the environment, the tool manager and
    both reflection tools are there, reflection memory is not force
    disabled, the reasoning detector exists and finds reasoning in the user
    input, extraction succeeds with at least one step, the evaluation
    service can be built and the evaluation says [shouldStore], and the
    storage tool returns a result. *)
Theorem reflection_stores_only_after_the_whole_chain
    (flags : Flags) (hasToolManager : bool) (allTools : list string)
    (o : ReflectionOracle) :
  In (LogDebug "Reflection memory storage completed")
     (enforceReflectionMemoryProcessing flags hasToolManager allTools o []).1
  <->
  (DISABLE_EMBEDDINGS flags = false /\ EMBEDDING_DISABLED flags = false /\
   DISABLE_REFLECTION_MEMORY flags = false /\ hasToolManager = true /\
   existsb (String.eqb "cipher_extract_reasoning_steps") allTools = true /\
   existsb (String.eqb "cipher_store_reasoning_memory") allTools = true /\
   detectorAvailable o = true /\ detectReasoningContent o = Ok true /\
   (exists n, extractReasoningSteps o = Ok (Some (true, S n))) /\
   createEvalService o = Ok tt /\ evaluateReasoning o = Ok (Some true) /\
   (exists stored, storeReasoningMemory o = Ok (Some stored))).
Proof.
  destruct flags as [de ed uw dd dr].
  destruct o as [det detect extract create evaluate store].
  unfold enforceReflectionMemoryProcessing. cbn [DISABLE_EMBEDDINGS EMBEDDING_DISABLED
    DISABLE_REFLECTION_MEMORY detectorAvailable detectReasoningContent
    extractReasoningSteps createEvalService evaluateReasoning storeReasoningMemory].
  split.
  - intros H.
    destruct hasToolManager; [|absent_from_log H].
    destruct de; [absent_from_log H|].
    destruct ed; [absent_from_log H|].
    destruct (existsb (String.eqb "cipher_extract_reasoning_steps") allTools);
      [|absent_from_log H].
    destruct (existsb (String.eqb "cipher_store_reasoning_memory") allTools);
      [|absent_from_log H].
    destruct dr; [absent_from_log H|].
    destruct det; [|absent_from_log H].
    destruct detect as [[|]|e]; [|absent_from_log H|absent_from_log H].
    destruct extract as [[[[|] [|n]]|]|e]; try (absent_from_log H).
    destruct create as [[]|e]; [|absent_from_log H].
    destruct evaluate as [[[|]|]|e]; try (absent_from_log H).
    destruct store as [[stored|]|e]; try (absent_from_log H).
    repeat split; try reflexivity; eexists; reflexivity.
  - intros (-> & -> & -> & -> & -> & -> & -> & -> & [n ->] & -> & -> & [stored ->]).
    simpl. auto 10.
Qed.

Lemma reflection_stores_only_after_the_whole_chain_witness :
  In (LogDebug "Reflection memory storage completed")
     (enforceReflectionMemoryProcessing flags0 true reflectionTools
        thoroughReflection []).1 /\
  evaluateReasoning thoroughReflection = Ok (Some true).
Proof.
  assert (H : In (LogDebug "Reflection memory storage completed")
                (enforceReflectionMemoryProcessing flags0 true reflectionTools
                   thoroughReflection []).1)
    by (vm_compute; tauto).
  split; [exact H|].
  pose proof (proj1 (reflection_stores_only_after_the_whole_chain flags0 true
                       reflectionTools thoroughReflection) H) as Hc.
  exact (proj1 (proj2 (proj2 (proj2 (proj2 (proj2 (proj2 (proj2 (proj2 (proj2
           (proj2 Hc))))))))))).
Defined.

(** X26.  Reflection processing is only reached through a successful
    knowledge-memory step: it is entered only when embeddings are enabled
    (environment and embedding manager), the tool manager is present, the
    interaction data, the session metadata and the tool list can be had, at
    least one memory tool returned a result, and no memory tool that
    returned handed back [undefined]. *)
Theorem reflection_needs_a_memory_result
    (flags : Flags) (em : option EmbeddingManager) (o : MemoryOracle) :
  In (LogDebug "Enforcing reflection memory processing")
     (enforceMemoryExtraction flags em o []).1 ->
  DISABLE_EMBEDDINGS flags = false /\ EMBEDDING_DISABLED flags = false /\
  embeddingManagerDisabled em = Ok false /\ hasUnifiedToolManager o = true /\
  is_ok (interactionData o) = true /\ is_ok (sessionMetadata o) = true /\
  is_ok (getAllTools o) = true /\
  ((USE_WORKSPACE_MEMORY flags = true /\
    exists report, workspaceStore o = Ok (Some report)) \/
   ((USE_WORKSPACE_MEMORY flags && DISABLE_DEFAULT_MEMORY flags)%bool = false /\
    exists report, extractAndOperateMemory o = Ok (Some report))) /\
  (USE_WORKSPACE_MEMORY flags = true -> workspaceStore o <> Ok None) /\
  ((USE_WORKSPACE_MEMORY flags && DISABLE_DEFAULT_MEMORY flags)%bool = false ->
   extractAndOperateMemory o <> Ok None).
Proof.
  destruct flags as [de ed uw dd dr].
  destruct o as [htm idata smeta ws eo tools refl].
  unfold enforceMemoryExtraction. cbn [DISABLE_EMBEDDINGS EMBEDDING_DISABLED
    USE_WORKSPACE_MEMORY DISABLE_DEFAULT_MEMORY hasUnifiedToolManager
    interactionData sessionMetadata workspaceStore extractAndOperateMemory
    getAllTools reflection].
  intros H.
  destruct (embeddingManagerDisabled em) as [[|]|e];
    [destruct de, ed; absent_from_log H | | destruct de, ed; absent_from_log H].
  destruct de; [absent_from_log H|].
  destruct ed; [absent_from_log H|].
  destruct htm; [|absent_from_log H].
  destruct idata as [d|e]; [|absent_from_log H].
  destruct smeta as [[]|e]; [|absent_from_log H].
  destruct uw, dd;
    destruct ws as [[wr|]|we]; destruct eo as [[er|]|ee];
    try (absent_from_log H);
    destruct tools as [ts|te]; try (absent_from_log H);
    (repeat split; try reflexivity; try discriminate;
     first [ left; split; [reflexivity | eexists; reflexivity]
           | right; split; [reflexivity | eexists; reflexivity] ]).
Qed.

Lemma reflection_needs_a_memory_result_witness :
  In (LogDebug "Enforcing reflection memory processing")
     (enforceMemoryExtraction flags0 None workingMemory []).1 /\
  is_ok (getAllTools workingMemory) = true.
Proof.
  assert (H : In (LogDebug "Enforcing reflection memory processing")
                (enforceMemoryExtraction flags0 None workingMemory []).1)
    by (vm_compute; tauto).
  split; [exact H|].
  pose proof (reflection_needs_a_memory_result flags0 None workingMemory H) as Hc.
  exact (proj1 (proj2 (proj2 (proj2 (proj2 (proj2 (proj2 Hc))))))).
Defined.

(** ** Background work: failures are logged *)

Ltac settle_reflection :=
  repeat match goal with
         | |- context [enforceReflectionMemoryProcessing ?f ?h ?t ?o ?l0] =>
             destruct (never_throws_enforceReflectionMemoryProcessing f h t o l0)
               as (? & [] & ->)
         end.

(** What [enforceMemoryExtraction] writes when the knowledge pipeline is
    reached and a collaborator throws. *)
Lemma enforceMemoryExtraction_logs_failures
    (flags : Flags) (em : option EmbeddingManager) (o : MemoryOracle)
    (l : list LogEntry) :
  embeddingManagerDisabled em = Ok false ->
  DISABLE_EMBEDDINGS flags = false -> EMBEDDING_DISABLED flags = false ->
  hasUnifiedToolManager o = true ->
  exists entries,
    enforceMemoryExtraction flags em o l = (l ++ entries, Ok tt) /\
    (forall e, interactionData o = Throw e ->
       In (LogError ("Memory extraction failed: " ++ errorMessage e)) entries) /\
    (forall e, is_ok (interactionData o) = true -> sessionMetadata o = Throw e ->
       In (LogError ("Memory extraction failed: " ++ errorMessage e)) entries) /\
    (forall e, is_ok (interactionData o) = true -> is_ok (sessionMetadata o) = true ->
       USE_WORKSPACE_MEMORY flags = true -> workspaceStore o = Throw e ->
       In (LogDebug "cipher_workspace_store execution failed") entries) /\
    (forall e, is_ok (interactionData o) = true -> is_ok (sessionMetadata o) = true ->
       (USE_WORKSPACE_MEMORY flags && DISABLE_DEFAULT_MEMORY flags)%bool = false ->
       extractAndOperateMemory o = Throw e ->
       In (LogDebug "cipher_extract_and_operate_memory execution failed") entries).
Proof.
  destruct flags as [de ed uw dd dr].
  destruct o as [htm idata smeta ws eo tools refl].
  cbn [DISABLE_EMBEDDINGS EMBEDDING_DISABLED
    USE_WORKSPACE_MEMORY DISABLE_DEFAULT_MEMORY hasUnifiedToolManager
    interactionData sessionMetadata workspaceStore extractAndOperateMemory
    getAllTools reflection].
  intros Hem -> -> ->.
  unfold enforceMemoryExtraction.
  cbn [DISABLE_EMBEDDINGS EMBEDDING_DISABLED
    USE_WORKSPACE_MEMORY DISABLE_DEFAULT_MEMORY hasUnifiedToolManager
    interactionData sessionMetadata workspaceStore extractAndOperateMemory
    getAllTools reflection].
  unfold bind at 1 2 3. unfold await at 1. rewrite Hem.
  destruct idata as [d|e0]; destruct smeta as [[]|e1];
    destruct uw, dd; destruct ws as [[wr|]|we]; destruct eo as [[er|]|ee];
    destruct tools as [ts|te];
    unfold bind, try_catch, log, await, ret, throw, runMemoryTool; simpl;
    settle_reflection;
    (eexists; split; [rewrite <- ?List.app_assoc; reflexivity|]);
    (split; [|split; [|split]]); intros e; intros;
    try discriminate;
    repeat match goal with H : Throw _ = Throw _ |- _ => injection H as -> end;
    simpl; rewrite ?in_app_iff; simpl; tauto.
Qed.

(** X30.  When the embedding manager answers its status questions, the
    background promise of a turn resolves and the callback has logged by
    then.  When the knowledge pipeline is reached, a collaborator that
    throws leaves its line in the log: the interaction data and the
    session metadata as ["Memory extraction failed: <message>"], a memory
    tool as ["<tool> execution failed"]; the callback still reports
    completion, and the reflection pipeline returns normally whatever its
    collaborators do. *)
Theorem background_work_resolves_and_logs_failures
    (flags : Flags) (em : option EmbeddingManager) (o : MemoryOracle)
    (d : bool) (l : list LogEntry) :
  embeddingManagerDisabled em = Ok d ->
  exists entries,
    backgroundOperations flags em o l = (l ++ entries, Resolved) /\
    entries <> [] /\
    (forall allTools l',
        exists written,
          enforceReflectionMemoryProcessing flags (hasUnifiedToolManager o) allTools
            (reflection o) l' = (l' ++ written, Ok tt)) /\
    ((DISABLE_EMBEDDINGS flags || EMBEDDING_DISABLED flags || d)%bool = false ->
     In (LogDebug "Background memory operations completed successfully") entries /\
     (hasUnifiedToolManager o = true ->
      (forall e, interactionData o = Throw e ->
         In (LogError ("Memory extraction failed: " ++ errorMessage e)) entries) /\
      (forall e, is_ok (interactionData o) = true -> sessionMetadata o = Throw e ->
         In (LogError ("Memory extraction failed: " ++ errorMessage e)) entries) /\
      (forall e, is_ok (interactionData o) = true -> is_ok (sessionMetadata o) = true ->
         USE_WORKSPACE_MEMORY flags = true -> workspaceStore o = Throw e ->
         In (LogDebug "cipher_workspace_store execution failed") entries) /\
      (forall e, is_ok (interactionData o) = true -> is_ok (sessionMetadata o) = true ->
         (USE_WORKSPACE_MEMORY flags && DISABLE_DEFAULT_MEMORY flags)%bool = false ->
         extractAndOperateMemory o = Throw e ->
         In (LogDebug "cipher_extract_and_operate_memory execution failed") entries))).
Proof.
  intros Hd.
  assert (Hrefl : forall allTools l',
            exists written,
              enforceReflectionMemoryProcessing flags (hasUnifiedToolManager o) allTools
                (reflection o) l' = (l' ++ written, Ok tt)).
  { intros allTools l'.
    destruct (never_throws_enforceReflectionMemoryProcessing flags
                (hasUnifiedToolManager o) allTools (reflection o) l') as (w & [] & ->).
    now exists w. }
  unfold backgroundOperations, backgroundCallback, bind, await. cbv zeta. rewrite Hd.
  destruct (DISABLE_EMBEDDINGS flags || EMBEDDING_DISABLED flags || d)%bool eqn:Hoff.
  - exists [LogDebug "Skipping all background memory operations - embeddings disabled"].
    split; [reflexivity|]. split; [discriminate|]. split; [exact Hrefl|discriminate].
  - unfold log at 1. unfold try_catch, bind.
    destruct (never_throws_enforceMemoryExtraction flags em o
                (l ++ [LogDebug "Starting background memory operations"]))
      as (es & [] & Hes).
    rewrite Hes. unfold log, ret.
    exists ([LogDebug "Starting background memory operations"] ++ es ++
            [LogDebug "Background memory operations completed successfully"]).
    split; [now rewrite <- !List.app_assoc|].
    split; [discriminate|]. split; [exact Hrefl|]. intros _.
    split; [simpl; right; apply in_or_app; right; now left|].
    intros Htm.
    apply orb_false_iff in Hoff. destruct Hoff as [Hoff Hd'].
    apply orb_false_iff in Hoff. destruct Hoff as [Hde Hed]. subst d.
    destruct (enforceMemoryExtraction_logs_failures flags em o
                (l ++ [LogDebug "Starting background memory operations"])
                Hd Hde Hed Htm) as (es' & Hes' & H1 & H2 & H3 & H4).
    rewrite Hes in Hes'. injection Hes' as Hes'. apply List.app_inv_head in Hes'.
    subst es'.
    assert (Hin : forall x, In x es ->
              In x ([LogDebug "Starting background memory operations"] ++ es ++
                    [LogDebug "Background memory operations completed successfully"])).
    { intros x Hx. simpl. right. apply in_or_app. now left. }
    repeat split; intros; apply Hin; eauto.
Qed.

Lemma background_work_resolves_and_logs_failures_witness :
  embeddingManagerDisabled (Some healthyEmbeddings) = Ok false /\
  exists entries,
    backgroundOperations flags0 (Some healthyEmbeddings) failingMemory [] =
      ([] ++ entries, Resolved) /\
    In (LogError "Memory extraction failed: history unavailable") entries.
Proof.
  assert (H : embeddingManagerDisabled (Some healthyEmbeddings) = Ok false)
    by reflexivity.
  split; [exact H|].
  destruct (background_work_resolves_and_logs_failures flags0 (Some healthyEmbeddings)
              failingMemory false [] H) as (entries & Hrun & _ & _ & Hlog).
  exists entries. split; [exact Hrun|].
  destruct (Hlog eq_refl) as (_ & Hfail).
  destruct (Hfail eq_refl) as (Hdata & _).
  exact (Hdata (ErrorObj "history unavailable") eq_refl).
Defined.

(** ** Query rewriting *)

Lemma keepQueries_In (matches : list (option string)) (query : string) :
  In query (keepQueries matches) ->
  In (Some query) matches /\ 3 <= String.length query.
Proof.
  induction matches as [|[q|] rest IH]; cbn [keepQueries]; [intros [] | |].
  - destruct (Nat.leb 3 (String.length q)) eqn:E.
    + intros [<-|H]; [split; [now left | now apply Nat.leb_le]|].
      destruct (IH H). split; [now right | assumption].
    + intros H. destruct (IH H). split; [now right | assumption].
  - intros H. destruct (IH H). split; [now right | assumption].
Qed.

(** X27.  [rewriteUserQuery] always hands back at least one query and never
    the same query twice.  When the LLM call fails or nothing can be parsed
    from its reply the single query is the original input; otherwise every
    query has at least three characters and was read off a non-blank line
    of the reply. *)
Theorem rewriteUserQuery_nonempty_and_duplicate_free
    (queryOfLine : string -> option string)
    (originalInput : string) (reply : result string) :
  let queries := rewriteUserQuery queryOfLine originalInput reply in
  queries <> [] /\ List.NoDup queries /\
  (queries = [originalInput] \/
   exists rewriteResponse,
     reply = Ok rewriteResponse /\
     forall query, In query queries ->
       3 <= String.length query /\
       exists line,
         In line (splitLines rewriteResponse EmptyString) /\
         trim line <> EmptyString /\
         queryOfLine (trim line) = Some query).
Proof.
  cbv zeta. unfold rewriteUserQuery.
  destruct reply as [rewriteResponse|e].
  2:{ split; [discriminate|]. split; [|now left].
      constructor; [intros []|constructor]. }
  destruct (parsedQueries queryOfLine rewriteResponse) as [|q qs] eqn:E.
  { split; [discriminate|]. split; [|now left].
    constructor; [intros []|constructor]. }
  rewrite <- E. split; [rewrite E; discriminate|].
  unfold parsedQueries. cbv zeta.
  match goal with |- context [set_of [] ?xs] =>
    destruct (set_of_spec xs []) as [Hnd Hin] end.
  split; [exact Hnd|].
  right. exists rewriteResponse. split; [reflexivity|].
  intros query Hq. apply Hin in Hq as [Hq _].
  apply keepQueries_In in Hq as [Hq Hlen]. split; [exact Hlen|].
  apply in_map_iff in Hq as (line & Hquery & Hline).
  apply filter_In in Hline as [Hline Hnonempty].
  apply in_map_iff in Hline as (raw & <- & Hraw).
  exists raw. split; [exact Hraw|]. split; [|exact Hquery].
  intros Hblank. rewrite Hblank in Hnonempty. discriminate.
Qed.

Lemma rewriteUserQuery_nonempty_and_duplicate_free_witness :
  rewriteUserQuery wholeLine "original question" (Ok twoLines)
    = ["first query"; "second query"] /\
  List.NoDup (rewriteUserQuery wholeLine "original question" (Ok twoLines)).
Proof.
  split; [reflexivity|].
  exact (proj1 (proj2 (rewriteUserQuery_nonempty_and_duplicate_free wholeLine
                         "original question" (Ok twoLines)))).
Defined.

(** ** Text similarity *)

Lemma splitWhitespace_nonempty (s current : string) (inGap : bool) :
  splitWhitespace s current inGap <> [].
Proof.
  revert current inGap. induction s as [|c s IH]; intros current inGap; simpl.
  - discriminate.
  - destruct (is_space c); [destruct inGap; [apply IH | discriminate] | apply IH].
Qed.

Lemma wordSet_nonempty (text : string) : wordSet text <> [].
Proof. apply array_from_set_nonempty, splitWhitespace_nonempty. Qed.

Lemma wordSet_NoDup (text : string) : List.NoDup (wordSet text).
Proof. exact (proj1 (set_of_spec _ [])). Qed.

Lemma set_of_NoDup_id (xs seen : list string) :
  List.NoDup xs -> (forall x, In x xs -> ~ In x seen) -> set_of seen xs = xs.
Proof.
  revert seen. induction xs as [|x xs IH]; intros seen Hnd Hseen; simpl.
  - reflexivity.
  - inversion Hnd as [|? ? Hx Hnd']; subst.
    destruct (existsb (String.eqb x) seen) eqn:E.
    + apply existsb_eqb_In in E. exfalso. apply (Hseen x); [now left | exact E].
    + f_equal. apply IH; [exact Hnd'|].
      intros y Hy [<-|Hs]; [contradiction|].
      apply (Hseen y); [now right | exact Hs].
Qed.

Lemma set_of_length_le (xs seen : list string) :
  List.length (set_of seen xs) <= List.length xs.
Proof.
  revert seen. induction xs as [|x xs IH]; intros seen; simpl; [lia|].
  destruct (existsb (String.eqb x) seen); [specialize (IH seen) | specialize (IH (x :: seen))];
    simpl; lia.
Qed.

Lemma set_of_app_prefix (xs ys seen : list string) :
  exists rest, set_of seen (xs ++ ys) = set_of seen xs ++ rest.
Proof.
  revert seen. induction xs as [|x xs IH]; intros seen; simpl.
  - eexists. reflexivity.
  - destruct (existsb (String.eqb x) seen).
    + apply IH.
    + destruct (IH (x :: seen)) as [rest ->]. exists rest. reflexivity.
Qed.

Lemma set_of_all_seen (ys seen : list string) :
  (forall y, In y ys -> In y seen) -> set_of seen ys = [].
Proof.
  induction ys as [|y ys IH]; intros Hys; simpl; [reflexivity|].
  destruct (existsb (String.eqb y) seen) eqn:E.
  - apply IH. intros z Hz. apply Hys. now right.
  - assert (Hy : In y seen) by (apply Hys; now left).
    apply existsb_eqb_In in Hy. congruence.
Qed.

Lemma set_of_app_absorb (xs ys seen : list string) :
  (forall y, In y ys -> In y seen \/ In y xs) ->
  set_of seen (xs ++ ys) = set_of seen xs.
Proof.
  revert seen. induction xs as [|x xs IH]; intros seen Hys; simpl.
  - apply set_of_all_seen. intros y Hy. destruct (Hys y Hy) as [H|[]]. exact H.
  - destruct (existsb (String.eqb x) seen) eqn:E.
    + apply IH. intros y Hy. destruct (Hys y Hy) as [H|[H|H]].
      * now left.
      * subst y. left. now apply existsb_eqb_In.
      * now right.
    + f_equal. apply IH. intros y Hy. destruct (Hys y Hy) as [H|[H|H]].
      * left. now right.
      * left. now left.
      * now right.
Qed.

Lemma lower_ascii_idempotent (c : ascii) :
  lower_ascii (lower_ascii c) = lower_ascii c.
Proof. destruct c as [[] [] [] [] [] [] [] []]; reflexivity. Qed.

Lemma toLowerCase_idempotent (s : string) :
  toLowerCase (toLowerCase s) = toLowerCase s.
Proof.
  induction s as [|c s IH]; simpl; [reflexivity|].
  now rewrite IH, lower_ascii_idempotent.
Qed.

Lemma array_from_set_In (xs : list string) (x : string) :
  In x (array_from_set xs) <-> In x xs.
Proof.
  unfold array_from_set. split.
  - intros H. exact (proj1 (proj2 (set_of_spec xs []) x H)).
  - intros H. apply set_of_complete; [exact H | intros []].
Qed.

Lemma array_from_set_same_length (xs ys : list string) :
  (forall x, In x xs <-> In x ys) ->
  List.length (array_from_set xs) = List.length (array_from_set ys).
Proof.
  intros H. apply Permutation.Permutation_length.
  apply Permutation.NoDup_Permutation.
  - exact (proj1 (set_of_spec xs [])).
  - exact (proj1 (set_of_spec ys [])).
  - intros x. rewrite !array_from_set_In. apply H.
Qed.

Lemma ratio_bounds (n d : nat) :
  0 < d -> n <= d -> (0 <= ratio n d)%Q /\ (ratio n d <= 1)%Q.
Proof.
  intros Hd Hn. unfold ratio.
  assert (Hd' : (0 < inject_Z (Z.of_nat d))%Q).
  { change 0%Q with (inject_Z 0). rewrite <- Zlt_Qlt. lia. }
  split.
  - apply Qle_shift_div_l; [exact Hd'|]. rewrite Qmult_0_l.
    change 0%Q with (inject_Z 0). rewrite <- Zle_Qle. lia.
  - apply Qle_shift_div_r; [exact Hd'|]. rewrite Qmult_1_l.
    rewrite <- Zle_Qle. lia.
Qed.

Lemma wordSet_length_pos (text : string) : 0 < List.length (wordSet text).
Proof.
  pose proof (wordSet_nonempty text).
  destruct (wordSet text); [congruence | simpl; lia].
Qed.

Lemma wordSet_union_length (text1 text2 : string) :
  List.length (wordSet text1) <=
  List.length (array_from_set (wordSet text1 ++ wordSet text2)).
Proof.
  destruct (set_of_app_prefix (wordSet text1) (wordSet text2) []) as [rest Hrest].
  unfold array_from_set. rewrite Hrest, List.length_app.
  rewrite (set_of_NoDup_id (wordSet text1) []); [lia | apply wordSet_NoDup |].
  intros x _ [].
Qed.

Lemma calculateTextSimilarity_range (text1 text2 : string) :
  (0 <= calculateTextSimilarity text1 text2)%Q /\
  (calculateTextSimilarity text1 text2 <= 1)%Q.
Proof.
  unfold calculateTextSimilarity. cbv zeta.
  pose proof (wordSet_length_pos text1) as Hpos.
  pose proof (wordSet_union_length text1 text2) as Hunion.
  apply ratio_bounds; [lia|].
  etransitivity; [|exact Hunion].
  unfold array_from_set at 1.
  etransitivity; [apply set_of_length_le|]. apply List.filter_length_le.
Qed.

Lemma calculateTextSimilarity_self (text : string) :
  (calculateTextSimilarity text text == 1)%Q.
Proof.
  unfold calculateTextSimilarity. cbv zeta.
  assert (Hself : List.filter (fun word => existsb (String.eqb word) (wordSet text))
                    (wordSet text) = wordSet text).
  { apply List.forallb_filter_id. apply forallb_forall. intros x Hx.
    apply existsb_eqb_In. exact Hx. }
  rewrite Hself.
  assert (Hi : array_from_set (wordSet text) = wordSet text).
  { apply set_of_NoDup_id; [apply wordSet_NoDup | intros x _ []]. }
  assert (Hu : array_from_set (wordSet text ++ wordSet text) = wordSet text).
  { unfold array_from_set.
    rewrite set_of_app_absorb by (intros y Hy; now right).
    apply set_of_NoDup_id; [apply wordSet_NoDup | intros x _ []]. }
  rewrite Hi, Hu. unfold ratio. field.
  pose proof (wordSet_length_pos text) as Hpos. intros Hz.
  assert (Hlt : (0 < inject_Z (Z.of_nat (List.length (wordSet text))))%Q).
  { change 0%Q with (inject_Z 0). rewrite <- Zlt_Qlt. lia. }
  rewrite Hz in Hlt. exact (Qlt_irrefl _ Hlt).
Qed.

(** X28.  The token similarity used without embeddings: a number between
    0 and 1, equal to 1 for a text compared with itself, blind to letter
    case, and symmetric in its two arguments. *)
Theorem calculateTextSimilarity_bounds (text1 text2 : string) :
  (0 <= calculateTextSimilarity text1 text2)%Q /\
  (calculateTextSimilarity text1 text2 <= 1)%Q /\
  (calculateTextSimilarity text1 text1 == 1)%Q /\
  calculateTextSimilarity (toLowerCase text1) (toLowerCase text2) =
    calculateTextSimilarity text1 text2 /\
  calculateTextSimilarity text2 text1 = calculateTextSimilarity text1 text2.
Proof.
  destruct (calculateTextSimilarity_range text1 text2) as [H0 H1].
  split; [exact H0|]. split; [exact H1|].
  split; [apply calculateTextSimilarity_self|].
  unfold calculateTextSimilarity. cbv zeta. split.
  - unfold wordSet. now rewrite !toLowerCase_idempotent.
  - f_equal.
    + apply array_from_set_same_length. intros x.
      rewrite !filter_In, !existsb_eqb_In. tauto.
    + apply array_from_set_same_length. intros x.
      rewrite !in_app_iff. tauto.
Qed.

(** ** Duplicates without a vector store *)


Lemma processFact_basic_path
    (extractCodePattern : string -> option string)
    (similarity : string -> string -> Q)
    args opts embedder vectorStore llmService o st i fact :
  (embedder && vectorStore)%bool = false ->
  exists a,
    st_memoryActions
      (processFact extractCodePattern similarity
         args opts embedder vectorStore llmService o st i fact) =
      st_memoryActions st ++ [applyConfidenceThreshold opts a] /\
    text a = fact /\
    ((exists ms mem, existingMemories args = Some ms /\ In mem ms /\
                     (similarityThreshold opts < similarity fact (em_text mem))%Q) ->
     event a = NONE /\ confidence a = 0.5%Q).
Proof.
  intros Hpath. unfold processFact. cbv zeta. rewrite Hpath.
  eexists. split; [reflexivity|]. split; [reflexivity|].
  intros (ms & mem & Hms & Hmem & Hsim). rewrite Hms.
  assert (Hex : existsb (fun mem0 => gtb (similarity fact (em_text mem0))
                                        (similarityThreshold opts)) ms = true).
  { apply existsb_exists. exists mem. split; [exact Hmem|].
    apply gtb_gt. exact Hsim. }
  rewrite Hex. simpl. split; reflexivity.
Qed.

(** X29.  Without an embedder or a vector store, a fact that repeats the
    text of one of the [existingMemories] is never added again: for any
    similarity threshold below 1 its action is NONE with confidence 0.5,
    and nothing is written to a vector store. *)
Theorem exact_duplicate_is_not_added_without_vector_store
    (extractCodePattern : string -> option string)
    (args : MemoryOperationArgs) (ctx : option ServiceContext)
    (oracle : nat -> FactOracle) (persist : nat -> result unit)
    (sys : EmbeddingSystem)
    (ms : list ExistingMemory) (mem : ExistingMemory) (A : MemoryAction) :
  let run := handler extractCodePattern calculateTextSimilarity
               args ctx oracle persist sys in
  (resolveEmbedder ctx && resolveVectorStore ctx)%bool = false ->
  (similarityThreshold (mergeOptions (options args)) < 1)%Q ->
  existingMemories args = Some ms -> In mem ms ->
  In A (memory run.1.1) -> em_text mem = text A ->
  event A = NONE /\ confidence A = 0.5%Q /\ run.2 = [].
Proof.
  cbv zeta. intros Hpath Hthr Hms Hmem.
  set (opts := mergeOptions (options args)) in *.
  set (P := fun a : MemoryAction =>
              em_text mem = text a -> event a = NONE /\ confidence a = 0.5%Q).
  assert (Hall : forall facts i st,
             Forall P (st_memoryActions st) ->
             Forall P (st_memoryActions
                         (processFacts extractCodePattern calculateTextSimilarity
                            args opts (resolveEmbedder ctx) (resolveVectorStore ctx)
                            (match ctx with Some c => hasLlmService c | None => false end)
                            oracle i facts st))).
  { induction facts as [|fact rest IH]; intros i st Hst; simpl; [exact Hst|].
    apply IH.
    destruct (processFact_basic_path extractCodePattern calculateTextSimilarity
                args opts (resolveEmbedder ctx) (resolveVectorStore ctx)
                (match ctx with Some c => hasLlmService c | None => false end)
                (oracle i) st i fact Hpath) as (a & -> & Htext & Hdup).
    apply Forall_app. split; [exact Hst|]. constructor; [|constructor].
    intros Hsame.
    destruct (applyConfidenceThreshold_fields opts a) as (_ & Ht & _ & Hc).
    rewrite Ht, Htext in Hsame.
    destruct Hdup as [Hev Hconf].
    { exists ms, mem. split; [exact Hms|]. split; [exact Hmem|].
      rewrite Hsame.
      assert (Hone : (calculateTextSimilarity fact fact == 1)%Q)
        by apply calculateTextSimilarity_self.
      rewrite Hone. exact Hthr. }
    rewrite Hc. split; [|exact Hconf].
    unfold applyConfidenceThreshold. rewrite Hev. simpl.
    rewrite andb_false_r. exact Hev. }
  unfold handler.
  destruct (validateMemoryOperationArgs args); [|intros []].
  cbv zeta.
  destruct (List.map trim _) as [|f fs] eqn:E; [intros []|]. rewrite <- E.
  fold opts. rewrite (andb_comm (resolveVectorStore ctx)), Hpath.
  cbn [fst snd memory].
  intros HA Hsame.
  assert (HP : Forall P (st_memoryActions (mkLoop [] 0 (exactly 0) 0 0 sys))) by constructor.
  pose proof (Hall (List.map trim
                          (List.filter (fun fact => truthy_str (trim fact))
                             (default [] (extractedFacts args))))
                0 (mkLoop [] 0 (exactly 0) 0 0 sys) HP) as Hall'.
  rewrite List.Forall_forall in Hall'.
  destruct (Hall' A HA Hsame) as [Hev Hconf].
  split; [exact Hev|]. split; [exact Hconf | reflexivity].
Qed.

Lemma exact_duplicate_is_not_added_without_vector_store_witness :
  let A := mkAction 123701 pythonFact NONE ["python"; "programming"] None None 0.5 in
  ((resolveEmbedder None && resolveVectorStore None)%bool = false /\
   (similarityThreshold (mergeOptions (options repeatedFact)) < 1)%Q /\
   existingMemories repeatedFact = Some [knownMemory] /\
   In knownMemory [knownMemory] /\
   In A (memory (handler noCodePattern calculateTextSimilarity repeatedFact None
                   oracleAdd embedOk system0).1.1) /\
   em_text knownMemory = text A) /\
  event A = NONE.
Proof.
  cbv zeta.
  assert (H1 : (resolveEmbedder None && resolveVectorStore None)%bool = false)
    by reflexivity.
  assert (H2 : (similarityThreshold (mergeOptions (options repeatedFact)) < 1)%Q)
    by reflexivity.
  assert (H3 : existingMemories repeatedFact = Some [knownMemory]) by reflexivity.
  assert (H4 : In knownMemory [knownMemory]) by (left; reflexivity).
  assert (H5 : In (mkAction 123701 pythonFact NONE ["python"; "programming"]
                     None None 0.5)
                 (memory (handler noCodePattern calculateTextSimilarity repeatedFact
                            None oracleAdd embedOk system0).1.1)).
  { vm_compute. left. reflexivity. }
  assert (H6 : em_text knownMemory =
               text (mkAction 123701 pythonFact NONE ["python"; "programming"]
                       None None 0.5)) by reflexivity.
  split; [repeat split; assumption|].
  exact (proj1 (exact_duplicate_is_not_added_without_vector_store noCodePattern
                  repeatedFact None oracleAdd embedOk system0 [knownMemory]
                  knownMemory _ H1 H2 H3 H4 H5 H6)).
Defined.
